(** * Chat-completion gateway: validation, routing and error normalisation

    A shallow embedding of the API layer of the multi-model chat gateway:

    - [src/app/api/ai-chat/types.ts]          (schema, error table, [createErrorResponse])
    - [src/app/api/ai-chat/route.ts]          (router)
    - [src/app/api/ai-chat/openai/route.ts]   (OpenAI adapter)
    - [src/app/api/ai-chat/gemini/route.ts]   (Gemini adapter)
    - [src/app/api/ai-chat/deepseek/route.ts] (DeepSeek adapter)

    JavaScript strings are sequences of UTF-16 code units, JavaScript objects
    used as records are finite maps from property names to values, and the
    handlers run in a small monad that records every outbound call and
    propagates thrown values to the enclosing [try]/[catch]. *)

From Stdlib Require Import ZArith QArith String Ascii List Lia.
From stdpp Require Import base option list gmap pretty.

Set Warnings "-register-all".
Local Open Scope Z_scope.

(* ===================================================================== *)
(** ** JavaScript strings *)
(* ===================================================================== *)

Module JsString.

(** A string is its sequence of UTF-16 code units. *)
Abbreviation jsstring := (list N).

(** Source literals are ASCII; [lit] reads one as code units. *)
Definition lit (s : string) : jsstring :=
  map N_of_ascii (list_ascii_of_string s).

(** ECMAScript [WhiteSpace] and [LineTerminator] code points, the set that
    [String.prototype.trim] strips. *)
Definition is_whitespace (c : N) : bool :=
  ((9 <=? c) && (c <=? 13))%N
  || (c =? 32)%N || (c =? 160)%N || (c =? 5760)%N
  || ((8192 <=? c) && (c <=? 8202))%N
  || (c =? 8232)%N || (c =? 8233)%N || (c =? 8239)%N
  || (c =? 8287)%N || (c =? 12288)%N || (c =? 65279)%N.

Fixpoint trimStart (s : jsstring) : jsstring :=
  match s with
  | c :: s' => if is_whitespace c then trimStart s' else s
  | [] => []
  end.

Definition trimEnd (s : jsstring) : jsstring :=
  rev (trimStart (rev s)).

(** [s.trim()] *)
Definition trim (s : jsstring) : jsstring := trimEnd (trimStart s).

Fixpoint startsWith (needle hay : jsstring) : bool :=
  match needle, hay with
  | [], _ => true
  | _ :: _, [] => false
  | a :: needle', b :: hay' => (a =? b)%N && startsWith needle' hay'
  end.

(** [hay.includes(needle)]: case-sensitive substring search. *)
Fixpoint includes (hay needle : jsstring) : bool :=
  startsWith needle hay ||
  match hay with
  | [] => false
  | _ :: hay' => includes hay' needle
  end.

(** The decimal notation of an integer. *)
Definition decimal (n : Z) : jsstring := lit (pretty n).

(** The integers a JavaScript number holds exactly and
    [Number.prototype.toString] writes in plain decimal notation:
    [Number.isSafeInteger]. *)
Definition is_safe_integer (n : Z) : bool :=
  Z.abs n <=? 9007199254740991.

(** A string is truthy iff it is non-empty. *)
Definition truthy (s : jsstring) : bool :=
  match s with [] => false | _ :: _ => true end.

(** A decimal digit, as a character of a source literal. *)
Definition is_digit (c : ascii) : bool :=
  let n := N_of_ascii c in ((48 <=? n) && (n <=? 57))%N.

(** The string is made of white space only (possibly empty). *)
Definition whitespace_only (s : jsstring) : Prop :=
  Forall (fun c => is_whitespace c = true) s.

End JsString.
Export JsString.

(* ===================================================================== *)
(** ** JavaScript values (what [JSON.parse] and property access produce) *)
(* ===================================================================== *)

(** A number is its value together with the text [Number::toString] gives
    for it (the rendering of a non-integer depends on its floating-point
    representation, so it is carried rather than recomputed). *)
Record JsNumber := mkJsNumber {
  num_value : Q;
  num_text : list N
}.

(** An integer-valued number. *)
Definition num_of_Z (z : Z) : JsNumber := mkJsNumber (inject_Z z) (decimal z).

Inductive JsValue : Type :=
  | JUndefined
  | JNull
  | JBool (b : bool)
  | JNum (n : JsNumber)
  | JStr (s : list N)
  | JArr (elems : list JsValue)
  | JObj (props : gmap (list N) JsValue).

(** Property read [v.k] for a data property name [k] that no built-in
    prototype defines ([messages], [role], [content], [model], ...):
    [None] is the [TypeError] of reading a property of [null] or
    [undefined]; on any other non-object the read yields [undefined]. *)
Definition get_prop (v : JsValue) (k : jsstring) : option JsValue :=
  match v with
  | JUndefined | JNull => None
  | JObj props => Some (default JUndefined (props !! k))
  | _ => Some JUndefined
  end.

(** Optional chaining [v?.k]. *)
Definition get_prop_opt (v : JsValue) (k : jsstring) : JsValue :=
  default JUndefined (get_prop v k).

(** JavaScript truthiness, as tested by [!x], [x || y] and [if (x)]. *)
Definition js_truthy (v : JsValue) : bool :=
  match v with
  | JUndefined | JNull => false
  | JBool b => b
  | JNum n => negb (Qnum (num_value n) =? 0)
  | JStr s => JsString.truthy s
  | JArr _ | JObj _ => true
  end.

(** [a || b] *)
Definition js_or (a b : JsValue) : JsValue := if js_truthy a then a else b.

(** [Array.prototype.join] with the default separator, on rendered
    elements. *)
Fixpoint join_comma (l : list jsstring) : jsstring :=
  match l with
  | [] => []
  | [s] => s
  | s :: l' => s ++ lit "," ++ join_comma l'
  end.

(** All the renderings, or [None] as soon as one is missing. *)
Fixpoint all_rendered (l : list (option jsstring)) : option (list jsstring) :=
  match l with
  | [] => Some []
  | Some s :: l' =>
      match all_rendered l' with
      | Some ss => Some (s :: ss)
      | None => None
      end
  | None :: _ => None
  end.

(** String conversion, as a template literal applies it to an interpolated
    value; [None] is the [TypeError] "Cannot convert object to primitive
    value". A parsed object converts through [Object.prototype.toString]
    unless it has a key [toString] of its own: that value is not callable,
    and [valueOf] gives back the object. An array joins the conversions of
    its elements, [null] and [undefined] counting as empty. *)
Fixpoint js_String (v : JsValue) : option jsstring :=
  match v with
  | JUndefined => Some (lit "undefined")
  | JNull => Some (lit "null")
  | JBool true => Some (lit "true")
  | JBool false => Some (lit "false")
  | JNum n => Some (num_text n)
  | JStr s => Some s
  | JArr elems =>
      match all_rendered
              (map (fun e => match e with
                             | JUndefined | JNull => Some []
                             | _ => js_String e
                             end) elems) with
      | Some ss => Some (join_comma ss)
      | None => None
      end
  | JObj props =>
      match props !! lit "toString" with
      | Some _ => None
      | None => Some (lit "[object Object]")
      end
  end.

(** Message texts of the runtime's own errors (V8, the engine of Node.js). *)
Module V8.

(** How the message names the value read from. *)
Definition nullish_text (v : JsValue) : jsstring :=
  match v with
  | JNull => lit "null"
  | _ => lit "undefined"
  end.

Definition read_of_nullish (v : JsValue) (prop : String.string) : jsstring :=
  lit "Cannot read properties of " ++ nullish_text v
    ++ lit " (reading '" ++ lit prop ++ lit "')".

Definition not_a_function (callee : String.string) : jsstring :=
  lit callee ++ lit " is not a function".

Definition not_async_iterable (expr : String.string) : jsstring :=
  lit expr ++ lit " is not async iterable".

Definition status_out_of_range : jsstring :=
  lit "init[" ++ [34%N] ++ lit "status" ++ [34%N]
    ++ lit "] must be in the range of 200 to 599, inclusive.".

Definition null_body_status (s : Z) : jsstring :=
  lit "Response constructor: Invalid response status code " ++ decimal s.

Definition not_primitive : jsstring :=
  lit "Cannot convert object to primitive value".

(** [JSON.parse] on the plain-text body "Internal Server Error". *)
Definition not_json : jsstring :=
  lit "Unexpected token 'I', " ++ [34%N] ++ lit "Internal S" ++ [34%N]
    ++ lit "... is not valid JSON".

End V8.

(* ===================================================================== *)
(** ** [types.ts]: data model *)
(* ===================================================================== *)

Inductive MessageRole := user | assistant | system.

Inductive AIModel := openai | gemini | deepseek.

Inductive ErrorType :=
  | API_ERROR
  | VALIDATION_ERROR
  | CONFIGURATION_ERROR
  | UNSUPPORTED_MODEL
  | RATE_LIMIT_ERROR
  | AUTHENTICATION_ERROR
  | NETWORK_ERROR
  | UNKNOWN_ERROR.

Record FunctionCall := mkFunctionCall {
  fc_name : jsstring;
  fc_arguments : jsstring
}.

Record Message := mkMessage {
  role : MessageRole;
  content : jsstring;
  name : option jsstring;
  function_call : option FunctionCall
}.

Record ChatRequest := mkChatRequest {
  model : AIModel;
  messages : list Message;
  stream : option bool;
  parameters : option (gmap (list N) JsValue)
}.

Record Usage := mkUsage {
  promptTokens : Z;
  completionTokens : Z;
  totalTokens : Z
}.

(** One step of the path zod reports for a violated field. *)
Inductive PathSeg := PKey (k : jsstring) | PIdx (i : nat).

Definition ZodIssue : Type := list PathSeg.

(** The response object a failed HTTP call attaches to the error it rejects
    with ([error.response] of the HTTP client): a numeric status, which is
    a safe integer, and the decoded body. *)
Record UpstreamResponse := mkUpstreamResponse {
  status : Z;
  data : JsValue;
  status_safe : is_safe_integer status = true
}.

(** [response.status.toString()]: a safe integer is written in decimal. *)
Definition status_toString (r : UpstreamResponse) : jsstring :=
  decimal (status r).

(** An [Error] instance that is not a [ChatErrorImpl]. *)
Record ErrorObj := mkErrorObj {
  err_message : jsstring;
  response : option UpstreamResponse
}.

(** What the [details] slot of a [ChatError] can hold. *)
Inductive Details :=
  | DJson (v : JsValue)
  | DZodError (issues : list ZodIssue)
  | DError (e : ErrorObj).

(** [interface ChatError], implemented by [class ChatErrorImpl]. *)
Record ChatError := ChatErrorImpl {
  message : jsstring;
  statusCode : Z;
  type : ErrorType;
  details : Details;
  suggestion : option jsstring
}.

(** Anything a [catch (error)] clause can receive. *)
Inductive Thrown :=
  | ThrowChatError (e : ChatError)   (* error instanceof ChatErrorImpl *)
  | ThrowError (e : ErrorObj)        (* error instanceof Error, otherwise *)
  | ThrowValue (v : JsValue).        (* not an Error at all *)

(** How an evaluation ends: with a value or with a thrown one. *)
Inductive Outcome (A : Type) :=
  | Returned (a : A)
  | Threw (e : Thrown).
Arguments Returned {A} a.
Arguments Threw {A} e.

(** The JSON body of a handler's response; [None] is an absent field
    ([JSON.stringify] drops [undefined] properties). *)
Record ChatResponse := mkChatResponse {
  reply : jsstring;
  error : option jsstring;
  errorType : option ErrorType;
  resp_suggestion : option jsstring;
  resp_details : Details;
  usage : option Usage
}.

(** [NextResponse.json(body, { status })]. *)
Record HttpResponse := mkHttpResponse {
  http_status : Z;
  http_body : ChatResponse
}.

(* ===================================================================== *)
(** ** [types.ts]: [chatRequestSchema] *)
(* ===================================================================== *)

Module Zod.

Inductive Result (T : Type) :=
  | Ok (t : T)
  | Err (issues : list ZodIssue).
Arguments Ok {T} t.
Arguments Err {T} issues.

Definition issues_of {T} (r : Result T) : list ZodIssue :=
  match r with Ok _ => [] | Err i => i end.

(** zod reports every violated field, not only the first. *)
Definition both {A B} (ra : Result A) (rb : Result B) : Result (A * B) :=
  match ra, rb with
  | Ok a, Ok b => Ok (a, b)
  | _, _ => Err (issues_of ra ++ issues_of rb)
  end.

Definition transform {A B} (f : A -> B) (r : Result A) : Result B :=
  match r with Ok a => Ok (f a) | Err i => Err i end.

(** [z.string()] *)
Definition string (path : ZodIssue) (v : JsValue) : Result jsstring :=
  match v with JStr s => Ok s | _ => Err [path] end.

(** [z.string().min(n)] *)
Definition string_min (n : nat) (path : ZodIssue) (v : JsValue)
  : Result jsstring :=
  match v with
  | JStr s => if (n <=? length s)%nat then Ok s else Err [path]
  | _ => Err [path]
  end.

(** [z.boolean()] *)
Definition boolean (path : ZodIssue) (v : JsValue) : Result bool :=
  match v with JBool b => Ok b | _ => Err [path] end.

(** [schema.optional()] *)
Definition optional {T} (schema : ZodIssue -> JsValue -> Result T)
  (path : ZodIssue) (v : JsValue) : Result (option T) :=
  match v with
  | JUndefined => Ok None
  | _ => transform Some (schema path v)
  end.

(** [z.record(z.unknown())] *)
Definition record_unknown (path : ZodIssue) (v : JsValue)
  : Result (gmap (list N) JsValue) :=
  match v with JObj props => Ok props | _ => Err [path] end.

(** [z.array(schema)] *)
Fixpoint array_items {T} (schema : ZodIssue -> JsValue -> Result T)
  (path : ZodIssue) (i : nat) (l : list JsValue) : Result (list T) :=
  match l with
  | [] => Ok []
  | v :: l' =>
      transform (fun p => fst p :: snd p)
          (both (schema (path ++ [PIdx i]) v)
                (array_items schema path (S i) l'))
  end.

Definition array {T} (schema : ZodIssue -> JsValue -> Result T)
  (path : ZodIssue) (v : JsValue) : Result (list T) :=
  match v with
  | JArr l => array_items schema path 0 l
  | _ => Err [path]
  end.

(** Field [k] of an object being parsed by [z.object]. *)
Definition field (props : gmap (list N) JsValue) (k : String.string) : JsValue :=
  default JUndefined (props !! lit k).

End Zod.

Definition list_N_eqb (a b : list N) : bool := bool_decide (a = b).

(** [z.enum(["user", "assistant", "system"])] *)
Definition role_schema (path : ZodIssue) (v : JsValue)
  : Zod.Result MessageRole :=
  match v with
  | JStr s =>
      if list_N_eqb s (lit "user") then Zod.Ok user
      else if list_N_eqb s (lit "assistant") then Zod.Ok assistant
      else if list_N_eqb s (lit "system") then Zod.Ok system
      else Zod.Err [path]
  | _ => Zod.Err [path]
  end.

(** [z.enum(["openai", "gemini", "deepseek"])] *)
Definition model_schema (path : ZodIssue) (v : JsValue)
  : Zod.Result AIModel :=
  match v with
  | JStr s =>
      if list_N_eqb s (lit "openai") then Zod.Ok openai
      else if list_N_eqb s (lit "gemini") then Zod.Ok gemini
      else if list_N_eqb s (lit "deepseek") then Zod.Ok deepseek
      else Zod.Err [path]
  | _ => Zod.Err [path]
  end.

(** [z.object({ name: z.string(), arguments: z.string() })] *)
Definition function_call_schema (path : ZodIssue) (v : JsValue)
  : Zod.Result FunctionCall :=
  match v with
  | JObj props =>
      Zod.transform (fun p => mkFunctionCall (fst p) (snd p))
        (Zod.both
           (Zod.string (path ++ [PKey (lit "name")]) (Zod.field props "name"))
           (Zod.string (path ++ [PKey (lit "arguments")])
                       (Zod.field props "arguments")))
  | _ => Zod.Err [path]
  end.

(** The element schema of [messages]. *)
Definition message_schema (path : ZodIssue) (v : JsValue)
  : Zod.Result Message :=
  match v with
  | JObj props =>
      Zod.transform (fun p => mkMessage (fst (fst (fst p))) (snd (fst (fst p)))
                                  (snd (fst p)) (snd p))
        (Zod.both (Zod.both (Zod.both
           (role_schema (path ++ [PKey (lit "role")]) (Zod.field props "role"))
           (Zod.string_min 0 (path ++ [PKey (lit "content")])
                           (Zod.field props "content")))
           (Zod.optional Zod.string (path ++ [PKey (lit "name")])
                         (Zod.field props "name")))
           (Zod.optional function_call_schema
                         (path ++ [PKey (lit "function_call")])
                         (Zod.field props "function_call")))
  | _ => Zod.Err [path]
  end.

(** [chatRequestSchema.safeParse(v)]; unknown top-level keys are ignored. *)
Definition chatRequestSchema (v : JsValue) : Zod.Result ChatRequest :=
  match v with
  | JObj props =>
      Zod.transform (fun p => mkChatRequest (fst (fst (fst p))) (snd (fst (fst p)))
                                      (snd (fst p)) (snd p))
        (Zod.both (Zod.both (Zod.both
           (model_schema [PKey (lit "model")] (Zod.field props "model"))
           (Zod.array message_schema [PKey (lit "messages")]
                      (Zod.field props "messages")))
           (Zod.optional Zod.boolean [PKey (lit "stream")]
                         (Zod.field props "stream")))
           (Zod.optional Zod.record_unknown [PKey (lit "parameters")]
                         (Zod.field props "parameters")))
  | _ => Zod.Err [[]]
  end.

(* ===================================================================== *)
(** ** [types.ts]: the error table and [createErrorResponse] *)
(* ===================================================================== *)

Record ErrorInfo := mkErrorInfo {
  info_message : jsstring;
  info_type : ErrorType;
  info_suggestion : option jsstring
}.

(** [API_ERROR_MESSAGES.NETWORK] *)
Definition API_ERROR_MESSAGES_NETWORK : ErrorInfo :=
  mkErrorInfo (lit "Unable to connect to the AI service.")
              NETWORK_ERROR
              (Some (lit "Please check your internet connection and try again.")).

(** [API_ERROR_MESSAGES], keyed by property name. *)
Definition API_ERROR_MESSAGES : gmap (list N) ErrorInfo :=
  <[ lit "429" :=
       mkErrorInfo (lit "The selected AI model is currently at capacity.")
                   API_ERROR
                   (Some (lit "Please try again later or select a different model.")) ]>
  (<[ lit "401" :=
       mkErrorInfo (lit "API key is invalid or not configured.")
                   AUTHENTICATION_ERROR
                   (Some (lit "Please check your API key in the settings.")) ]>
  (<[ lit "403" :=
       mkErrorInfo (lit "Access to the AI model is forbidden.")
                   AUTHENTICATION_ERROR
                   (Some (lit "Please verify your API key and permissions.")) ]>
  (<[ lit "500" :=
       mkErrorInfo (lit "The AI service is experiencing issues.")
                   API_ERROR
                   (Some (lit "Please try again later or contact support if the issue persists.")) ]>
  (<[ lit "503" :=
       mkErrorInfo (lit "The AI service is temporarily unavailable.")
                   API_ERROR
                   (Some (lit "Please try again in a few minutes.")) ]>
  (<[ lit "400" :=
       mkErrorInfo (lit "Invalid request format.")
                   VALIDATION_ERROR
                   (Some (lit "Please check your input and try again.")) ]>
  (<[ lit "NETWORK" := API_ERROR_MESSAGES_NETWORK ]>
  (<[ lit "MODEL" :=
       mkErrorInfo (lit "The selected model is not available.")
                   API_ERROR
                   (Some (lit "Please try a different model or check the model's status.")) ]>
   ∅))))))).

(** [apiError?.response?.status] when it is truthy: the response whose
    status the [if] accepted. *)
Definition response_with_status (e : ErrorObj) : option UpstreamResponse :=
  match response e with
  | Some r => if status r =? 0 then None else Some r
  | None => None
  end.

(** [apiError.response.data?.error?.message || error.message], as the
    template literal renders it; [None] when that conversion throws. *)
Definition upstream_message (r : UpstreamResponse) (e : ErrorObj)
  : option jsstring :=
  js_String
    (js_or (get_prop_opt (get_prop_opt (data r) (lit "error")) (lit "message"))
           (JStr (err_message e))).

(** The default [ChatErrorImpl] of the last statement. *)
Definition default_error (details : Details) (defaultMessage : jsstring)
  : ChatError :=
  ChatErrorImpl defaultMessage 500 UNKNOWN_ERROR details
    (Some (lit "Please try again later or contact support if the issue persists.")).

(** [createErrorResponse]: the [ChatError] it returns, or the [TypeError]
    of the one statement that can throw, the template literal of the
    fallback row, which is evaluated only when the table has no row for the
    status. *)
Definition createErrorResponse (error : Thrown) (defaultMessage : jsstring)
  : Outcome ChatError :=
  match error with
  | ThrowChatError e => Returned e
  | ThrowError e =>
      match response_with_status e with
      | Some r =>
          let status' := status_toString r in
          match API_ERROR_MESSAGES !! status' with
          | Some errorInfo =>
              Returned (ChatErrorImpl (info_message errorInfo)
                                      (status r)
                                      (info_type errorInfo)
                                      (DJson (data r))
                                      (info_suggestion errorInfo))
          | None =>
              match upstream_message r e with
              | Some text =>
                  Returned (ChatErrorImpl
                              (lit "API Error (" ++ status' ++ lit "): " ++ text)
                              (status r)
                              API_ERROR
                              (DJson (data r))
                              (Some (lit "Please try again later.")))
              | None =>
                  Threw (ThrowError (mkErrorObj V8.not_primitive None))
              end
          end
      | None =>
          if includes (err_message e) (lit "network")
             || includes (err_message e) (lit "connect")
          then
            Returned (ChatErrorImpl (info_message API_ERROR_MESSAGES_NETWORK)
                                    503
                                    NETWORK_ERROR
                                    (DError e)
                                    (info_suggestion API_ERROR_MESSAGES_NETWORK))
          else Returned (default_error (DError e) defaultMessage)
      end
  | ThrowValue v => Returned (default_error (DJson v) defaultMessage)
  end.

(** The default value of the [defaultMessage] parameter. *)
Definition default_defaultMessage : jsstring :=
  lit "An unexpected error occurred".

(* ===================================================================== *)
(** ** Effects: outbound calls and exceptions *)
(* ===================================================================== *)

(** One message of the Gemini request: [{ role, parts: [{ text }] }]. *)
Record GeminiContent := mkGeminiContent {
  gc_role : jsstring;
  gc_parts : list jsstring
}.

(** Every call that leaves a handler. *)
Inductive Call :=
  | CallAxiosPost (endpoint : jsstring) (requestBody : gmap (list N) JsValue)
                  (headers : list (jsstring * jsstring))
  | CallOpenAICreate (body : gmap (list N) JsValue)
  | CallGeminiGenerateContent (model : jsstring) (contents : list GeminiContent)
  | CallGeminiGenerateContentStream (model : jsstring)
                                    (contents : list GeminiContent)
  | CallFetch (path : jsstring) (body : JsValue).

(** A computation: its outcome and the outbound calls it made, in order. *)
Definition M (A : Type) : Type := Outcome A * list Call.

Definition ret {A} (a : A) : M A := (Returned a, []).

Definition throw {A} (e : Thrown) : M A := (Threw e, []).

Definition bind {A B} (m : M A) (k : A -> M B) : M B :=
  match m with
  | (Returned a, calls) =>
      let '(r, calls') := k a in (r, calls ++ calls')
  | (Threw e, calls) => (Threw e, calls)
  end.

(** [try { m } catch (error) { handler error }] *)
Definition try_catch {A} (m : M A) (handler : Thrown -> M A) : M A :=
  match m with
  | (Returned a, calls) => (Returned a, calls)
  | (Threw e, calls) =>
      let '(r, calls') := handler e in (r, calls ++ calls')
  end.

(** [await f(...)]: the call is recorded and its outcome taken from the
    outside world. *)
Definition outbound {A} (c : Call) (result : Outcome A) : M A := (result, [c]).

Definition lift {A} (o : Outcome A) : M A := (o, []).

Notation "x <- m ;; k" := (bind m (fun x => k))
  (at level 100, m at level 99, right associativity).
Notation "m ;;; k" := (bind m (fun _ => k))
  (at level 100, right associativity).

Fixpoint mapM {A B} (f : A -> M B) (l : list A) : M (list B) :=
  match l with
  | [] => ret []
  | a :: l' => b <- f a ;; bs <- mapM f l' ;; ret (b :: bs)
  end.

(** [throw new TypeError(msg)] and the like, raised by the runtime. *)
Definition runtime_error {A} (msg : jsstring) : M A :=
  throw (ThrowError (mkErrorObj msg None)).

(** A stream handed out by a provider SDK: the chunks it yields and, when
    the iteration ends by rejecting, the value it rejects with. *)
Record Stream (A : Type) := mkStream {
  chunks : list A;
  failure : option Thrown
}.
Arguments mkStream {A} chunks failure.
Arguments chunks {A} s.
Arguments failure {A} s.

(** [NextResponse.json(body, { status })]: the [Response] constructor
    refuses a status outside 200..599 and refuses a body together with a
    null-body status. *)
Definition NextResponse_json (body : ChatResponse) (status : Z)
  : M HttpResponse :=
  if negb ((200 <=? status) && (status <=? 599)) then
    runtime_error V8.status_out_of_range
  else if (status =? 204) || (status =? 205) || (status =? 304) then
    runtime_error (V8.null_body_status status)
  else ret (mkHttpResponse status body).

(** [undefined], in a [details] slot. *)
Definition undefined_details : Details := DJson JUndefined.

(** [NextResponse.json({ reply, usage })] *)
Definition success_response (reply : jsstring) (usage : option Usage)
  : M HttpResponse :=
  NextResponse_json
    (mkChatResponse reply None None None undefined_details usage) 200.

(** [NextResponse.json({ reply: "", error: chatError.message,
      errorType: chatError.type, suggestion: chatError.suggestion,
      details: chatError.details }, { status: chatError.statusCode })] *)
Definition error_response (chatError : ChatError) : M HttpResponse :=
  NextResponse_json
    (mkChatResponse [] (Some (message chatError)) (Some (type chatError))
                    (suggestion chatError) (details chatError) None)
    (statusCode chatError).

(* ===================================================================== *)
(** ** The outside world of a handler *)
(* ===================================================================== *)

(** [{ content }] of a completion choice. *)
Record CompletionMessage := mkCompletionMessage {
  cm_content : option jsstring
}.

Record CompletionChoice := mkCompletionChoice {
  choice_message : option CompletionMessage
}.

(** [res.data] of the DeepSeek endpoint. *)
Record DeepSeekData := mkDeepSeekData {
  ds_choices : option (list CompletionChoice)
}.

Record OpenAIUsage := mkOpenAIUsage {
  prompt_tokens : Z;
  completion_tokens : Z;
  total_tokens : Z
}.

(** [OpenAI.ChatCompletion] *)
Record ChatCompletion := mkChatCompletion {
  choices : list CompletionChoice;
  completion_usage : option OpenAIUsage
}.

Record ChunkDelta := mkChunkDelta {
  delta_content : option jsstring
}.

Record ChunkChoice := mkChunkChoice {
  delta : option ChunkDelta
}.

(** [OpenAI.ChatCompletionChunk] *)
Record ChatCompletionChunk := mkChatCompletionChunk {
  chunk_choices : list ChunkChoice
}.

(** What [openai.chat.completions.create] resolves to: a completion, or a
    stream of chunks when the request it received asked for one. *)
Inductive OpenAIResult :=
  | Completion (c : ChatCompletion)
  | ChunkStream (s : Stream ChatCompletionChunk).

Record GeminiPart := mkGeminiPart { part_text : option jsstring }.
Record GeminiCandidateContent := mkGeminiCandidateContent {
  cc_parts : option (list GeminiPart)
}.
Record GeminiCandidate := mkGeminiCandidate {
  candidate_content : option GeminiCandidateContent
}.

(** [GenerateContentResponse] *)
Record GenerateContentResponse := mkGenerateContentResponse {
  candidates : option (list GeminiCandidate)
}.

(** A chunk of the Gemini stream, seen through its [text] accessor. *)
Record GeminiChunk := mkGeminiChunk { chunk_text : option jsstring }.

(** The process environment and the remote providers. *)
Record World := mkWorld {
  OPENAI_API_KEY : option jsstring;
  GEMINI_API_KEY : option jsstring;
  DEEPSEEK_API_KEY : option jsstring;
  axios_post : jsstring -> gmap (list N) JsValue -> list (jsstring * jsstring)
               -> Outcome DeepSeekData;
  openai_create : gmap (list N) JsValue -> Outcome OpenAIResult;
  gemini_generateContent : jsstring -> list GeminiContent
                           -> Outcome GenerateContentResponse;
  gemini_generateContentStream : jsstring -> list GeminiContent
                                 -> Outcome (Stream GeminiChunk)
}.

(** What [await req.json()] does: it gives the parsed body, or rejects with
    the runtime's error for a body that is not JSON. *)
Inductive JsonResult :=
  | Parsed (body : JsValue)
  | Malformed (message : jsstring).

(** [NextRequest], as far as the handlers use it. *)
Record NextRequest := mkNextRequest {
  json : JsonResult
}.

Definition req_json (req : NextRequest) : M JsValue :=
  match json req with
  | Parsed body => ret body
  | Malformed msg => runtime_error msg
  end.

(** [!process.env.KEY] *)
Definition env_missing (key : option jsstring) : bool :=
  match key with
  | None => true
  | Some s => negb (JsString.truthy s)
  end.

(* ===================================================================== *)
(** ** The prologue shared by the four handlers *)
(* ===================================================================== *)

(** The callback of [body.messages.map]:
    [(msg) => ({ role: msg.role, content: msg.content?.trim() || "" })] *)
Definition clean_message (msg : JsValue) : M JsValue :=
  match get_prop msg (lit "role"), get_prop msg (lit "content") with
  | Some role, Some content =>
      content' <-
        match content with
        | JUndefined | JNull => ret []
        | JStr s => ret (if JsString.truthy (trim s) then trim s else [])
        | _ => runtime_error (V8.not_a_function "msg.content?.trim")
        end ;;
      ret (JObj (<[ lit "role" := role ]>
                 (<[ lit "content" := JStr content' ]> ∅)))
  | _, _ => runtime_error (V8.read_of_nullish msg "role")
  end.

(** [const cleanedMessages = body.messages.map(...)] *)
Definition cleanedMessages (body : JsValue) : M (list JsValue) :=
  match get_prop body (lit "messages") with
  | None => runtime_error (V8.read_of_nullish body "messages")
  | Some (JArr msgs) => mapM clean_message msgs
  | Some JUndefined => runtime_error (V8.read_of_nullish JUndefined "map")
  | Some JNull => runtime_error (V8.read_of_nullish JNull "map")
  | Some _ => runtime_error (V8.not_a_function "body.messages.map")
  end.

(** The own properties an object spread [...v] copies. *)
Definition spread (v : JsValue) : gmap (list N) JsValue :=
  match v with
  | JObj props => props
  | _ => ∅
  end.

(** [chatRequestSchema.safeParse({ ...body, messages: cleanedMessages })] *)
Definition validationResult (body : JsValue) (cleaned : list JsValue)
  : Zod.Result ChatRequest :=
  chatRequestSchema (JObj (<[ lit "messages" := JArr cleaned ]> (spread body))).

(** [throw new ChatErrorImpl("Invalid request format", 400,
      "VALIDATION_ERROR", validationResult.error, ...)] *)
Definition validation_error (issues : list ZodIssue) : ChatError :=
  ChatErrorImpl (lit "Invalid request format") 400 VALIDATION_ERROR
    (DZodError issues)
    (Some (lit "Please check your message format and try again.")).

(** From [await req.json()] to [validationResult.data]. *)
Definition parse_request (req : NextRequest) : M (JsValue * ChatRequest) :=
  body <- req_json req ;;
  cleaned <- cleanedMessages body ;;
  match validationResult body cleaned with
  | Zod.Err issues => throw (ThrowChatError (validation_error issues))
  | Zod.Ok data => ret (body, data)
  end.

(** The outer [catch (error)] of every handler. *)
Definition outer_catch (error : Thrown) : M HttpResponse :=
  chatError <- lift (createErrorResponse error default_defaultMessage) ;;
  error_response chatError.

(** The inner [catch (error)] of an adapter. *)
Definition provider_catch (defaultMessage : String.string) (error : Thrown)
  : M HttpResponse :=
  chatError <- lift (createErrorResponse error (lit defaultMessage)) ;;
  error_response chatError.

(** A route of the application: the module is loaded, then its exported
    [POST] runs. When the module throws while loading, the request finds no
    handler and the computation ends with that exception. *)
Definition route (load : Outcome unit) (handler : M HttpResponse)
  : M HttpResponse :=
  match load with
  | Returned _ => handler
  | Threw e => throw e
  end.

(** The configuration guard at the top of an adapter. *)
Definition require_key (key : option jsstring) (provider : String.string)
  : M unit :=
  if env_missing key then
    throw (ThrowChatError
      (ChatErrorImpl
         (lit provider ++ lit " API key is not configured")
         500 CONFIGURATION_ERROR undefined_details
         (Some (lit "Please configure your " ++ lit provider
                ++ lit " API key in the environment variables."))))
  else ret tt.

(* ===================================================================== *)
(** ** Request shaping *)
(* ===================================================================== *)

(** Optional chaining over typed provider data: [o?.f]. *)
Definition chain {A B} (o : option A) (f : A -> option B) : option B :=
  match o with Some a => f a | None => None end.
Notation "o ?> f" := (chain o f) (at level 50, left associativity).

Definition role_text (r : MessageRole) : jsstring :=
  match r with
  | user => lit "user"
  | assistant => lit "assistant"
  | system => lit "system"
  end.

Definition js_of_option_string (o : option jsstring) : JsValue :=
  match o with Some s => JStr s | None => JUndefined end.

Definition js_of_function_call (o : option FunctionCall) : JsValue :=
  match o with
  | Some fc => JObj (<[ lit "name" := JStr (fc_name fc) ]>
                     (<[ lit "arguments" := JStr (fc_arguments fc) ]> ∅))
  | None => JUndefined
  end.

(** The object literal [{ ...defaults, ...parameters }]: a later property
    replaces an earlier one of the same name; spreading [undefined] adds
    nothing. *)
Definition with_parameters (defaults : gmap (list N) JsValue)
  (parameters : option (gmap (list N) JsValue)) : gmap (list N) JsValue :=
  default ∅ parameters ∪ defaults.

Definition number_0_7 : JsNumber := mkJsNumber (7 # 10) (lit "0.7").

Module DeepSeek.

Definition endpoint : jsstring :=
  lit "https://api.deepseek.com/chat/completions".
Definition config_model : jsstring := lit "deepseek-chat".
Definition temperature : JsNumber := number_0_7.
Definition maxTokens : JsNumber := num_of_Z 1000.

(** [config.headers]; the template renders an unset key as "undefined". *)
Definition headers (w : World) : list (jsstring * jsstring) :=
  [ (lit "Content-Type", lit "application/json");
    (lit "Authorization",
     lit "Bearer " ++ default (lit "undefined") (DEEPSEEK_API_KEY w)) ].

(** [{ role: msg.role, content: msg.content }] *)
Definition message_json (msg : Message) : JsValue :=
  JObj (<[ lit "role" := JStr (role_text (role msg)) ]>
        (<[ lit "content" := JStr (content msg) ]> ∅)).

Definition defaults (msgs : list Message) : gmap (list N) JsValue :=
  <[ lit "model" := JStr config_model ]>
  (<[ lit "messages" := JArr (map message_json msgs) ]>
  (<[ lit "temperature" := JNum temperature ]>
  (<[ lit "max_tokens" := JNum maxTokens ]> ∅))).

Definition requestBody (data : ChatRequest) : gmap (list N) JsValue :=
  with_parameters (defaults (messages data)) (parameters data).

(** [res.data.choices?.[0]?.message?.content || ""] *)
Definition extract_reply (d : DeepSeekData) : jsstring :=
  default []
    (ds_choices d ?> head ?> choice_message ?> cm_content).

(** The inner [try] block: the call to the provider and the reading of
    its answer. *)
Definition provider_part (w : World) (data : ChatRequest)
  : M HttpResponse :=
  let body := requestBody data in
  res <- outbound (CallAxiosPost endpoint body (headers w))
                  (axios_post w endpoint body (headers w)) ;;
  success_response (extract_reply res) None.

Definition POST (w : World) (req : NextRequest) : M HttpResponse :=
  try_catch
    (require_key (DEEPSEEK_API_KEY w) "DeepSeek" ;;;
     p <- parse_request req ;;
     let data := snd p in
     try_catch (provider_part w data)
               (provider_catch "Failed to get response from DeepSeek"))
    outer_catch.

(** The module's top level only builds [config]. *)
Definition module_load (w : World) : Outcome unit := Returned tt.

Definition route (w : World) (req : NextRequest) : M HttpResponse :=
  route (module_load w) (POST w req).

End DeepSeek.

Module OpenAI.

(** The module's top level:
    [new OpenAI({ apiKey: process.env.OPENAI_API_KEY, ... })]. The
    constructor of the SDK's client throws when the key it is given is
    [undefined]; an empty string passes. *)
Definition module_load (w : World) : Outcome unit :=
  match OPENAI_API_KEY w with
  | None =>
      Threw (ThrowError (mkErrorObj
        (lit "The OPENAI_API_KEY environment variable is missing or empty; either provide it, or instantiate the OpenAI client with an apiKey option, like new OpenAI({ apiKey: 'My API Key' }).")
        None))
  | Some _ => Returned tt
  end.

Definition config_model : jsstring := lit "gpt-3.5-turbo".
Definition maxTokens : JsNumber := num_of_Z 1000.
Definition temperature : JsNumber := number_0_7.
Definition topP : JsNumber := num_of_Z 1.
Definition presencePenalty : JsNumber := num_of_Z 0.
Definition frequencyPenalty : JsNumber := num_of_Z 0.

(** [{ role, content, name, function_call }] *)
Definition message_json (msg : Message) : JsValue :=
  JObj (<[ lit "role" := JStr (role_text (role msg)) ]>
        (<[ lit "content" := JStr (content msg) ]>
        (<[ lit "name" := js_of_option_string (name msg) ]>
        (<[ lit "function_call" := js_of_function_call (function_call msg) ]>
         ∅)))).

Definition defaults (msgs : list Message) (stream : option bool)
  : gmap (list N) JsValue :=
  <[ lit "model" := JStr config_model ]>
  (<[ lit "messages" := JArr (map message_json msgs) ]>
  (<[ lit "temperature" := JNum temperature ]>
  (<[ lit "max_tokens" := JNum maxTokens ]>
  (<[ lit "top_p" := JNum topP ]>
  (<[ lit "presence_penalty" := JNum presencePenalty ]>
  (<[ lit "frequency_penalty" := JNum frequencyPenalty ]>
  (<[ lit "stream" := JBool (default false stream) ]> ∅))))))).

Definition requestBody (data : ChatRequest) : gmap (list N) JsValue :=
  with_parameters (defaults (messages data) (stream data)) (parameters data).

(** [chunk.choices[0]?.delta?.content || ""] *)
Definition chunk_content (chunk : ChatCompletionChunk) : jsstring :=
  default [] (head (chunk_choices chunk) ?> delta ?> delta_content).

(** The [for await] loop: [fullContent += content] for each chunk. *)
Fixpoint accumulate (fullContent : jsstring)
  (l : list ChatCompletionChunk) : jsstring :=
  match l with
  | [] => fullContent
  | chunk :: l' => accumulate (fullContent ++ chunk_content chunk) l'
  end.

(** [response.choices[0]?.message?.content || ""] *)
Definition extract_reply (c : ChatCompletion) : jsstring :=
  default [] (head (choices c) ?> choice_message ?> cm_content).

Definition extract_usage (c : ChatCompletion) : option Usage :=
  match completion_usage c with
  | Some u => Some (mkUsage (prompt_tokens u) (completion_tokens u)
                            (total_tokens u))
  | None => None
  end.

(** The two branches of [if (stream)], up to [reply] and [usage]. *)
Definition read_completion (stream : option bool) (completion : OpenAIResult)
  : M (jsstring * option Usage) :=
  if default false stream then
    match completion with
    | ChunkStream s =>
        match failure s with
        | None => ret (accumulate [] (chunks s), None)
        | Some e => throw e
        end
    | Completion _ => runtime_error (V8.not_async_iterable "stream")
    end
  else
    match completion with
    | Completion response =>
        ret (extract_reply response, extract_usage response)
    | ChunkStream _ =>
        runtime_error (V8.read_of_nullish JUndefined "0")
    end.

(** The inner [try] block: the call to the provider and the reading of
    its answer. *)
Definition provider_part (w : World) (data : ChatRequest)
  : M HttpResponse :=
  let body := requestBody data in
  completion <- outbound (CallOpenAICreate body) (openai_create w body) ;;
  r <- read_completion (stream data) completion ;;
  success_response (fst r) (snd r).

(** The exported handler. A request reaches it only when the module has
    loaded: see [route]. *)
Definition POST (w : World) (req : NextRequest) : M HttpResponse :=
  try_catch
    (require_key (OPENAI_API_KEY w) "OpenAI" ;;;
     p <- parse_request req ;;
     let data := snd p in
     try_catch (provider_part w data)
               (provider_catch "Failed to get response from OpenAI"))
    outer_catch.

Definition route (w : World) (req : NextRequest) : M HttpResponse :=
  route (module_load w) (POST w req).

End OpenAI.

Module Gemini.

Definition config_model : jsstring := lit "gemini-2.0-flash-001".

(** [{ role: msg.role === "assistant" ? "model" : "user",
       parts: [{ text: msg.content }] }] *)
Definition content_of (msg : Message) : GeminiContent :=
  mkGeminiContent
    (match role msg with
     | assistant => lit "model"
     | _ => lit "user"
     end)
    [content msg].

Definition contents (msgs : list Message) : list GeminiContent :=
  map content_of msgs.

(** The [for await] loop: [if (chunk.text) fullContent += chunk.text]. *)
Fixpoint accumulate (fullContent : jsstring) (l : list GeminiChunk)
  : jsstring :=
  match l with
  | [] => fullContent
  | chunk :: l' =>
      match chunk_text chunk with
      | Some t =>
          if JsString.truthy t then accumulate (fullContent ++ t) l'
          else accumulate fullContent l'
      | None => accumulate fullContent l'
      end
  end.

(** [response.candidates?.[0]?.content?.parts?.[0]?.text || ""] *)
Definition extract_reply (r : GenerateContentResponse) : jsstring :=
  default []
    (candidates r ?> head ?> candidate_content ?> cc_parts ?> head
       ?> part_text).

(** The inner [try] block: the call to the provider, streaming or not,
    and the reading of its answer. *)
Definition provider_part (w : World) (data : ChatRequest)
  : M HttpResponse :=
  let contents := contents (messages data) in
  if default false (stream data) then
    response <-
      outbound (CallGeminiGenerateContentStream config_model contents)
               (gemini_generateContentStream w config_model contents) ;;
    fullContent <-
      match failure response with
      | None => ret (accumulate [] (chunks response))
      | Some e => throw e
      end ;;
    success_response fullContent None
  else
    response <-
      outbound (CallGeminiGenerateContent config_model contents)
               (gemini_generateContent w config_model contents) ;;
    success_response (extract_reply response) None.

Definition POST (w : World) (req : NextRequest) : M HttpResponse :=
  try_catch
    (require_key (GEMINI_API_KEY w) "Gemini" ;;;
     p <- parse_request req ;;
     let data := snd p in
     try_catch (provider_part w data)
               (provider_catch "Failed to get response from Gemini"))
    outer_catch.

(** The module's top level:
    [new GoogleGenAI({ apiKey: process.env.GEMINI_API_KEY })], which
    accepts an [undefined] key. *)
Definition module_load (w : World) : Outcome unit := Returned tt.

Definition route (w : World) (req : NextRequest) : M HttpResponse :=
  route (module_load w) (POST w req).

End Gemini.

(* ===================================================================== *)
(** ** The router *)
(* ===================================================================== *)

(** What [fetch] resolves to: the status and what [response.json()] gives. *)
Record FetchResponse := mkFetchResponse {
  fetch_status : Z;
  fetch_json : Outcome ChatResponse
}.

Module Router.

(** The validated [model], as the string the [switch] compares. *)
Definition model_text (m : AIModel) : jsstring :=
  match m with
  | openai => lit "openai"
  | gemini => lit "gemini"
  | deepseek => lit "deepseek"
  end.

(** [await fetch(new URL(path, req.url), { method: "POST", headers,
      body: JSON.stringify(body) })]: the call is recorded, then the
    server behind [path] does what it does. *)
Definition fetch_POST (server : jsstring -> JsValue -> M FetchResponse)
  (path : jsstring) (body : JsValue) : M FetchResponse :=
  outbound (CallFetch path body) (Returned tt) ;;; server path body.

(** The [switch (model)]. *)
Definition dispatch (server : jsstring -> JsValue -> M FetchResponse)
  (model : jsstring) (body : JsValue) : M FetchResponse :=
  if list_N_eqb model (lit "openai") then
    fetch_POST server (lit "/api/ai-chat/openai") body
  else if list_N_eqb model (lit "gemini") then
    fetch_POST server (lit "/api/ai-chat/gemini") body
  else if list_N_eqb model (lit "deepseek") then
    fetch_POST server (lit "/api/ai-chat/deepseek") body
  else
    throw (ThrowChatError
      (ChatErrorImpl (lit "Unsupported model") 400 UNSUPPORTED_MODEL
                     undefined_details None)).

Definition POST (server : jsstring -> JsValue -> M FetchResponse)
  (req : NextRequest) : M HttpResponse :=
  try_catch
    (p <- parse_request req ;;
     let body := fst p in
     let model := model_text (model (snd p)) in
     response <- dispatch server model body ;;
     responseData <- lift (fetch_json response) ;;
     NextResponse_json responseData (fetch_status response))
    outer_catch.

End Router.

(** What a [fetch] of a route of this application resolves to: the
    handler's response, or, when the route ended with an exception, the
    framework's status 500 with the plain text "Internal Server Error",
    on which [response.json()] rejects. *)
Definition framework_answer (m : M HttpResponse) : M FetchResponse :=
  match m with
  | (Returned r, calls) =>
      (Returned (mkFetchResponse (http_status r) (Returned (http_body r))),
       calls)
  | (Threw _, calls) =>
      (Returned (mkFetchResponse 500
                   (Threw (ThrowError (mkErrorObj V8.not_json None)))),
       calls)
  end.

(** The deployed gateway: the route mounted at each path serves the
    router's [fetch] and receives the forwarded body. *)
Definition local_server (w : World) (path : jsstring) (body : JsValue)
  : M FetchResponse :=
  framework_answer
    (if list_N_eqb path (lit "/api/ai-chat/openai") then
       OpenAI.route w (mkNextRequest (Parsed body))
     else if list_N_eqb path (lit "/api/ai-chat/gemini") then
       Gemini.route w (mkNextRequest (Parsed body))
     else
       DeepSeek.route w (mkNextRequest (Parsed body))).

Definition gateway (w : World) (req : NextRequest) : M HttpResponse :=
  Router.POST (local_server w) req.

(* ===================================================================== *)
(** ** Reference definitions for the statements below *)
(* ===================================================================== *)

(** The status table of the error normaliser as the specification prints
    it, keyed by the numeric status; [text] is the message text the
    fallback row carries. *)
Definition status_table_spec (status : Z) (text : jsstring)
  : jsstring * ErrorType * option jsstring :=
  match status with
  | 429 => (lit "The selected AI model is currently at capacity.",
            API_ERROR,
            Some (lit "Please try again later or select a different model."))
  | 401 => (lit "API key is invalid or not configured.",
            AUTHENTICATION_ERROR,
            Some (lit "Please check your API key in the settings."))
  | 403 => (lit "Access to the AI model is forbidden.",
            AUTHENTICATION_ERROR,
            Some (lit "Please verify your API key and permissions."))
  | 400 => (lit "Invalid request format.",
            VALIDATION_ERROR,
            Some (lit "Please check your input and try again."))
  | 500 => (lit "The AI service is experiencing issues.",
            API_ERROR,
            Some (lit "Please try again later or contact support if the issue persists."))
  | 503 => (lit "The AI service is temporarily unavailable.",
            API_ERROR,
            Some (lit "Please try again in a few minutes."))
  | _ => (lit "API Error (" ++ decimal status ++ lit "): " ++ text,
          API_ERROR,
          Some (lit "Please try again later."))
  end.


(** A connectivity keyword occurs in the message text. *)
Definition connectivity_keyword (msg : jsstring) : bool :=
  includes msg (lit "network") || includes msg (lit "connect").


(** The statuses [NextResponse.json] accepts together with a body. *)
Definition valid_response_status (s : Z) : bool :=
  (200 <=? s) && (s <=? 599)
  && negb ((s =? 204) || (s =? 205) || (s =? 304)).

(** The success branch of a response body: [error] is absent. *)
Definition success_body (b : ChatResponse) : Prop :=
  error b = None /\ errorType b = None.

(** The failure branch: [reply] is the empty string and [error] and
    [errorType] are filled in. *)
Definition failure_body (b : ChatResponse) : Prop :=
  reply b = [] /\ (exists m, error b = Some m)
  /\ (exists t, errorType b = Some t).

(** What the [try] block of a handler can throw to its outer [catch]: one
    of the handler's own [ChatErrorImpl]s, or an error of the runtime. *)
Inductive raised_in_handler : Thrown -> Prop :=
  | raised_chat_error (c : ChatError) :
      valid_response_status (statusCode c) = true ->
      raised_in_handler (ThrowChatError c)
  | raised_runtime_error (msg : jsstring) :
      raised_in_handler (ThrowError (mkErrorObj msg None)).

(** A computation whose value satisfies [P] when it returns and which
    otherwise throws only what a handler's [try] block can throw. *)
Definition tidy {A} (P : A -> Prop) (m : M A) : Prop :=
  match fst m with
  | Returned a => P a
  | Threw e => raised_in_handler e
  end.

(** The inbound payload has a [messages] field that is an array. *)
Definition has_messages_array (body : JsValue) : bool :=
  match body with
  | JObj props =>
      match props !! lit "messages" with
      | Some (JArr _) => true
      | _ => false
      end
  | _ => false
  end.


(** The [model] field of a payload, as the schema reads it. *)
Definition model_field (body : JsValue) : JsValue :=
  Zod.field (spread body) "model".

(** The [model] field names one of the three known models. *)
Definition known_model (v : JsValue) : Prop :=
  v = JStr (lit "openai") \/ v = JStr (lit "gemini")
  \/ v = JStr (lit "deepseek").

(** The text a chunk of the Gemini stream contributes. *)
Definition gemini_chunk_text (chunk : GeminiChunk) : jsstring :=
  default [] (chunk_text chunk).

(** Every value a computation returns satisfies [P]. *)
Definition returns_only {A} (P : A -> Prop) (m : M A) : Prop :=
  forall a, fst m = Returned a -> P a.

(** A response is a success (status 200, no [error]) or a failure. *)
Definition success_response_shape (r : HttpResponse) : Prop :=
  http_status r = 200 /\ success_body (http_body r).

Definition response_shape (r : HttpResponse) : Prop :=
  success_response_shape r \/ failure_body (http_body r).

(** Exactly one of the two branches of a response body is filled in. *)
Definition one_branch (b : ChatResponse) : Prop :=
  (success_body b /\ ~ failure_body b) \/ (failure_body b /\ ~ success_body b).

(** A handler run ends by returning a response whose body has exactly one
    branch filled in. *)
Definition returns_one_branch (m : M HttpResponse) : Prop :=
  exists r calls, m = (Returned r, calls) /\ one_branch (http_body r).

(** The handler run made no outbound call and answered with the given
    status and error type. *)
Definition fails_without_calls (m : M HttpResponse) (status : Z)
  (t : ErrorType) : Prop :=
  exists r, m = (Returned r, [])
            /\ http_status r = status
            /\ errorType (http_body r) = Some t
            /\ failure_body (http_body r).

(* ===================================================================== *)
(** ** Sample worlds and payloads *)
(* ===================================================================== *)

(** A deployment with no API key configured. *)
Definition no_keys_world : World :=
  mkWorld None None None
    (fun _ _ _ => Returned (mkDeepSeekData None))
    (fun _ => Returned (Completion (mkChatCompletion [] None)))
    (fun _ _ => Returned (mkGenerateContentResponse None))
    (fun _ _ => Returned (mkStream [] None)).

(** [{ k1: v1, ... }] *)
Definition object (l : list (String.string * JsValue)) : JsValue :=
  JObj (list_to_map (map (fun p => (lit (fst p), snd p)) l)).

Definition request_of (body : JsValue) : NextRequest :=
  mkNextRequest (Parsed body).

(** A server that is never reached. *)
Definition unreachable_server (path : jsstring) (body : JsValue)
  : M FetchResponse :=
  runtime_error (lit "fetch failed").

(** Later-wins lookup: the value the client's [parameters] give for [k],
    or else the default. *)
Definition overridden (defaults : gmap (list N) JsValue)
  (parameters : option (gmap (list N) JsValue)) (k : jsstring)
  : option JsValue :=
  match parameters with
  | Some params =>
      match params !! k with
      | Some v => Some v
      | None => defaults !! k
      end
  | None => defaults !! k
  end.

(** A deployment with every key configured, whose providers answer with
    the given results. *)
Definition configured_world
  (deepseek_result : Outcome DeepSeekData)
  (openai_result : Outcome OpenAIResult)
  (gemini_result : Outcome GenerateContentResponse)
  (gemini_stream : Outcome (Stream GeminiChunk)) : World :=
  mkWorld (Some (lit "sk-openai")) (Some (lit "gemini-key"))
          (Some (lit "sk-deepseek"))
          (fun _ _ _ => deepseek_result)
          (fun _ => openai_result)
          (fun _ _ => gemini_result)
          (fun _ _ => gemini_stream).

Definition text_choice (s : String.string) : CompletionChoice :=
  mkCompletionChoice (Some (mkCompletionMessage (Some (lit s)))).

Definition openai_chunk (s : String.string) : ChatCompletionChunk :=
  mkChatCompletionChunk [mkChunkChoice (Some (mkChunkDelta (Some (lit s))))].

Definition gemini_chunk (s : String.string) : GeminiChunk :=
  mkGeminiChunk (Some (lit s)).

(** A world whose providers stream the chunks "Hel" and "lo". *)
Definition hello_world : World :=
  configured_world
    (Returned (mkDeepSeekData (Some [text_choice "Hello!"])))
    (Returned (ChunkStream
                 (mkStream [openai_chunk "Hel"; openai_chunk "lo"] None)))
    (Returned (mkGenerateContentResponse None))
    (Returned (mkStream [gemini_chunk "Hel"; gemini_chunk "lo"] None)).

Definition user_message (text : String.string) : JsValue :=
  object [("role", JStr (lit "user")); ("content", JStr (lit text))].

(** [{ model, messages: [user " Hi "], stream: true }] *)
Definition streaming_payload (model : String.string) : JsValue :=
  object [("model", JStr (lit model));
          ("messages", JArr [user_message " Hi "]);
          ("stream", JBool true)].

(** [{ model: "gemini", messages: [{ role: "assistant", content: "prior" }] }] *)
Definition gemini_payload : JsValue :=
  object [("model", JStr (lit "gemini"));
          ("messages",
           JArr [object [("role", JStr (lit "assistant"));
                         ("content", JStr (lit "prior"))]])].

(** A payload whose [parameters] replace [model], [messages] and [stream]
    and add a key of their own. *)
Definition overriding_payload : JsValue :=
  object [("model", JStr (lit "deepseek"));
          ("messages", JArr [user_message "Hi"]);
          ("parameters",
           object [("model", JStr (lit "other-model"));
                   ("messages", JNull);
                   ("stream", JBool true);
                   ("temperature", JNum (num_of_Z 2))])].

(** What validation makes of [overriding_payload]. *)
Definition overriding_parameters : gmap (list N) JsValue :=
  list_to_map [(lit "model", JStr (lit "other-model"));
               (lit "messages", JNull);
               (lit "stream", JBool true);
               (lit "temperature", JNum (num_of_Z 2))].

Definition overriding_request : ChatRequest :=
  mkChatRequest deepseek [mkMessage user (lit "Hi") None None] None
                (Some overriding_parameters).

(** What validation makes of [gemini_payload]. *)
Definition gemini_request : ChatRequest :=
  mkChatRequest gemini [mkMessage assistant (lit "prior") None None] None None.

(** What validation makes of [streaming_payload]: the content is trimmed. *)
Definition streaming_request (m : AIModel) : ChatRequest :=
  mkChatRequest m [mkMessage user (lit "Hi") None None] (Some true) None.

(** The response [{ reply }] with status 200. *)
Definition reply_response (reply : jsstring) (usage : option Usage)
  : HttpResponse :=
  mkHttpResponse 200
    (mkChatResponse reply None None None undefined_details usage).

(** A payload that asks for streaming through [parameters] only. *)
Definition stream_by_parameter_payload : JsValue :=
  object [("model", JStr (lit "openai"));
          ("messages", JArr [user_message "Hi"]);
          ("parameters", object [("stream", JBool true)])].

(** The statuses that have a row of their own in the table. *)
Definition listed_status (s : Z) : bool :=
  (s =? 429) || (s =? 401) || (s =? 403) || (s =? 400) || (s =? 500)
  || (s =? 503).

(** The [ChatError] built from a row of the table for a response. *)
Definition status_error (r : UpstreamResponse)
  (row : jsstring * ErrorType * option jsstring) : ChatError :=
  ChatErrorImpl (fst (fst row)) (status r) (snd (fst row)) (DJson (data r))
                (snd row).



(** The [TypeError] of a failed string conversion. *)
Definition conversion_error : Thrown :=
  ThrowError (mkErrorObj V8.not_primitive None).

(** What a [fetch] of a route resolves to: the handler's response, or
    the framework's 500 on which [response.json()] rejects. *)
Definition relayed (fr : FetchResponse) : Prop :=
  (exists r, response_shape r
             /\ fr = mkFetchResponse (http_status r)
                                     (Returned (http_body r)))
  \/ fr = mkFetchResponse 500
             (Threw (ThrowError (mkErrorObj V8.not_json None))).

(* ===================================================================== *)
(** ** Reference definitions for the cleaning step *)
(* ===================================================================== *)

(** The string neither starts nor ends with white space. *)
Definition trimmed (s : jsstring) : Prop :=
  match head s with Some c => is_whitespace c = false | None => True end
  /\ match last s with Some c => is_whitespace c = false | None => True end.

(** An entry of [messages] the cleaning callback gets through: it is not
    [null] or [undefined], and its [content] is absent or a string. *)
Definition cleanable (msg : JsValue) : bool :=
  match get_prop msg (lit "role"), get_prop msg (lit "content") with
  | Some _, Some (JUndefined | JNull | JStr _) => true
  | _, _ => false
  end.

(** The content the cleaning callback gives a cleanable entry. *)
Definition cleaned_content (msg : JsValue) : jsstring :=
  match get_prop_opt msg (lit "content") with
  | JStr s => trim s
  | _ => []
  end.

(** The cleaned form of a cleanable entry: its role as it came and its
    cleaned content, nothing else. *)
Definition cleaned_entry (msg : JsValue) : JsValue :=
  JObj (<[ lit "role" := get_prop_opt msg (lit "role") ]>
        (<[ lit "content" := JStr (cleaned_content msg) ]> ∅)).

(** A validated message stands for a payload entry: the entry's role is the
    validated one, the content is the cleaned content, and neither a name
    nor a function call is kept. *)
Definition mirrors_entry (entry : JsValue) (m : Message) : Prop :=
  get_prop_opt entry (lit "role") = JStr (role_text (role m))
  /\ content m = cleaned_content entry
  /\ name m = None
  /\ function_call m = None.

(** The handler answered with the given failure, without outbound call. *)
Definition fails_with (m : M HttpResponse) (c : ChatError) : Prop :=
  m = (Returned
         (mkHttpResponse (statusCode c)
            (mkChatResponse [] (Some (message c)) (Some (type c))
                            (suggestion c) (details c) None)),
       []).

(** A request whose body is not JSON, with the parser's message. *)
Definition malformed_request (text : jsstring) : NextRequest :=
  mkNextRequest (Malformed text).

(** The [stream] flag a payload field stands for. *)
Definition stream_of (v : JsValue) : option bool :=
  match v with JBool b => Some b | _ => None end.

(** The [parameters] a payload field stands for. *)
Definition parameters_of (v : JsValue) : option (gmap (list N) JsValue) :=
  match v with JObj props => Some props | _ => None end.

(* ===================================================================== *)
(** ** The three adapters side by side *)
(* ===================================================================== *)

(** The handler mounted for a model. *)
Definition adapter_POST (m : AIModel) (w : World) (req : NextRequest)
  : M HttpResponse :=
  match m with
  | openai => OpenAI.POST w req
  | gemini => Gemini.POST w req
  | deepseek => DeepSeek.POST w req
  end.

(** The environment variable an adapter requires. *)
Definition adapter_key (m : AIModel) (w : World) : option jsstring :=
  match m with
  | openai => OPENAI_API_KEY w
  | gemini => GEMINI_API_KEY w
  | deepseek => DEEPSEEK_API_KEY w
  end.

(** The default message of an adapter's inner [catch]. *)
Definition adapter_default_message (m : AIModel) : String.string :=
  match m with
  | openai => "Failed to get response from OpenAI"
  | gemini => "Failed to get response from Gemini"
  | deepseek => "Failed to get response from DeepSeek"
  end.

(** The one call an adapter makes for a validated request. *)
Definition adapter_call (m : AIModel) (w : World) (data : ChatRequest)
  : Call :=
  match m with
  | openai => CallOpenAICreate (OpenAI.requestBody data)
  | gemini =>
      if default false (stream data) then
        CallGeminiGenerateContentStream Gemini.config_model
          (Gemini.contents (messages data))
      else
        CallGeminiGenerateContent Gemini.config_model
          (Gemini.contents (messages data))
  | deepseek =>
      CallAxiosPost DeepSeek.endpoint (DeepSeek.requestBody data)
                    (DeepSeek.headers w)
  end.

(** The provider rejects that call with [e]. *)
Definition provider_rejects (m : AIModel) (w : World) (data : ChatRequest)
  (e : Thrown) : Prop :=
  match m with
  | openai => openai_create w (OpenAI.requestBody data) = Threw e
  | gemini =>
      if default false (stream data) then
        gemini_generateContentStream w Gemini.config_model
          (Gemini.contents (messages data)) = Threw e
      else
        gemini_generateContent w Gemini.config_model
          (Gemini.contents (messages data)) = Threw e
  | deepseek =>
      axios_post w DeepSeek.endpoint (DeepSeek.requestBody data)
                 (DeepSeek.headers w) = Threw e
  end.

(** The failure response built from a normalised error. *)
Definition error_answer (c : ChatError) : HttpResponse :=
  mkHttpResponse (statusCode c)
    (mkChatResponse [] (Some (message c)) (Some (type c)) (suggestion c)
                    (details c) None).

(** An error of the HTTP client: a message and the response it got. *)
Definition http_error (text : jsstring) (r : UpstreamResponse) : Thrown :=
  ThrowError (mkErrorObj text (Some r)).

(** An error without a response attached. *)
Definition plain_error (text : jsstring) : Thrown :=
  ThrowError (mkErrorObj text None).

(** A world whose DeepSeek endpoint rejects with the given value. *)
Definition deepseek_rejecting_world (e : Thrown) : World :=
  configured_world (Threw e)
    (Returned (Completion (mkChatCompletion [] None)))
    (Returned (mkGenerateContentResponse None))
    (Returned (mkStream [] None)).

(** [{ model: "deepseek", messages: [user "Hi"] }] and its validated form. *)
Definition deepseek_payload : JsValue :=
  object [("model", JStr (lit "deepseek"));
          ("messages", JArr [user_message "Hi"])].

Definition deepseek_request : ChatRequest :=
  mkChatRequest deepseek [mkMessage user (lit "Hi") None None] None None.

(** The path the router fetches for a model. *)
Definition adapter_path (m : AIModel) : jsstring :=
  match m with
  | openai => lit "/api/ai-chat/openai"
  | gemini => lit "/api/ai-chat/gemini"
  | deepseek => lit "/api/ai-chat/deepseek"
  end.

(** The same validated request with another [stream] flag. *)
Definition with_stream (data : ChatRequest) (s : option bool) : ChatRequest :=
  mkChatRequest (model data) (messages data) s (parameters data).

(** The same validated request with other [parameters]. *)
Definition with_params (data : ChatRequest)
  (p : option (gmap (list N) JsValue)) : ChatRequest :=
  mkChatRequest (model data) (messages data) (stream data) p.

(** A candidate of the Gemini answer made of the given text parts. *)
Definition gemini_candidate (texts : list jsstring) : GeminiCandidate :=
  mkGeminiCandidate
    (Some (mkGeminiCandidateContent
             (Some (map (fun t => mkGeminiPart (Some t)) texts)))).

(** A world whose providers answer a single-shot call with two choices,
    two candidates of two parts each, and token counts. *)
Definition answering_world : World :=
  configured_world
    (Returned (mkDeepSeekData (Some [text_choice "Hello!"; text_choice "Bye"])))
    (Returned (Completion
       (mkChatCompletion [text_choice "Hello!"; text_choice "Bye"]
                         (Some (mkOpenAIUsage 3 4 7)))))
    (Returned (mkGenerateContentResponse
       (Some [gemini_candidate [lit "Hello!"; lit "more"];
              gemini_candidate [lit "Bye"]])))
    (Returned (mkStream [] None)).

(** [{ model: "openai", messages: [user "Hi"] }] and its validated form. *)
Definition openai_payload : JsValue :=
  object [("model", JStr (lit "openai"));
          ("messages", JArr [user_message "Hi"])].

Definition openai_request : ChatRequest :=
  mkChatRequest openai [mkMessage user (lit "Hi") None None] None None.

(** The error types [createErrorResponse] can give a value that is not
    already a [ChatErrorImpl]. *)
Definition normaliser_type (t : ErrorType) : Prop :=
  t = API_ERROR \/ t = AUTHENTICATION_ERROR \/ t = VALIDATION_ERROR
  \/ t = NETWORK_ERROR \/ t = UNKNOWN_ERROR.

(** The value is not an instance of [ChatErrorImpl]. *)
Definition foreign_error (error : Thrown) : Prop :=
  match error with ThrowChatError _ => False | _ => True end.

(** The status an error carries, when [createErrorResponse] sees one. *)
Definition carried_status (error : Thrown) : option Z :=
  match error with
  | ThrowError e =>
      match response_with_status e with
      | Some r => Some (status r)
      | None => None
      end
  | _ => None
  end.

(** A top-level key the request schema reads. *)
Definition schema_key (k : jsstring) : Prop :=
  k = lit "model" \/ k = lit "messages" \/ k = lit "stream"
  \/ k = lit "parameters".

(* ===================================================================== *)
(** ** The chat page ([src/app/page.tsx]) *)
(* ===================================================================== *)

Module Page.

(** An element of the [messages] state: [{ role, content }]. *)
Record ChatMessage := mkChatMessage {
  msg_role : jsstring;
  msg_content : JsValue
}.

(** The component's state: [model], [input], [messages], [loading]. *)
Record State := mkState {
  st_model : jsstring;
  st_input : jsstring;
  st_messages : list ChatMessage;
  st_loading : bool
}.

(** [MODELS.map(m => m.value)], the values of the select's options. *)
Definition MODELS : list jsstring :=
  [lit "openai"; lit "gemini"; lit "deepseek"].

(** The state of the first render. *)
Definition initial : State := mkState (lit "openai") [] [] false.

(** What the [try] block gets from the endpoint: the value of
    [data.reply], or an exception ([fetch] or [res.json()] rejected, or
    [data] was [null]). The status of the response is not looked at. *)
Inductive FetchOutcome :=
  | Replied (reply : JsValue)
  | Rejected.

Definition message_json (m : ChatMessage) : JsValue :=
  JObj (<[ lit "role" := JStr (msg_role m) ]>
        (<[ lit "content" := msg_content m ]> ∅)).

(** [{ model, messages: [...messages, userMsg] }], the body of the
    request before [JSON.stringify]. *)
Definition payload (st : State) : JsValue :=
  JObj (<[ lit "model" := JStr (st_model st) ]>
        (<[ lit "messages" :=
              JArr (map message_json
                      (st_messages st
                       ++ [mkChatMessage (lit "user")
                                         (JStr (st_input st))])) ]> ∅)).

(** [sendMessage], run to its end: the state it leaves and the request
    body it sent, if it sent one. *)
Definition sendMessage (fetch : JsValue -> FetchOutcome) (st : State)
  : State * option JsValue :=
  if negb (JsString.truthy (trim (st_input st))) then (st, None)
  else
    let userMsg := mkChatMessage (lit "user") (JStr (st_input st)) in
    let answer :=
      match fetch (payload st) with
      | Replied reply => mkChatMessage (lit "assistant") reply
      | Rejected =>
          mkChatMessage (lit "assistant")
                        (JStr (lit "Error: Failed to get response."))
      end in
    (mkState (st_model st) [] (st_messages st ++ [userMsg] ++ [answer])
             false,
     Some (payload st)).

(** The endpoint of the page is the gateway: [data.reply] is the [reply]
    of the gateway's answer. *)
Definition gateway_fetch (w : World) (body : JsValue) : FetchOutcome :=
  match fst (gateway w (request_of body)) with
  | Returned r => Replied (JStr (reply (http_body r)))
  | Threw _ => Rejected
  end.

(** The content of a message is a string. *)
Definition text_content (m : ChatMessage) : Prop :=
  exists s, msg_content m = JStr s.

(** The role of a message is one the page writes. *)
Definition page_role (m : ChatMessage) : Prop :=
  msg_role m = lit "user" \/ msg_role m = lit "assistant".

(** The states the page can be in: the model is one of the options and
    the conversation is made of user and assistant turns with text. *)
Definition well_formed (st : State) : Prop :=
  known_model (JStr (st_model st))
  /\ Forall (fun m => page_role m /\ text_content m) (st_messages st).

(** The endpoint answers with text. *)
Definition replies_text (fetch : JsValue -> FetchOutcome) : Prop :=
  forall body reply, fetch body = Replied reply -> exists s, reply = JStr s.

End Page.

(** The [ChatErrorImpl] an adapter throws when its key is not set. *)
Definition key_not_configured (provider : String.string) : ChatError :=
  ChatErrorImpl (lit provider ++ lit " API key is not configured") 500
    CONFIGURATION_ERROR (DJson JUndefined)
    (Some (lit "Please configure your " ++ lit provider
           ++ lit " API key in the environment variables.")).

(** The provider name an adapter uses in its messages. *)
Definition adapter_name (m : AIModel) : String.string :=
  match m with
  | openai => "OpenAI"
  | gemini => "Gemini"
  | deepseek => "DeepSeek"
  end.

(** The answer of the OpenAI SDK is of the kind the handler reads. *)
Definition read_as_sent (s : option bool) (result : OpenAIResult) : bool :=
  match result with
  | ChunkStream _ => default false s
  | Completion _ => negb (default false s)
  end.

(** A world whose OpenAI client returns the given result. *)
Definition openai_world (result : OpenAIResult) : World :=
  configured_world (Returned (mkDeepSeekData None)) (Returned result)
    (Returned (mkGenerateContentResponse None))
    (Returned (mkStream [] None)).

(** A server whose [fetch] rejects with the given message. *)
Definition failing_server (text : jsstring) (path : jsstring)
  (body : JsValue) : M FetchResponse :=
  runtime_error text.

(** A world where every key is set to the empty string. *)
Definition empty_keys_world : World :=
  mkWorld (Some []) (Some []) (Some [])
    (fun _ _ _ => Returned (mkDeepSeekData None))
    (fun _ => Returned (Completion (mkChatCompletion [] None)))
    (fun _ _ => Returned (mkGenerateContentResponse None))
    (fun _ _ => Returned (mkStream [] None)).

(** The [ChatError] the outer [catch] makes of the normaliser's own
    [TypeError]. *)
Definition unconverted_error : ChatError :=
  default_error (DError (mkErrorObj V8.not_primitive None))
                default_defaultMessage.

(** The route of an adapter: its module's top level, then its [POST]. *)
Definition adapter_module_load (m : AIModel) (w : World) : Outcome unit :=
  match m with
  | openai => OpenAI.module_load w
  | gemini => Gemini.module_load w
  | deepseek => DeepSeek.module_load w
  end.

Definition adapter_route (m : AIModel) (w : World) (req : NextRequest)
  : M HttpResponse :=
  match m with
  | openai => OpenAI.route w req
  | gemini => Gemini.route w req
  | deepseek => DeepSeek.route w req
  end.

(** The module of an adapter loads in this environment: every module but
    the OpenAI one always does, and the OpenAI one needs its key to be set,
    were it to the empty string. *)
Definition module_loads (m : AIModel) (w : World) : bool :=
  match adapter_module_load m w with
  | Returned _ => true
  | Threw _ => false
  end.

(** [{ model: "openai", messages: [user "Hi"] }]. *)
Definition openai_plain_payload : JsValue :=
  object [("model", JStr (lit "openai"));
          ("messages", JArr [user_message "Hi"])].

(* ===================================================================== *)
(** ** Facts about strings *)
(* ===================================================================== *)

Section StringFacts.

Lemma lit_inj (a b : String.string) : lit a = lit b -> a = b.
Proof.
  unfold lit. intros H.
  rewrite <- (string_of_list_ascii_of_string a),
          <- (string_of_list_ascii_of_string b).
  f_equal.
  generalize dependent (list_ascii_of_string b).
  induction (list_ascii_of_string a) as [|x l IH]; intros [|y l'] H;
    simpl in H; try discriminate; [reflexivity|].
  injection H as Hxy Hl.
  f_equal; [|by apply IH].
  rewrite <- (ascii_N_embedding x), <- (ascii_N_embedding y).
  by rewrite Hxy.
Qed.

Lemma decimal_inj (a b : Z) : decimal a = decimal b -> a = b.
Proof. intros H. apply lit_inj in H. by apply (inj pretty) in H. Qed.

Lemma pretty_N_char_digit (x : N) : is_digit (pretty_N_char x) = true.
Proof. unfold pretty_N_char. by repeat case_match. Qed.

(** Digits are pushed in front of the accumulator: the result never
    starts with a character that is not one, unless the accumulator did. *)
Lemma pretty_N_go_head (c : ascii) (t : String.string) (x : N)
  (s : String.string) :
  is_digit c = false -> s <> String c t -> pretty_N_go x s <> String c t.
Proof.
  intros Hc. revert s.
  induction (N.lt_wf_0 x) as [x _ IH]; intros s Hs.
  assert (x = 0 \/ 0 < x)%N as [->|Hpos] by lia.
  - by rewrite pretty_N_go_0.
  - rewrite pretty_N_go_step by done. apply IH.
    + by apply N.div_lt.
    + intros [= Heq _]. rewrite <- Heq, pretty_N_char_digit in Hc.
      discriminate.
Qed.

(** The decimal rendering of an integer is never a word that starts
    with a letter. *)
Lemma decimal_not_word (z : Z) (c : ascii) (t : String.string) :
  is_digit c = false -> c <> "-"%char -> decimal z <> lit (String c t).
Proof.
  intros Hc Hdash H. apply lit_inj in H.
  destruct z as [|p|p]; unfold pretty, pretty_Z in H.
  - injection H as Hc' _. subst c. discriminate.
  - unfold pretty, pretty_positive, pretty, pretty_N in H.
    case_decide; [done|].
    by apply (pretty_N_go_head c t (N.pos p) "") in H.
  - injection H as Hc' _. by subst c.
Qed.

End StringFacts.

(* ===================================================================== *)
(** ** The error normaliser *)
(* ===================================================================== *)

Section ErrorNormaliser.

Lemma table_lookup_other (k : jsstring) :
  k <> lit "429" -> k <> lit "401" -> k <> lit "403" -> k <> lit "500" ->
  k <> lit "503" -> k <> lit "400" -> k <> lit "NETWORK" ->
  k <> lit "MODEL" ->
  API_ERROR_MESSAGES !! k = None.
Proof.
  intros. unfold API_ERROR_MESSAGES.
  repeat (rewrite lookup_insert_ne by congruence).
  apply lookup_empty.
Qed.

Lemma decimal_ne (s n : Z) : s <> n -> decimal s <> decimal n.
Proof. intros Hne H. by apply decimal_inj in H. Qed.

Lemma table_lookup_unlisted (s : Z) :
  s <> 429 -> s <> 401 -> s <> 403 -> s <> 500 -> s <> 503 -> s <> 400 ->
  API_ERROR_MESSAGES !! decimal s = None.
Proof.
  intros. apply table_lookup_other.
  - by apply (decimal_ne s 429).
  - by apply (decimal_ne s 401).
  - by apply (decimal_ne s 403).
  - by apply (decimal_ne s 500).
  - by apply (decimal_ne s 503).
  - by apply (decimal_ne s 400).
  - by apply decimal_not_word.
  - by apply decimal_not_word.
Qed.

Lemma response_with_status_truthy (msg : jsstring) (r : UpstreamResponse) :
  status r <> 0 ->
  response_with_status (mkErrorObj msg (Some r)) = Some r.
Proof.
  intros Hs. unfold response_with_status. simpl.
  destruct (Z.eqb_spec (status r) 0); [contradiction|reflexivity].
Qed.



(** The status branch, row by row. *)
Lemma status_branch_listed (msg d text : jsstring) (r : UpstreamResponse) :
  status r <> 0 -> listed_status (status r) = true ->
  createErrorResponse (ThrowError (mkErrorObj msg (Some r))) d
  = Returned (status_error r (status_table_spec (status r) text)).
Proof.
  intros Hs Hl. unfold createErrorResponse.
  rewrite response_with_status_truthy by done. cbv zeta.
  unfold status_toString, status_error, listed_status in *.
  destruct (Z.eqb_spec (status r) 429) as [->|_]; [reflexivity|].
  destruct (Z.eqb_spec (status r) 401) as [->|_]; [reflexivity|].
  destruct (Z.eqb_spec (status r) 403) as [->|_]; [reflexivity|].
  destruct (Z.eqb_spec (status r) 400) as [->|_]; [reflexivity|].
  destruct (Z.eqb_spec (status r) 500) as [->|_]; [reflexivity|].
  destruct (Z.eqb_spec (status r) 503) as [->|_]; [reflexivity|].
  discriminate.
Qed.

Lemma unlisted_status (s : Z) :
  listed_status s = false ->
  s <> 429 /\ s <> 401 /\ s <> 403 /\ s <> 400 /\ s <> 500 /\ s <> 503.
Proof. unfold listed_status. lia. Qed.

Lemma status_table_unlisted (s : Z) (text : jsstring) :
  listed_status s = false ->
  status_table_spec s text
  = (lit "API Error (" ++ decimal s ++ lit "): " ++ text, API_ERROR,
     Some (lit "Please try again later.")).
Proof.
  intros (?&?&?&?&?&?)%unlisted_status. unfold status_table_spec.
  repeat (case_match; try done).
Qed.

Lemma status_branch_unlisted (msg d : jsstring) (r : UpstreamResponse) :
  status r <> 0 -> listed_status (status r) = false ->
  createErrorResponse (ThrowError (mkErrorObj msg (Some r))) d
  = match upstream_message r (mkErrorObj msg (Some r)) with
    | Some text =>
        Returned (status_error r (status_table_spec (status r) text))
    | None => Threw conversion_error
    end.
Proof.
  intros Hs Hl. unfold createErrorResponse.
  rewrite response_with_status_truthy by done. cbv zeta.
  unfold status_toString.
  destruct (unlisted_status _ Hl) as (?&?&?&?&?&?).
  rewrite table_lookup_unlisted by done.
  destruct (upstream_message r _) as [text|]; [|reflexivity].
  by rewrite status_table_unlisted.
Qed.


End ErrorNormaliser.



Section NormaliserBranches.

Lemma createErrorResponse_passthrough (e : ChatError) (d : jsstring) :
  createErrorResponse (ThrowChatError e) d = Returned e.
Proof. reflexivity. Qed.

Lemma createErrorResponse_network (e : ErrorObj) (d : jsstring) :
  response_with_status e = None ->
  connectivity_keyword (err_message e) = true ->
  createErrorResponse (ThrowError e) d
  = Returned
      (ChatErrorImpl (lit "Unable to connect to the AI service.") 503
         NETWORK_ERROR (DError e)
         (Some (lit "Please check your internet connection and try again."))).
Proof.
  unfold createErrorResponse, connectivity_keyword. by intros -> ->.
Qed.

Lemma createErrorResponse_unknown (e : ErrorObj) (d : jsstring) :
  response_with_status e = None ->
  connectivity_keyword (err_message e) = false ->
  createErrorResponse (ThrowError e) d
  = Returned (default_error (DError e) d).
Proof.
  unfold createErrorResponse, connectivity_keyword. by intros -> ->.
Qed.

Lemma response_with_status_inv (e : ErrorObj) (r : UpstreamResponse) :
  response_with_status e = Some r ->
  response e = Some r /\ status r <> 0.
Proof.
  unfold response_with_status. destruct (response e) as [r'|];
    [|discriminate].
  destruct (Z.eqb_spec (status r') 0); [discriminate|].
  by intros [= <-].
Qed.

(** The one way [createErrorResponse] ends by throwing. *)
Lemma createErrorResponse_throws_only (error thrown : Thrown)
  (d : jsstring) :
  createErrorResponse error d = Threw thrown ->
  thrown = conversion_error
  /\ exists e r,
       error = ThrowError e
       /\ response_with_status e = Some r
       /\ listed_status (status r) = false
       /\ upstream_message r e = None.
Proof.
  destruct error as [c|e|v]; [discriminate| |discriminate].
  destruct (response_with_status e) as [r|] eqn:Hr.
  - destruct (response_with_status_inv e r Hr) as [He Hs].
    destruct e as [msg resp]. simpl in He. subst resp.
    destruct (listed_status (status r)) eqn:Hl.
    + rewrite (status_branch_listed _ _ [] r Hs Hl). discriminate.
    + rewrite (status_branch_unlisted _ _ r Hs Hl).
      destruct (upstream_message r _) eqn:Hu; [discriminate|].
      intros [= <-]. split; [done|]. by eexists _, r.
  - unfold createErrorResponse. rewrite Hr.
    destruct (_ || _); discriminate.
Qed.


End NormaliserBranches.



(* ===================================================================== *)
(** ** Reasoning about handler computations *)
(* ===================================================================== *)

Section Computations.

Context {A B : Type}.

Lemma tidy_ret (P : A -> Prop) (a : A) : P a -> tidy P (ret a).
Proof. done. Qed.

Lemma tidy_runtime_error (P : A -> Prop) (msg : jsstring) :
  tidy P (runtime_error msg).
Proof. apply raised_runtime_error. Qed.

Lemma tidy_throw_chat (P : A -> Prop) (c : ChatError) :
  valid_response_status (statusCode c) = true ->
  tidy P (throw (ThrowChatError c)).
Proof. intros. by apply raised_chat_error. Qed.

Lemma tidy_bind (P : A -> Prop) (Q : B -> Prop) (m : M A) (k : A -> M B) :
  tidy P m -> (forall a, P a -> tidy Q (k a)) -> tidy Q (bind m k).
Proof.
  destruct m as [[a|e] calls]; unfold tidy, bind; simpl; [|done].
  intros Ha Hk. specialize (Hk a Ha).
  by destruct (k a) as [r calls'].
Qed.

Lemma tidy_weaken (P Q : A -> Prop) (m : M A) :
  (forall a, P a -> Q a) -> tidy P m -> tidy Q m.
Proof. unfold tidy. destruct (fst m); auto. Qed.

(** A [try]/[catch] whose handler is tidy for every thrown value is tidy,
    whatever the [try] block throws. *)
Lemma tidy_try_catch (P : A -> Prop) (m : M A) (handler : Thrown -> M A) :
  (forall a, fst m = Returned a -> P a) ->
  (forall e, tidy P (handler e)) ->
  tidy P (try_catch m handler).
Proof.
  destruct m as [[a|e] calls]; unfold tidy, try_catch; simpl.
  - intros Ha _. by apply Ha.
  - intros _ Hh. specialize (Hh e). unfold tidy in Hh.
    by destruct (handler e) as [r calls'].
Qed.

End Computations.

Section Responses.

Lemma valid_status_json (body : ChatResponse) (s : Z) :
  valid_response_status s = true ->
  NextResponse_json body s = ret (mkHttpResponse s body).
Proof.
  unfold valid_response_status, NextResponse_json.
  intros H. apply andb_true_iff in H as [H1 H2].
  rewrite H1. simpl. apply negb_true_iff in H2. by rewrite H2.
Qed.

(** [NextResponse.json] either returns the body it was given or throws an
    error of the runtime. *)
Lemma tidy_NextResponse_json (body : ChatResponse) (s : Z) :
  tidy (fun r => http_body r = body /\ http_status r = s)
       (NextResponse_json body s).
Proof.
  unfold NextResponse_json.
  repeat case_match; try apply tidy_runtime_error. by apply tidy_ret.
Qed.

Lemma NextResponse_json_no_calls (body : ChatResponse) (s : Z) :
  snd (NextResponse_json body s) = [].
Proof. unfold NextResponse_json. by repeat case_match. Qed.

Lemma error_body_failure (c : ChatError) (r : HttpResponse) :
  http_body r
  = mkChatResponse [] (Some (message c)) (Some (type c)) (suggestion c)
                   (details c) None ->
  failure_body (http_body r).
Proof. intros ->. unfold failure_body. simpl. eauto. Qed.

(** The response of a [catch] clause is a failure body, when the clause
    gets to return it. *)
Lemma tidy_error_response (c : ChatError) :
  tidy (fun r => failure_body (http_body r)) (error_response c).
Proof.
  unfold error_response.
  eapply tidy_weaken; [|apply tidy_NextResponse_json].
  intros r [Hb _]. by eapply error_body_failure.
Qed.

Lemma lift_returned {A B} (a : A) (k : A -> M B) :
  (x <- lift (Returned a) ;; k x) = k a.
Proof. unfold bind, lift. by destruct (k a). Qed.

Lemma lift_threw {A B} (e : Thrown) (k : A -> M B) :
  (x <- lift (Threw e) ;; k x) = throw e.
Proof. reflexivity. Qed.

Lemma outer_catch_eq (e : Thrown) (c : ChatError) :
  createErrorResponse e default_defaultMessage = Returned c ->
  outer_catch e = error_response c.
Proof. intros H. unfold outer_catch. by rewrite H, lift_returned. Qed.

Lemma provider_catch_eq (d : String.string) (e : Thrown) (c : ChatError) :
  createErrorResponse e (lit d) = Returned c ->
  provider_catch d e = error_response c.
Proof. intros H. unfold provider_catch. by rewrite H, lift_returned. Qed.

(** When the normaliser itself throws in an inner [catch], the exception
    is the runtime's [TypeError]. *)
Lemma provider_catch_threw (d : String.string) (e t : Thrown) :
  createErrorResponse e (lit d) = Threw t ->
  provider_catch d e = throw conversion_error.
Proof.
  intros H. unfold provider_catch. rewrite H, lift_threw.
  by destruct (createErrorResponse_throws_only _ _ _ H) as [-> _].
Qed.

Lemma tidy_provider_catch (d : String.string) (e : Thrown) :
  tidy (fun r => failure_body (http_body r)) (provider_catch d e).
Proof.
  destruct (createErrorResponse e (lit d)) as [c|t] eqn:Hc.
  - rewrite (provider_catch_eq d e c Hc). apply tidy_error_response.
  - rewrite (provider_catch_threw d e t Hc). apply raised_runtime_error.
Qed.

Lemma success_response_eq (reply : jsstring) (u : option Usage) :
  success_response reply u
  = ret (mkHttpResponse 200
           (mkChatResponse reply None None None undefined_details u)).
Proof. reflexivity. Qed.

(** The outer [catch] of a handler returns a failure body for whatever
    the handler's [try] block can throw, and calls nothing. *)
Lemma outer_catch_returns (e : Thrown) :
  raised_in_handler e ->
  exists r, outer_catch e = (Returned r, [])
            /\ failure_body (http_body r)
            /\ exists c,
                 createErrorResponse e default_defaultMessage = Returned c
                 /\ r = mkHttpResponse (statusCode c)
                         (mkChatResponse [] (Some (message c))
                            (Some (type c)) (suggestion c) (details c)
                            None).
Proof.
  intros He.
  assert (exists c,
            createErrorResponse e default_defaultMessage = Returned c
            /\ valid_response_status (statusCode c) = true)
    as (c & Hc & Hv).
  { destruct He as [c Hc|msg]; [by exists c|].
    unfold createErrorResponse, response_with_status. simpl.
    case_match; eexists; by split. }
  rewrite (outer_catch_eq e c Hc). unfold error_response.
  rewrite valid_status_json by done.
  eexists. split; [reflexivity|]. split; [|by exists c].
  unfold failure_body. simpl. eauto.
Qed.

(** A handler is a [try] block under the outer [catch]: when the block is
    tidy, the handler returns, with the block's response or with a
    failure body. *)
Lemma handler_returns (P : HttpResponse -> Prop) (m : M HttpResponse) :
  tidy P m ->
  exists r calls,
    try_catch m outer_catch = (Returned r, calls)
    /\ (P r \/ failure_body (http_body r)).
Proof.
  destruct m as [[r|e] calls]; unfold tidy; simpl; intros H.
  - exists r, calls. eauto.
  - destruct (outer_catch_returns e H) as (r & -> & Hf & _).
    exists r, (calls ++ []). eauto.
Qed.

End Responses.

(* ===================================================================== *)
(** ** The shape of every response *)
(* ===================================================================== *)

Section ResponseShape.

Lemma returns_only_bind {A B} (Q : B -> Prop) (m : M A) (k : A -> M B) :
  (forall a, returns_only Q (k a)) -> returns_only Q (bind m k).
Proof.
  unfold returns_only, bind. intros Hk b.
  destruct m as [[a|e] calls]; [|done].
  specialize (Hk a b). destruct (k a) as [r calls']. exact Hk.
Qed.

Lemma returns_only_success (reply : jsstring) (u : option Usage) :
  returns_only success_response_shape (success_response reply u).
Proof.
  rewrite success_response_eq. intros r [= <-]. by split.
Qed.

Lemma tidy_require_key (key : option jsstring) (provider : String.string) :
  tidy (fun _ => True) (require_key key provider).
Proof.
  unfold require_key. destruct (env_missing key); [|done].
  by apply tidy_throw_chat.
Qed.

Lemma tidy_clean_message (msg : JsValue) :
  tidy (fun _ => True) (clean_message msg).
Proof.
  unfold clean_message.
  destruct (get_prop msg (lit "role")), (get_prop msg (lit "content"));
    try apply tidy_runtime_error.
  eapply tidy_bind with (P := fun _ => True); [|done].
  repeat case_match; try done; apply tidy_runtime_error.
Qed.

Lemma tidy_mapM {A B} (f : A -> M B) (l : list A) :
  (forall a, tidy (fun _ => True) (f a)) ->
  tidy (fun _ => True) (mapM f l).
Proof.
  intros Hf. induction l as [|a l IH]; [done|]. simpl.
  eapply tidy_bind; [apply Hf|]. intros b _.
  eapply tidy_bind; [apply IH|]. done.
Qed.

Lemma tidy_cleanedMessages (body : JsValue) :
  tidy (fun _ => True) (cleanedMessages body).
Proof.
  unfold cleanedMessages.
  repeat case_match; try apply tidy_runtime_error.
  apply tidy_mapM, tidy_clean_message.
Qed.

Lemma tidy_parse_request (req : NextRequest) :
  tidy (fun _ => True) (parse_request req).
Proof.
  unfold parse_request.
  eapply tidy_bind with (P := fun _ => True).
  { unfold req_json. case_match; [done|apply tidy_runtime_error]. }
  intros body _.
  eapply tidy_bind; [apply tidy_cleanedMessages|]. intros cleaned _.
  case_match; [done|]. by apply tidy_throw_chat.
Qed.

(** The skeleton the three adapters share: the key guard and the
    prologue, then the provider part under its own [catch]. *)
Lemma adapter_returns (key : option jsstring) (provider d : String.string)
  (inner : ChatRequest -> M HttpResponse) (req : NextRequest) :
  (forall data, returns_only success_response_shape (inner data)) ->
  exists r calls,
    try_catch
      (require_key key provider ;;;
       p <- parse_request req ;;
       try_catch (inner (snd p)) (provider_catch d))
      outer_catch
    = (Returned r, calls)
    /\ response_shape r.
Proof.
  intros Hinner.
  edestruct (handler_returns response_shape) as (r & calls & Heq & Hr);
    [|exists r, calls; split; [exact Heq|]].
  - eapply tidy_bind; [apply tidy_require_key|]. intros _ _.
    eapply tidy_bind; [apply tidy_parse_request|]. intros p _.
    apply tidy_try_catch.
    + intros a Ha. left. by apply (Hinner (snd p)).
    + intros e. eapply tidy_weaken; [|apply tidy_provider_catch].
      intros a Ha. by right.
  - destruct Hr as [Hr|Hr]; [exact Hr|by right].
Qed.

Lemma DeepSeek_returns (w : World) (req : NextRequest) :
  exists r calls,
    DeepSeek.POST w req = (Returned r, calls) /\ response_shape r.
Proof.
  apply (adapter_returns _ _ _ (DeepSeek.provider_part w)).
  intros data. apply returns_only_bind. intros res.
  apply returns_only_success.
Qed.

Lemma OpenAI_returns (w : World) (req : NextRequest) :
  exists r calls,
    OpenAI.POST w req = (Returned r, calls) /\ response_shape r.
Proof.
  apply (adapter_returns _ _ _ (OpenAI.provider_part w)).
  intros data. apply returns_only_bind. intros completion.
  apply returns_only_bind. intros r. apply returns_only_success.
Qed.

Lemma Gemini_returns (w : World) (req : NextRequest) :
  exists r calls,
    Gemini.POST w req = (Returned r, calls) /\ response_shape r.
Proof.
  apply (adapter_returns _ _ _ (Gemini.provider_part w)).
  intros data. unfold Gemini.provider_part. cbv zeta. case_match.
  - apply returns_only_bind. intros response.
    apply returns_only_bind. intros fullContent.
    apply returns_only_success.
  - apply returns_only_bind. intros response.
    apply returns_only_success.
Qed.

End ResponseShape.

Section GatewayShape.

Lemma branches_exclusive (b : ChatResponse) :
  ~ (success_body b /\ failure_body b).
Proof.
  intros [[He _] (_ & [m Hm] & _)]. rewrite He in Hm. discriminate.
Qed.

Lemma response_shape_one_branch (r : HttpResponse) :
  response_shape r -> one_branch (http_body r).
Proof.
  intros [[_ Hs]|Hf]; [left|right]; (split; [done|]);
    intros H; by apply (branches_exclusive (http_body r)).
Qed.

Lemma route_loaded (h : M HttpResponse) : route (Returned tt) h = h.
Proof. done. Qed.

Lemma framework_answer_returned (r : HttpResponse) (calls : list Call) :
  framework_answer (Returned r, calls)
  = (Returned (mkFetchResponse (http_status r) (Returned (http_body r))),
     calls).
Proof. done. Qed.

Lemma framework_answer_threw (e : Thrown) (calls : list Call) :
  framework_answer (Threw e, calls)
  = (Returned (mkFetchResponse 500
                 (Threw (ThrowError (mkErrorObj V8.not_json None)))),
     calls).
Proof. done. Qed.

Lemma OpenAI_route_cases (w : World) (req : NextRequest) :
  (OPENAI_API_KEY w = None /\ exists e, OpenAI.route w req = (Threw e, []))
  \/ OpenAI.route w req = OpenAI.POST w req.
Proof.
  unfold OpenAI.route, OpenAI.module_load.
  destruct (OPENAI_API_KEY w); [by right|left]. split; [done|].
  by eexists.
Qed.

Lemma local_server_returns (w : World) (path : jsstring) (body : JsValue) :
  exists fr calls,
    local_server w path body = (Returned fr, calls) /\ relayed fr.
Proof.
  unfold local_server.
  repeat case_match.
  - destruct (OpenAI_route_cases w (mkNextRequest (Parsed body)))
      as [[_ [e ->]]| ->].
    + eexists _, _. split; [apply framework_answer_threw|by right].
    + destruct (OpenAI_returns w (mkNextRequest (Parsed body)))
        as (r & calls & -> & Hr).
      eexists _, _. split; [apply framework_answer_returned|].
      left. by exists r.
  - unfold Gemini.route, Gemini.module_load. rewrite route_loaded.
    destruct (Gemini_returns w (mkNextRequest (Parsed body)))
      as (r & calls & -> & Hr).
    eexists _, _. split; [apply framework_answer_returned|].
    left. by exists r.
  - unfold DeepSeek.route, DeepSeek.module_load. rewrite route_loaded.
    destruct (DeepSeek_returns w (mkNextRequest (Parsed body)))
      as (r & calls & -> & Hr).
    eexists _, _. split; [apply framework_answer_returned|].
    left. by exists r.
Qed.

Lemma tidy_fetch_POST (w : World) (path : jsstring) (body : JsValue) :
  tidy relayed (Router.fetch_POST (local_server w) path body).
Proof.
  unfold Router.fetch_POST.
  destruct (local_server_returns w path body) as (fr & calls & -> & Hr).
  unfold tidy. simpl. eauto.
Qed.

Lemma gateway_returns (w : World) (req : NextRequest) :
  exists r calls, gateway w req = (Returned r, calls) /\ response_shape r.
Proof.
  unfold gateway, Router.POST.
  edestruct (handler_returns response_shape) as (r & calls & Heq & Hr);
    [|exists r, calls; split; [exact Heq|]].
  - eapply tidy_bind; [apply tidy_parse_request|]. intros p _. cbv zeta.
    eapply tidy_bind.
    + unfold Router.dispatch.
      repeat case_match; try apply tidy_fetch_POST.
      by apply tidy_throw_chat.
    + intros fr [(r & Hr & ->)| ->].
      * eapply tidy_bind with (P := fun b => b = http_body r); [done|].
        intros b ->.
        eapply tidy_weaken; [|apply tidy_NextResponse_json].
        intros r' [Hb Hs]. simpl in Hs. destruct Hr as [[H200 Hsucc]|Hf].
        -- left. split; [by rewrite Hs|by rewrite Hb].
        -- right. by rewrite Hb.
      * eapply tidy_bind with (P := fun _ => False); [|done].
        apply raised_runtime_error.
  - destruct Hr as [Hr|Hr]; [exact Hr|by right].
Qed.

(** C2. Every handler (the three adapters and the router in front of
    them) returns a response body whose [reply] is a string and in which
    exactly one branch is filled in: either [error] and [errorType] are
    absent and [reply] holds the text, or [reply] is the empty string and
    [error] and [errorType] are both present. *)
Theorem response_one_branch (w : World) (req : NextRequest) :
  returns_one_branch (DeepSeek.POST w req)
  /\ returns_one_branch (OpenAI.POST w req)
  /\ returns_one_branch (Gemini.POST w req)
  /\ returns_one_branch (gateway w req).
Proof.
  unfold returns_one_branch.
  destruct (DeepSeek_returns w req) as (r1 & c1 & -> & H1).
  destruct (OpenAI_returns w req) as (r2 & c2 & -> & H2).
  destruct (Gemini_returns w req) as (r3 & c3 & -> & H3).
  destruct (gateway_returns w req) as (r4 & c4 & -> & H4).
  repeat split; eexists _, _; (split; [reflexivity|]);
    by apply response_shape_one_branch.
Qed.

End GatewayShape.
(* ===================================================================== *)
(** ** Missing credentials *)
(* ===================================================================== *)

Section MissingKey.

Lemma guard_fails (key : option jsstring) (provider : String.string)
  (rest : M HttpResponse) :
  env_missing key = true ->
  fails_without_calls
    (try_catch (require_key key provider ;;; rest) outer_catch)
    500 CONFIGURATION_ERROR.
Proof.
  intros Hk. unfold require_key. rewrite Hk.
  eexists. split; [reflexivity|]. simpl.
  repeat split; eauto.
Qed.

Lemma OpenAI_route_unloaded (w : World) (req : NextRequest) :
  OPENAI_API_KEY w = None ->
  OpenAI.route w req
  = (Threw (ThrowError (mkErrorObj
      (lit "The OPENAI_API_KEY environment variable is missing or empty; either provide it, or instantiate the OpenAI client with an apiKey option, like new OpenAI({ apiKey: 'My API Key' }).")
      None)), []).
Proof. intros Hk. unfold OpenAI.route, OpenAI.module_load. by rewrite Hk. Qed.

Lemma OpenAI_route_loaded (w : World) (req : NextRequest) (k : jsstring) :
  OPENAI_API_KEY w = Some k -> OpenAI.route w req = OpenAI.POST w req.
Proof. intros Hk. unfold OpenAI.route, OpenAI.module_load. by rewrite Hk. Qed.

(** C3. What the three adapter routes do when their API key is absent
    from the environment. The Gemini and DeepSeek routes answer with
    [CONFIGURATION_ERROR] and status 500 and make no outbound call,
    whatever the request. The OpenAI route does so only for a key set to
    the empty string: with the key absent its module throws while it
    loads, so the guard of its [POST] never runs, the route produces no
    response of its own, and a [fetch] of it resolves to the framework's
    status 500 whose body is not JSON. *)
Theorem missing_key_routes (w : World) (req : NextRequest) :
  (GEMINI_API_KEY w = None ->
   fails_without_calls (Gemini.route w req) 500 CONFIGURATION_ERROR)
  /\ (DEEPSEEK_API_KEY w = None ->
      fails_without_calls (DeepSeek.route w req) 500 CONFIGURATION_ERROR)
  /\ (OPENAI_API_KEY w = Some [] ->
      fails_without_calls (OpenAI.route w req) 500 CONFIGURATION_ERROR)
  /\ (OPENAI_API_KEY w = None ->
      (exists e, OpenAI.route w req = (Threw e, []))
      /\ ~ fails_without_calls (OpenAI.route w req) 500 CONFIGURATION_ERROR
      /\ forall body,
           local_server w (lit "/api/ai-chat/openai") body
           = (Returned (mkFetchResponse 500
                (Threw (ThrowError (mkErrorObj V8.not_json None)))), [])).
Proof.
  split; [|split; [|split]]; intros Hk.
  - unfold Gemini.route, Gemini.module_load, route, Gemini.POST.
    apply guard_fails. by rewrite Hk.
  - unfold DeepSeek.route, DeepSeek.module_load, route, DeepSeek.POST.
    apply guard_fails. by rewrite Hk.
  - rewrite (OpenAI_route_loaded w req [] Hk). unfold OpenAI.POST.
    apply guard_fails. by rewrite Hk.
  - split; [|split].
    + eexists. by apply OpenAI_route_unloaded.
    + rewrite (OpenAI_route_unloaded w req Hk). by intros (r & Hr & _).
    + intros body. unfold local_server.
      replace (list_N_eqb (lit "/api/ai-chat/openai")
                          (lit "/api/ai-chat/openai")) with true
        by by vm_compute.
      by rewrite (OpenAI_route_unloaded w _ Hk).
Qed.

End MissingKey.

Lemma missing_key_routes_witness :
  DEEPSEEK_API_KEY no_keys_world = None
  /\ fails_without_calls
       (DeepSeek.route no_keys_world (mkNextRequest (Parsed JNull)))
       500 CONFIGURATION_ERROR.
Proof.
  split; [reflexivity|].
  apply (missing_key_routes no_keys_world (mkNextRequest (Parsed JNull))).
  reflexivity.
Defined.

Lemma openai_route_fails_to_load :
  OPENAI_API_KEY no_keys_world = None
  /\ fst (OpenAI.route no_keys_world (mkNextRequest (Parsed JNull)))
     = Threw (ThrowError (mkErrorObj
         (lit "The OPENAI_API_KEY environment variable is missing or empty; either provide it, or instantiate the OpenAI client with an apiKey option, like new OpenAI({ apiKey: 'My API Key' }).")
         None))
  /\ ~ fails_without_calls
         (OpenAI.route no_keys_world (mkNextRequest (Parsed JNull)))
         500 CONFIGURATION_ERROR.
Proof.
  split; [reflexivity|]. split; [reflexivity|].
  by intros (r & Hr & _).
Qed.

(* ===================================================================== *)
(** ** Payloads the cleaning step cannot map over *)
(* ===================================================================== *)

Section UncleanablePayload.

Lemma cleaning_throws (body : JsValue) :
  has_messages_array body = false ->
  exists msg, cleanedMessages body = runtime_error msg
              /\ connectivity_keyword msg = false.
Proof.
  unfold has_messages_array, cleanedMessages, get_prop. intros H.
  destruct body as [| |b|n|s|l|props];
    try (eexists; split; [reflexivity|by vm_compute]).
  destruct (props !! lit "messages") as [[| |b|n|s|l|o]|]; simpl;
    try discriminate;
    eexists; (split; [reflexivity|by vm_compute]).
Qed.

(** A runtime error without a connectivity keyword, thrown inside the
    [try] block before any call, ends as [UNKNOWN_ERROR] with status 500. *)
Lemma runtime_error_unknown (msg : jsstring) :
  connectivity_keyword msg = false ->
  fails_without_calls (outer_catch (ThrowError (mkErrorObj msg None)))
                      500 UNKNOWN_ERROR.
Proof.
  intros Hk. unfold outer_catch.
  rewrite createErrorResponse_unknown by done.
  eexists. split; [reflexivity|]. simpl. unfold failure_body. simpl.
  eauto 10.
Qed.

Lemma prologue_throws (body : JsValue) (msg : jsstring) :
  cleanedMessages body = runtime_error msg ->
  parse_request (request_of body) = runtime_error msg.
Proof.
  intros H. unfold parse_request, request_of, req_json. simpl.
  unfold bind at 1. simpl. by rewrite H.
Qed.

Lemma try_runtime_error {A} (msg : jsstring) (k : A -> M HttpResponse) :
  try_catch (x <- runtime_error msg ;; k x) outer_catch
  = outer_catch (ThrowError (mkErrorObj msg None)).
Proof.
  unfold runtime_error, throw, bind, try_catch.
  by destruct (outer_catch _).
Qed.

Lemma guard_passes (key : option jsstring) (provider : String.string)
  (rest : M HttpResponse) :
  env_missing key = false ->
  (require_key key provider ;;; rest) = rest.
Proof.
  intros Hk. unfold require_key. rewrite Hk.
  unfold bind, ret. by destruct rest.
Qed.

(** C10, as the code has it. A payload whose [messages] field is absent
    or not an array makes the cleaning step throw before validation; the
    router, and every adapter whose API key is configured, then answers
    with [UNKNOWN_ERROR] and status 500 (not [VALIDATION_ERROR] and 400),
    without any outbound call. *)
Theorem uncleanable_payload_unknown_error (body : JsValue) :
  has_messages_array body = false ->
  (exists msg, cleanedMessages body = runtime_error msg)
  /\ (forall server,
        fails_without_calls (Router.POST server (request_of body))
                            500 UNKNOWN_ERROR)
  /\ (forall w,
        fails_without_calls (gateway w (request_of body)) 500 UNKNOWN_ERROR)
  /\ (forall w, env_missing (OPENAI_API_KEY w) = false ->
        fails_without_calls (OpenAI.POST w (request_of body))
                            500 UNKNOWN_ERROR)
  /\ (forall w, env_missing (GEMINI_API_KEY w) = false ->
        fails_without_calls (Gemini.POST w (request_of body))
                            500 UNKNOWN_ERROR)
  /\ (forall w, env_missing (DEEPSEEK_API_KEY w) = false ->
        fails_without_calls (DeepSeek.POST w (request_of body))
                            500 UNKNOWN_ERROR).
Proof.
  intros H. destruct (cleaning_throws body H) as (msg & Hc & Hk).
  pose proof (prologue_throws body msg Hc) as Hp.
  split; [by exists msg|].
  repeat split; intros;
    unfold gateway, Router.POST, OpenAI.POST, Gemini.POST, DeepSeek.POST;
    rewrite ?guard_passes by done;
    rewrite Hp, try_runtime_error;
    by apply runtime_error_unknown.
Qed.

End UncleanablePayload.

Lemma uncleanable_payload_unknown_error_witness :
  has_messages_array (object [("model", JStr (lit "openai"))]) = false
  /\ fails_without_calls
       (Router.POST unreachable_server
          (request_of (object [("model", JStr (lit "openai"))])))
       500 UNKNOWN_ERROR.
Proof.
  split; [by vm_compute|].
  apply (uncleanable_payload_unknown_error
           (object [("model", JStr (lit "openai"))])).
  by vm_compute.
Defined.

(** The claim read for every handler and every environment fails: an
    adapter without its API key answers [CONFIGURATION_ERROR] before the
    cleaning step is reached. *)
Lemma uncleanable_payload_without_key :
  has_messages_array (object []) = false
  /\ fails_without_calls
       (DeepSeek.POST no_keys_world (request_of (object [])))
       500 CONFIGURATION_ERROR
  /\ ~ fails_without_calls
         (DeepSeek.POST no_keys_world (request_of (object [])))
         500 UNKNOWN_ERROR.
Proof.
  split; [by vm_compute|].
  assert (fails_without_calls
            (DeepSeek.POST no_keys_world (request_of (object [])))
            500 CONFIGURATION_ERROR) as Hc.
  { unfold DeepSeek.POST. by apply guard_fails. }
  split; [exact Hc|].
  destruct Hc as (r & Hr & _ & Ht & _).
  intros (r' & Hr' & _ & Ht' & _).
  rewrite Hr in Hr'. injection Hr' as <-. rewrite Ht in Ht'. discriminate.
Qed.

(* ===================================================================== *)
(** ** Unknown models *)
(* ===================================================================== *)

Section UnknownModel.

Lemma model_schema_rejects (path : ZodIssue) (v : JsValue) :
  ~ known_model v -> model_schema path v = Zod.Err [path].
Proof.
  unfold known_model, model_schema, list_N_eqb. intros H.
  destruct v; try reflexivity.
  repeat case_bool_decide; subst; try reflexivity; exfalso; apply H; auto.
Qed.

Lemma model_schema_accepts (path : ZodIssue) (v : JsValue) (m : AIModel) :
  model_schema path v = Zod.Ok m -> known_model v.
Proof.
  unfold known_model, model_schema, list_N_eqb.
  destruct v; try discriminate.
  repeat case_bool_decide; subst; try discriminate; auto.
Qed.

Lemma validation_rejects_unknown_model (body : JsValue)
  (cleaned : list JsValue) :
  ~ known_model (model_field body) ->
  exists issues, validationResult body cleaned = Zod.Err issues.
Proof.
  intros H. unfold validationResult, chatRequestSchema.
  assert (Zod.field (<[lit "messages" := JArr cleaned]> (spread body))
                    "model" = model_field body) as ->.
  { unfold Zod.field, model_field, Zod.field.
    by rewrite lookup_insert_ne. }
  rewrite model_schema_rejects by done. simpl. eauto.
Qed.

Lemma clean_message_no_calls (msg : JsValue) :
  snd (clean_message msg) = [].
Proof. unfold clean_message. by repeat case_match. Qed.

Lemma mapM_no_calls {A B} (f : A -> M B) (l : list A) :
  (forall a, snd (f a) = []) -> snd (mapM f l) = [].
Proof.
  intros Hf. induction l as [|a l IH]; [done|]. simpl.
  specialize (Hf a). unfold bind.
  destruct (f a) as [[b|e] c]; simpl in *; subst; [|done].
  destruct (mapM f l) as [[bs|e] c]; simpl in *; by subst.
Qed.

Lemma cleanedMessages_no_calls (body : JsValue) :
  snd (cleanedMessages body) = [].
Proof.
  unfold cleanedMessages. repeat case_match; try done.
  apply mapM_no_calls, clean_message_no_calls.
Qed.

(** With an unknown model the prologue throws, whatever the rest of the
    payload is, and it calls nothing. *)
Lemma prologue_rejects_unknown_model (body : JsValue) :
  ~ known_model (model_field body) ->
  exists e, parse_request (request_of body) = (Threw e, [])
            /\ raised_in_handler e
            /\ (forall cleaned, cleanedMessages body = ret cleaned ->
                  exists issues,
                    e = ThrowChatError (validation_error issues)).
Proof.
  intros H. unfold parse_request, request_of, req_json. simpl.
  unfold bind at 1. simpl.
  pose proof (tidy_cleanedMessages body) as Ht.
  pose proof (cleanedMessages_no_calls body) as Hn.
  destruct (cleanedMessages body) as [[cleaned|e] calls];
    unfold tidy in Ht; simpl in *; subst calls.
  - destruct (validation_rejects_unknown_model body cleaned H)
      as [issues Hv].
    rewrite Hv. simpl. eexists. split; [reflexivity|]. split.
    + by apply raised_chat_error.
    + intros c _. by exists issues.
  - exists e. split; [reflexivity|]. split; [done|].
    intros c Hc. discriminate.
Qed.

(** C4, as the code has it. A request whose [model] is not one of the
    three known ones always ends in a failure response of the router
    without any outbound call; when the cleaning step gets through its
    [messages], the failure is the schema's: [VALIDATION_ERROR] with
    status 400. *)
Theorem unknown_model_rejected
  (server : jsstring -> JsValue -> M FetchResponse) (body : JsValue) :
  ~ known_model (model_field body) ->
  (exists r, Router.POST server (request_of body) = (Returned r, [])
             /\ failure_body (http_body r))
  /\ (forall cleaned, cleanedMessages body = ret cleaned ->
        fails_without_calls (Router.POST server (request_of body))
                            400 VALIDATION_ERROR).
Proof.
  intros H.
  destruct (prologue_rejects_unknown_model body H) as (e & Hp & He & Hc).
  unfold Router.POST. rewrite Hp. unfold bind, try_catch.
  destruct (outer_catch_returns e He) as (r & Hr & Hf & Hs).
  rewrite Hr. split; [by exists r|].
  intros cleaned Hcl. destruct (Hc cleaned Hcl) as [issues ->].
  destruct Hs as (c & Hc' & ->). simpl in Hc'. injection Hc' as <-.
  eexists. split; [done|]. split; [done|]. by split.
Qed.

End UnknownModel.

Lemma unknown_model_rejected_witness :
  let body :=
    object [("model", JStr (lit "claude"));
            ("messages",
             JArr [object [("role", JStr (lit "user"));
                           ("content", JStr (lit "Hi"))]])] in
  ~ known_model (model_field body)
  /\ fails_without_calls (Router.POST unreachable_server (request_of body))
                         400 VALIDATION_ERROR.
Proof.
  intros body.
  assert (~ known_model (model_field body)) as H.
  { intros [H|[H|H]]; vm_compute in H; discriminate. }
  split; [exact H|].
  eapply (unknown_model_rejected unreachable_server body H).
  by vm_compute.
Defined.

(** The claim read for every request fails: with an unknown model and no
    [messages] array the router answers 500 [UNKNOWN_ERROR]. *)
Lemma unknown_model_without_messages :
  let body := object [("model", JStr (lit "claude"))] in
  ~ known_model (model_field body)
  /\ fails_without_calls (Router.POST unreachable_server (request_of body))
                         500 UNKNOWN_ERROR
  /\ ~ (fails_without_calls (Router.POST unreachable_server (request_of body))
                            400 UNSUPPORTED_MODEL
        \/ fails_without_calls (Router.POST unreachable_server
                                            (request_of body))
                               400 VALIDATION_ERROR).
Proof.
  intros body.
  split.
  { intros [H|[H|H]]; vm_compute in H; discriminate. }
  assert (fails_without_calls
            (Router.POST unreachable_server (request_of body))
            500 UNKNOWN_ERROR) as Hu.
  { unfold Router.POST.
    destruct (cleaning_throws body) as (msg & Hc & Hk); [by vm_compute|].
    rewrite (prologue_throws body msg Hc), try_runtime_error.
    by apply runtime_error_unknown. }
  split; [exact Hu|].
  destruct Hu as (r & Hr & Hs & _).
  intros [(r' & Hr' & Hs' & _)|(r' & Hr' & Hs' & _)];
    rewrite Hr in Hr'; injection Hr' as <-; rewrite Hs in Hs'; discriminate.
Qed.

(** The [default] arm of the router's [switch] is dead code: a validated
    model always selects one of the three adapters. *)
Lemma dispatch_validated_model
  (server : jsstring -> JsValue -> M FetchResponse) (m : AIModel)
  (body : JsValue) :
  exists path,
    Router.dispatch server (Router.model_text m) body
    = Router.fetch_POST server path body.
Proof. destruct m; eexists; reflexivity. Qed.

(* ===================================================================== *)
(** ** Cleaning of message content *)
(* ===================================================================== *)

Section Cleaning.

Lemma trimStart_whitespace (s : jsstring) :
  whitespace_only s -> trimStart s = [].
Proof.
  induction 1 as [|c s Hc _ IH]; [reflexivity|].
  simpl. by rewrite Hc.
Qed.

Lemma trim_whitespace (s : jsstring) : whitespace_only s -> trim s = [].
Proof.
  intros H. unfold trim, trimEnd.
  rewrite (trimStart_whitespace s) by done. reflexivity.
Qed.


Lemma cleaned_fields (role_v : JsValue) (c : jsstring) (k : String.string) :
  Zod.field (<[ lit "role" := role_v ]> (<[ lit "content" := JStr c ]> ∅)) k
  = if bool_decide (lit k = lit "role") then role_v
    else if bool_decide (lit k = lit "content") then JStr c
    else JUndefined.
Proof.
  unfold Zod.field.
  repeat case_bool_decide.
  - by rewrite H, lookup_insert_eq.
  - rewrite lookup_insert_ne by done. by rewrite H0, lookup_insert_eq.
  - rewrite !lookup_insert_ne by done. by rewrite lookup_empty.
Qed.

(** The element schema accepts a cleaned message exactly when it accepts
    its role: the content of a cleaned message, empty or not, is never a
    reason to reject it. *)
Lemma message_schema_cleaned (path : ZodIssue) (role_v : JsValue)
  (c : jsstring) :
  message_schema path
    (JObj (<[ lit "role" := role_v ]> (<[ lit "content" := JStr c ]> ∅)))
  = Zod.transform (fun r => mkMessage r c None None)
      (role_schema (path ++ [PKey (lit "role")]) role_v).
Proof.
  unfold message_schema. rewrite !cleaned_fields.
  change (bool_decide (lit "role" = lit "role")) with true.
  change (bool_decide (lit "content" = lit "role")) with false.
  change (bool_decide (lit "content" = lit "content")) with true.
  change (bool_decide (lit "name" = lit "role")) with false.
  change (bool_decide (lit "name" = lit "content")) with false.
  change (bool_decide (lit "function_call" = lit "role")) with false.
  change (bool_decide (lit "function_call" = lit "content")) with false.
  cbv iota. simpl.
  destruct (role_schema _ _); simpl; rewrite ?app_nil_r; reflexivity.
Qed.


End Cleaning.


(* ===================================================================== *)
(** ** Provider request bodies *)
(* ===================================================================== *)

Section RequestBody.

Lemma with_parameters_lookup (defaults : gmap (list N) JsValue)
  (parameters : option (gmap (list N) JsValue)) (k : jsstring) :
  with_parameters defaults parameters !! k
  = overridden defaults parameters k.
Proof.
  unfold with_parameters, overridden.
  destruct parameters as [params|]; simpl.
  - destruct (params !! k) as [v|] eqn:Hk.
    + by apply lookup_union_Some_l.
    + by rewrite lookup_union_r.
  - by rewrite (left_id_L ∅ (∪)).
Qed.

Lemma bind_ret_l {A B} (a : A) (k : A -> M B) : bind (ret a) k = k a.
Proof. unfold bind, ret. by destruct (k a). Qed.

(** An adapter whose key is configured and whose prologue accepts the
    request runs its provider part on the validated data. *)
Lemma adapter_runs (key : option jsstring) (provider d : String.string)
  (inner : ChatRequest -> M HttpResponse) (req : NextRequest)
  (body : JsValue) (data : ChatRequest) :
  env_missing key = false ->
  parse_request req = ret (body, data) ->
  try_catch
    (require_key key provider ;;;
     p <- parse_request req ;;
     try_catch (inner (snd p)) (provider_catch d))
    outer_catch
  = try_catch (try_catch (inner data) (provider_catch d)) outer_catch.
Proof.
  intros Hk Hp. rewrite guard_passes by done.
  by rewrite Hp, bind_ret_l.
Qed.

Lemma error_response_no_calls (c : ChatError) :
  snd (error_response c) = [].
Proof. apply NextResponse_json_no_calls. Qed.

Lemma outer_catch_no_calls (e : Thrown) : snd (outer_catch e) = [].
Proof.
  unfold outer_catch.
  destruct (createErrorResponse e default_defaultMessage) as [c|t];
    [|reflexivity].
  rewrite lift_returned. apply error_response_no_calls.
Qed.

Lemma provider_catch_no_calls (d : String.string) (e : Thrown) :
  snd (provider_catch d e) = [].
Proof.
  unfold provider_catch.
  destruct (createErrorResponse e (lit d)) as [c|t]; [|reflexivity].
  rewrite lift_returned. apply error_response_no_calls.
Qed.

(** The calls of a provider part that makes one call and then only
    builds its response. *)
Lemma one_call_trace (d : String.string) (c : Call)
  (m : M HttpResponse) :
  (exists o, m = (o, [c])) ->
  snd (try_catch (try_catch m (provider_catch d)) outer_catch) = [c].
Proof.
  intros [o ->]. unfold try_catch at 2.
  destruct o as [r|e]; [reflexivity|].
  pose proof (provider_catch_no_calls d e) as Hn.
  destruct (provider_catch d e) as [[r|e'] calls]; simpl in Hn;
    subst calls; [reflexivity|].
  unfold try_catch.
  pose proof (outer_catch_no_calls e') as Hn.
  destruct (outer_catch e') as [r calls]; simpl in Hn; by subst calls.
Qed.

Lemma bind_outbound {A B} (c : Call) (a : A) (k : A -> M B) :
  bind (outbound c (Returned a)) k = (fst (k a), c :: snd (k a)).
Proof. unfold bind, outbound. by destruct (k a). Qed.

Lemma DeepSeek_runs (w : World) (req : NextRequest) (body : JsValue)
  (data : ChatRequest) :
  env_missing (DEEPSEEK_API_KEY w) = false ->
  parse_request req = ret (body, data) ->
  DeepSeek.POST w req
  = try_catch
      (try_catch (DeepSeek.provider_part w data)
                 (provider_catch "Failed to get response from DeepSeek"))
      outer_catch.
Proof.
  intros Hk Hp.
  exact (adapter_runs _ _ _ (DeepSeek.provider_part w) req body data Hk Hp).
Qed.

Lemma OpenAI_runs (w : World) (req : NextRequest) (body : JsValue)
  (data : ChatRequest) :
  env_missing (OPENAI_API_KEY w) = false ->
  parse_request req = ret (body, data) ->
  OpenAI.POST w req
  = try_catch
      (try_catch (OpenAI.provider_part w data)
                 (provider_catch "Failed to get response from OpenAI"))
      outer_catch.
Proof.
  intros Hk Hp.
  exact (adapter_runs _ _ _ (OpenAI.provider_part w) req body data Hk Hp).
Qed.

Lemma Gemini_runs (w : World) (req : NextRequest) (body : JsValue)
  (data : ChatRequest) :
  env_missing (GEMINI_API_KEY w) = false ->
  parse_request req = ret (body, data) ->
  Gemini.POST w req
  = try_catch
      (try_catch (Gemini.provider_part w data)
                 (provider_catch "Failed to get response from Gemini"))
      outer_catch.
Proof.
  intros Hk Hp.
  exact (adapter_runs _ _ _ (Gemini.provider_part w) req body data Hk Hp).
Qed.

Lemma DeepSeek_sends (w : World) (req : NextRequest) (body : JsValue)
  (data : ChatRequest) :
  env_missing (DEEPSEEK_API_KEY w) = false ->
  parse_request req = ret (body, data) ->
  snd (DeepSeek.POST w req)
  = [CallAxiosPost DeepSeek.endpoint (DeepSeek.requestBody data)
                   (DeepSeek.headers w)].
Proof.
  intros Hk Hp. rewrite (DeepSeek_runs w req body data Hk Hp).
  apply one_call_trace. unfold DeepSeek.provider_part. cbv zeta.
  unfold outbound, bind.
  destruct (axios_post _ _ _ _); eexists; reflexivity.
Qed.

Lemma read_completion_no_calls (s : option bool) (c : OpenAIResult) :
  snd (OpenAI.read_completion s c) = [].
Proof. unfold OpenAI.read_completion. by repeat case_match. Qed.

Lemma OpenAI_sends (w : World) (req : NextRequest) (body : JsValue)
  (data : ChatRequest) :
  env_missing (OPENAI_API_KEY w) = false ->
  parse_request req = ret (body, data) ->
  snd (OpenAI.POST w req) = [CallOpenAICreate (OpenAI.requestBody data)].
Proof.
  intros Hk Hp. rewrite (OpenAI_runs w req body data Hk Hp).
  apply one_call_trace. unfold OpenAI.provider_part. cbv zeta.
  unfold outbound, bind at 1.
  destruct (openai_create _ _) as [c|e]; [|eexists; reflexivity].
  pose proof (read_completion_no_calls (stream data) c) as Hn.
  unfold bind.
  destruct (OpenAI.read_completion _ _) as [[r|e] calls]; simpl in Hn;
    subst calls; eexists; reflexivity.
Qed.

(** C9. The request body of the DeepSeek and OpenAI adapters is the fixed
    defaults overlaid with the client's [parameters], the later property
    winning: at every key the body holds the parameter when there is one
    and the default otherwise. The parameters are not filtered, so this
    holds for [model], [messages] and [stream] as for any other key. The
    defaults are model deepseek-chat, temperature 0.7, max_tokens 1000
    for DeepSeek; for OpenAI its own model, the same temperature and
    max_tokens, and top_p 1, presence_penalty 0, frequency_penalty 0.
    This body is what the adapter sends. *)
Theorem request_body_later_wins (data : ChatRequest) :
  (forall k,
     DeepSeek.requestBody data !! k
     = overridden (DeepSeek.defaults (messages data)) (parameters data) k)
  /\ (forall k,
        OpenAI.requestBody data !! k
        = overridden (OpenAI.defaults (messages data) (stream data))
                     (parameters data) k)
  /\ (forall params k v,
        parameters data = Some params -> params !! k = Some v ->
        DeepSeek.requestBody data !! k = Some v
        /\ OpenAI.requestBody data !! k = Some v)
  /\ (DeepSeek.defaults (messages data) !! lit "model"
        = Some (JStr (lit "deepseek-chat"))
      /\ DeepSeek.defaults (messages data) !! lit "temperature"
         = Some (JNum (mkJsNumber (7 # 10) (lit "0.7")))
      /\ DeepSeek.defaults (messages data) !! lit "max_tokens"
         = Some (JNum (num_of_Z 1000)))
  /\ (OpenAI.defaults (messages data) (stream data) !! lit "model"
        = Some (JStr (lit "gpt-3.5-turbo"))
      /\ OpenAI.defaults (messages data) (stream data) !! lit "temperature"
         = Some (JNum (mkJsNumber (7 # 10) (lit "0.7")))
      /\ OpenAI.defaults (messages data) (stream data) !! lit "max_tokens"
         = Some (JNum (num_of_Z 1000))
      /\ OpenAI.defaults (messages data) (stream data) !! lit "top_p"
         = Some (JNum (num_of_Z 1))
      /\ OpenAI.defaults (messages data) (stream data)
           !! lit "presence_penalty" = Some (JNum (num_of_Z 0))
      /\ OpenAI.defaults (messages data) (stream data)
           !! lit "frequency_penalty" = Some (JNum (num_of_Z 0)))
  /\ (forall w req body,
        parse_request req = ret (body, data) ->
        (env_missing (DEEPSEEK_API_KEY w) = false ->
         snd (DeepSeek.POST w req)
         = [CallAxiosPost DeepSeek.endpoint (DeepSeek.requestBody data)
                          (DeepSeek.headers w)])
        /\ (env_missing (OPENAI_API_KEY w) = false ->
            snd (OpenAI.POST w req)
            = [CallOpenAICreate (OpenAI.requestBody data)])).
Proof.
  split; [intros k; apply with_parameters_lookup|].
  split; [intros k; apply with_parameters_lookup|].
  split.
  { intros params k v Hp Hk.
    unfold DeepSeek.requestBody, OpenAI.requestBody.
    rewrite !with_parameters_lookup. unfold overridden.
    rewrite Hp. by rewrite Hk. }
  split.
  { unfold DeepSeek.defaults.
    split; [|split]; by simplify_map_eq. }
  split.
  { unfold OpenAI.defaults.
    split; [|split; [|split; [|split; [|split]]]]; by simplify_map_eq. }
  intros w req body Hp. split; intros Hk.
  - by eapply DeepSeek_sends.
  - by eapply OpenAI_sends.
Qed.

End RequestBody.

Lemma request_body_later_wins_witness :
  parse_request (request_of overriding_payload)
  = ret (overriding_payload, overriding_request)
  /\ overriding_parameters !! lit "model" = Some (JStr (lit "other-model"))
  /\ DeepSeek.requestBody overriding_request !! lit "model"
     = Some (JStr (lit "other-model"))
  /\ snd (DeepSeek.POST hello_world (request_of overriding_payload))
     = [CallAxiosPost DeepSeek.endpoint
          (DeepSeek.requestBody overriding_request)
          (DeepSeek.headers hello_world)].
Proof.
  assert (parse_request (request_of overriding_payload)
          = ret (overriding_payload, overriding_request)) as Hp.
  { by vm_compute. }
  assert (overriding_parameters !! lit "model"
          = Some (JStr (lit "other-model"))) as Hk.
  { by vm_compute. }
  destruct (request_body_later_wins overriding_request)
    as (_ & _ & Hover & _ & _ & Hsend).
  split; [exact Hp|]. split; [exact Hk|]. split.
  - by apply (Hover overriding_parameters (lit "model")
                    (JStr (lit "other-model")) eq_refl).
  - apply (Hsend hello_world (request_of overriding_payload)
                 overriding_payload Hp).
    reflexivity.
Defined.

(* ===================================================================== *)
(** ** The Gemini adapter *)
(* ===================================================================== *)

Section GeminiAdapter.

Lemma no_candidates_empty_reply (r : GenerateContentResponse) :
  candidates r = None \/ candidates r = Some [] ->
  Gemini.extract_reply r = [].
Proof. unfold Gemini.extract_reply. by intros [->| ->]. Qed.

(** C7. The Gemini adapter turns every message into one content with a
    single text part, its role being "model" for [assistant] and "user"
    for every other role, [system] included. When the provider answers
    without candidates, the adapter returns a success: status 200 with
    the empty string as [reply] and no [error]. *)
Theorem gemini_roles_and_empty_reply :
  (forall msg,
     gc_parts (Gemini.content_of msg) = [content msg]
     /\ (role msg = assistant ->
         gc_role (Gemini.content_of msg) = lit "model")
     /\ (role msg <> assistant ->
         gc_role (Gemini.content_of msg) = lit "user"))
  /\ Gemini.content_of (mkMessage system (lit "s") None None)
     = mkGeminiContent (lit "user") [lit "s"]
  /\ (forall w req body data resp,
        env_missing (GEMINI_API_KEY w) = false ->
        parse_request req = ret (body, data) ->
        default false (stream data) = false ->
        gemini_generateContent w Gemini.config_model
          (map Gemini.content_of (messages data)) = Returned resp ->
        candidates resp = None \/ candidates resp = Some [] ->
        Gemini.POST w req
        = (Returned (reply_response [] None),
           [CallGeminiGenerateContent Gemini.config_model
              (map Gemini.content_of (messages data))])).
Proof.
  split.
  { intros msg. split; [reflexivity|].
    unfold Gemini.content_of. simpl. split; intros H.
    - by rewrite H.
    - by destruct (role msg). }
  split; [reflexivity|].
  intros w req body data resp Hk Hp Hs Hg Hc.
  rewrite (Gemini_runs w req body data Hk Hp).
  unfold Gemini.provider_part. cbv zeta. rewrite Hs.
  unfold Gemini.contents. rewrite Hg, bind_outbound.
  rewrite (no_candidates_empty_reply resp Hc). reflexivity.
Qed.

End GeminiAdapter.

Lemma gemini_roles_and_empty_reply_witness :
  parse_request (request_of gemini_payload)
  = ret (gemini_payload, gemini_request)
  /\ Gemini.POST hello_world (request_of gemini_payload)
     = (Returned (reply_response [] None),
        [CallGeminiGenerateContent Gemini.config_model
           [mkGeminiContent (lit "model") [lit "prior"]]]).
Proof.
  assert (parse_request (request_of gemini_payload)
          = ret (gemini_payload, gemini_request)) as Hp.
  { by vm_compute. }
  split; [exact Hp|].
  destruct gemini_roles_and_empty_reply as (_ & _ & Hrun).
  apply (Hrun hello_world (request_of gemini_payload) gemini_payload
              gemini_request (mkGenerateContentResponse None)).
  - reflexivity.
  - exact Hp.
  - reflexivity.
  - reflexivity.
  - by left.
Defined.

(* ===================================================================== *)
(** ** Streaming *)
(* ===================================================================== *)

Section Streaming.

Lemma OpenAI_accumulate_concat (acc : jsstring)
  (cs : list ChatCompletionChunk) :
  OpenAI.accumulate acc cs = acc ++ concat (map OpenAI.chunk_content cs).
Proof.
  revert acc. induction cs as [|c cs IH]; intros acc; simpl.
  - by rewrite app_nil_r.
  - by rewrite IH, app_assoc.
Qed.

Lemma Gemini_accumulate_concat (acc : jsstring) (cs : list GeminiChunk) :
  Gemini.accumulate acc cs = acc ++ concat (map gemini_chunk_text cs).
Proof.
  revert acc. induction cs as [|c cs IH]; intros acc; simpl.
  - by rewrite app_nil_r.
  - unfold gemini_chunk_text at 1.
    destruct (chunk_text c) as [[|x t]|]; simpl; rewrite IH; try done.
    by rewrite <- app_assoc.
Qed.

(** A provider part that made its call and then threw ends in a failure
    response. *)
Lemma provider_failure (d : String.string) (e : Thrown) (calls : list Call) :
  exists r,
    try_catch (try_catch (Threw e, calls) (provider_catch d)) outer_catch
    = (Returned r, calls)
    /\ failure_body (http_body r).
Proof.
  pose proof (tidy_provider_catch d e) as Ht.
  pose proof (provider_catch_no_calls d e) as Hn.
  unfold try_catch at 2.
  destruct (provider_catch d e) as [[r|e'] c]; unfold tidy in Ht;
    simpl in Ht, Hn; subst c; rewrite app_nil_r.
  - by exists r.
  - destruct (outer_catch_returns e' Ht) as (r & Hr & Hf & _).
    exists r. unfold try_catch. rewrite Hr. by rewrite app_nil_r.
Qed.

(** C8. When the request asks for streaming and the provider answers with
    a stream, the adapter returns one response whose [reply] is the
    concatenation, in arrival order, of the text of every chunk; when the
    stream breaks off, the response is a failure whose [reply] is empty,
    so that no partial text leaves the adapter. *)
Theorem streamed_chunks_accumulated
  (w : World) (req : NextRequest) (body : JsValue) (data : ChatRequest) :
  parse_request req = ret (body, data) ->
  stream data = Some true ->
  (env_missing (OPENAI_API_KEY w) = false ->
   forall s,
     openai_create w (OpenAI.requestBody data) = Returned (ChunkStream s) ->
     (failure s = None ->
      OpenAI.POST w req
      = (Returned
           (reply_response (concat (map OpenAI.chunk_content (chunks s)))
                           None),
         [CallOpenAICreate (OpenAI.requestBody data)]))
     /\ (failure s <> None ->
         exists r,
           OpenAI.POST w req
           = (Returned r, [CallOpenAICreate (OpenAI.requestBody data)])
           /\ failure_body (http_body r)))
  /\ (env_missing (GEMINI_API_KEY w) = false ->
      forall s,
        gemini_generateContentStream w Gemini.config_model
          (Gemini.contents (messages data)) = Returned s ->
        (failure s = None ->
         Gemini.POST w req
         = (Returned
              (reply_response (concat (map gemini_chunk_text (chunks s)))
                              None),
            [CallGeminiGenerateContentStream Gemini.config_model
               (Gemini.contents (messages data))]))
        /\ (failure s <> None ->
            exists r,
              Gemini.POST w req
              = (Returned r,
                 [CallGeminiGenerateContentStream Gemini.config_model
                    (Gemini.contents (messages data))])
              /\ failure_body (http_body r))).
Proof.
  intros Hp Hs. split; intros Hk s Hc.
  - rewrite (OpenAI_runs w req body data Hk Hp).
    unfold OpenAI.provider_part. cbv zeta.
    rewrite Hc, bind_outbound. unfold OpenAI.read_completion.
    rewrite Hs. simpl default. cbv iota.
    split; intros Hf.
    + rewrite Hf. rewrite bind_ret_l. simpl.
      by rewrite OpenAI_accumulate_concat.
    + destruct (failure s) as [e|]; [|done].
      apply (provider_failure _ e).
  - rewrite (Gemini_runs w req body data Hk Hp).
    unfold Gemini.provider_part. cbv zeta.
    rewrite Hs. simpl default. cbv iota.
    rewrite Hc, bind_outbound.
    split; intros Hf.
    + rewrite Hf. rewrite bind_ret_l. simpl.
      by rewrite Gemini_accumulate_concat.
    + destruct (failure s) as [e|]; [|done].
      apply (provider_failure _ e).
Qed.

End Streaming.

Lemma streamed_chunks_accumulated_witness :
  parse_request (request_of (streaming_payload "openai"))
  = ret (streaming_payload "openai", streaming_request openai)
  /\ OpenAI.POST hello_world (request_of (streaming_payload "openai"))
     = (Returned (reply_response (lit "Hello") None),
        [CallOpenAICreate (OpenAI.requestBody (streaming_request openai))]).
Proof.
  assert (parse_request (request_of (streaming_payload "openai"))
          = ret (streaming_payload "openai", streaming_request openai))
    as Hp.
  { by vm_compute. }
  split; [exact Hp|].
  destruct (streamed_chunks_accumulated hello_world
              (request_of (streaming_payload "openai"))
              (streaming_payload "openai") (streaming_request openai)
              Hp eq_refl) as [Hopenai _].
  destruct (Hopenai eq_refl
              (mkStream [openai_chunk "Hel"; openai_chunk "lo"] None)
              eq_refl) as [Hok _].
  exact (Hok eq_refl).
Defined.

(** The same two chunks through the Gemini adapter. *)
Lemma gemini_stream_hello :
  Gemini.POST hello_world (request_of (streaming_payload "gemini"))
  = (Returned (reply_response (lit "Hello") None),
     [CallGeminiGenerateContentStream Gemini.config_model
        [mkGeminiContent (lit "user") [lit "Hi"]]]).
Proof. by vm_compute. Qed.

(** The reading of the answer follows the request's own [stream] field, not
    the [stream] key of the body that was sent: when only [parameters] ask
    for a stream, the provider is called with [stream: true] and answers
    with the chunks "Hel" and "lo", but the stream is read as a completion,
    the handler ends in its [catch], and the reply is empty. *)
Lemma stream_requested_by_parameter_only :
  exists r body,
    OpenAI.POST hello_world (request_of stream_by_parameter_payload)
    = (Returned r, [CallOpenAICreate body])
    /\ body !! lit "stream" = Some (JBool true)
    /\ openai_create hello_world body
       = Returned (ChunkStream
                     (mkStream [openai_chunk "Hel"; openai_chunk "lo"] None))
    /\ http_status r = 500
    /\ errorType (http_body r) = Some UNKNOWN_ERROR
    /\ reply (http_body r) = []
    /\ reply (http_body r) <> lit "Hello".
Proof.
  eexists _, _. split; [by vm_compute|]. by vm_compute.
Qed.

(* ===================================================================== *)
(** ** More on the cleaning step *)
(* ===================================================================== *)

Section Trimming.

Lemma trimStart_head (s : jsstring) :
  match head (trimStart s) with
  | Some c => is_whitespace c = false
  | None => True
  end.
Proof.
  induction s as [|c s IH]; [done|]. simpl.
  destruct (is_whitespace c) eqn:Hc; [exact IH|]. simpl. exact Hc.
Qed.

Lemma trimStart_fixed (c : N) (s : jsstring) :
  is_whitespace c = false -> trimStart (c :: s) = c :: s.
Proof. intros Hc. simpl. by rewrite Hc. Qed.

Lemma trimStart_idem (s : jsstring) : trimStart (trimStart s) = trimStart s.
Proof.
  induction s as [|c s IH]; [done|]. simpl.
  destruct (is_whitespace c) eqn:Hc; [exact IH|]. by apply trimStart_fixed.
Qed.

Lemma trimStart_snoc (s : jsstring) (c : N) :
  is_whitespace c = false -> trimStart (s ++ [c]) = trimStart s ++ [c].
Proof.
  intros Hc. induction s as [|x s IH]; simpl.
  - by rewrite Hc.
  - by destruct (is_whitespace x).
Qed.

Lemma trimEnd_cons (c : N) (s : jsstring) :
  is_whitespace c = false -> trimEnd (c :: s) = c :: trimEnd s.
Proof.
  intros Hc. unfold trimEnd. simpl.
  rewrite trimStart_snoc by done. by rewrite rev_app_distr.
Qed.

Lemma trimEnd_idem (s : jsstring) : trimEnd (trimEnd s) = trimEnd s.
Proof. unfold trimEnd. by rewrite rev_involutive, trimStart_idem. Qed.

Lemma last_rev_head {A} (l : list A) : last (rev l) = head l.
Proof.
  destruct l as [|a l]; [done|]. simpl.
  by rewrite last_snoc.
Qed.

Lemma trimEnd_last (s : jsstring) :
  match last (trimEnd s) with
  | Some c => is_whitespace c = false
  | None => True
  end.
Proof. unfold trimEnd. rewrite last_rev_head. apply trimStart_head. Qed.

Lemma trim_trimmed (s : jsstring) : trimmed (trim s).
Proof.
  split; [|apply trimEnd_last].
  unfold trim. pose proof (trimStart_head s) as Hh.
  destruct (trimStart s) as [|c u]; [done|]. simpl in Hh.
  by rewrite trimEnd_cons.
Qed.

Lemma trim_idem (s : jsstring) : trim (trim s) = trim s.
Proof.
  unfold trim. pose proof (trimStart_head s) as Hh.
  destruct (trimStart s) as [|c u]; [reflexivity|]. simpl in Hh.
  rewrite !(trimEnd_cons c) by done.
  rewrite trimStart_fixed by done.
  rewrite trimEnd_cons by done. by rewrite trimEnd_idem.
Qed.

End Trimming.

Section CleaningEntries.

Lemma clean_message_cleanable (msg : JsValue) :
  cleanable msg = true -> clean_message msg = ret (cleaned_entry msg).
Proof.
  unfold cleanable, clean_message, cleaned_entry, cleaned_content,
    get_prop_opt.
  destruct (get_prop msg (lit "role")) as [r|]; [|discriminate].
  destruct (get_prop msg (lit "content")) as [[| |b|n|s|l|o]|];
    try discriminate; intros _; simpl; try reflexivity.
  by destruct (trim s).
Qed.

Lemma clean_message_uncleanable (msg : JsValue) :
  cleanable msg = false ->
  exists text, clean_message msg = runtime_error text
               /\ connectivity_keyword text = false.
Proof.
  unfold cleanable, clean_message.
  destruct msg as [| |b|n|s|l|props]; simpl; try discriminate;
    try (intros _; eexists; split; [reflexivity|by vm_compute]).
  destruct (default JUndefined (props !! lit "content"))
    as [| |b|n|s|l|o]; try discriminate;
    intros _; eexists; (split; [reflexivity|by vm_compute]).
Qed.

Lemma cleaned_entry_fields (msg : JsValue) :
  get_prop_opt (cleaned_entry msg) (lit "role")
  = get_prop_opt msg (lit "role")
  /\ get_prop_opt (cleaned_entry msg) (lit "content")
     = JStr (cleaned_content msg).
Proof.
  unfold cleaned_entry, get_prop_opt, get_prop. simpl.
  split; by simplify_map_eq.
Qed.

Lemma cleaned_entry_idem (msg : JsValue) :
  cleaned_entry (cleaned_entry msg) = cleaned_entry msg.
Proof.
  destruct (cleaned_entry_fields msg) as [Hr Hc].
  unfold cleaned_entry at 1. unfold cleaned_content at 1.
  rewrite Hr, Hc. unfold cleaned_entry. do 3 f_equal.
  unfold cleaned_content.
  destruct (get_prop_opt msg (lit "content")); try reflexivity.
  f_equal. apply trim_idem.
Qed.

Lemma cleaned_content_trimmed (msg : JsValue) :
  trimmed (cleaned_content msg).
Proof.
  unfold cleaned_content.
  destruct (get_prop_opt msg (lit "content")); try (by split).
  apply trim_trimmed.
Qed.

(** X1. The cleaning callback keeps of an entry its role and its content
    only, the content without white space at either end; and cleaning is
    idempotent: a cleaned entry is cleanable and cleans to itself. *)
Theorem cleaning_trims_and_is_idempotent (msg : JsValue) :
  cleanable msg = true ->
  clean_message msg = ret (cleaned_entry msg)
  /\ trimmed (cleaned_content msg)
  /\ clean_message (cleaned_entry msg) = ret (cleaned_entry msg).
Proof.
  intros H. split; [by apply clean_message_cleanable|].
  split; [apply cleaned_content_trimmed|].
  rewrite clean_message_cleanable.
  - by rewrite cleaned_entry_idem.
  - unfold cleanable.
    destruct (cleaned_entry_fields msg) as [Hr Hc].
    unfold get_prop_opt in Hr, Hc. unfold cleaned_entry in *. simpl in *.
    by rewrite Hc.
Qed.

Lemma mapM_clean_all (msgs : list JsValue) :
  forallb cleanable msgs = true ->
  mapM clean_message msgs = ret (map cleaned_entry msgs).
Proof.
  induction msgs as [|v msgs IH]; [done|]. simpl.
  intros [Hv Hall]%andb_true_iff.
  rewrite clean_message_cleanable by done. rewrite bind_ret_l.
  rewrite IH by done. by rewrite !bind_ret_l.
Qed.

Lemma mapM_clean_some (msgs : list JsValue) :
  forallb cleanable msgs = false ->
  exists text, mapM clean_message msgs = runtime_error text
               /\ connectivity_keyword text = false.
Proof.
  induction msgs as [|v msgs IH]; [discriminate|]. simpl.
  destruct (cleanable v) eqn:Hv; simpl.
  - intros Hall. destruct (IH Hall) as (text & Ht & Hk).
    rewrite clean_message_cleanable by done. rewrite bind_ret_l, Ht.
    by exists text.
  - intros _. destruct (clean_message_uncleanable v Hv) as (text & Ht & Hk).
    rewrite Ht. by exists text.
Qed.

End CleaningEntries.

Lemma cleaning_trims_and_is_idempotent_witness :
  let msg := object [("role", JStr (lit "user"));
                     ("content", JStr (lit "  Hi there "));
                     ("name", JStr (lit "bob"))] in
  cleanable msg = true
  /\ clean_message msg
     = ret (object [("role", JStr (lit "user"));
                    ("content", JStr (lit "Hi there"))]).
Proof.
  intros msg.
  assert (cleanable msg = true) as H by (by vm_compute).
  split; [exact H|].
  destruct (cleaning_trims_and_is_idempotent msg H) as [Hc _].
  rewrite Hc. by vm_compute.
Defined.

(* ===================================================================== *)
(** ** The prologue: cleaning, then validation *)
(* ===================================================================== *)

Section Prologue.

Lemma cleanedMessages_array (body : JsValue) (msgs : list JsValue) :
  get_prop body (lit "messages") = Some (JArr msgs) ->
  cleanedMessages body = mapM clean_message msgs.
Proof. unfold cleanedMessages. by intros ->. Qed.

Lemma cleanedMessages_returns (body : JsValue) (cleaned : list JsValue)
  (calls : list Call) :
  cleanedMessages body = (Returned cleaned, calls) ->
  exists msgs,
    get_prop body (lit "messages") = Some (JArr msgs)
    /\ forallb cleanable msgs = true
    /\ cleaned = map cleaned_entry msgs.
Proof.
  unfold cleanedMessages.
  destruct (get_prop body (lit "messages")) as [[| |b|n|s|msgs|o]|];
    try discriminate.
  intros H. exists msgs. split; [done|].
  destruct (forallb cleanable msgs) eqn:Hall.
  - rewrite mapM_clean_all in H by done. by injection H as <- _.
  - destruct (mapM_clean_some msgs Hall) as (text & Ht & _).
    rewrite Ht in H. discriminate.
Qed.

(** A handler whose prologue throws a runtime error that names no
    connectivity keyword answers 500 [UNKNOWN_ERROR]. *)
Lemma handlers_unknown_error (req : NextRequest) (text : jsstring) :
  parse_request req = runtime_error text ->
  connectivity_keyword text = false ->
  (forall server,
     fails_without_calls (Router.POST server req) 500 UNKNOWN_ERROR)
  /\ (forall w, env_missing (OPENAI_API_KEY w) = false ->
        fails_without_calls (OpenAI.POST w req) 500 UNKNOWN_ERROR)
  /\ (forall w, env_missing (GEMINI_API_KEY w) = false ->
        fails_without_calls (Gemini.POST w req) 500 UNKNOWN_ERROR)
  /\ (forall w, env_missing (DEEPSEEK_API_KEY w) = false ->
        fails_without_calls (DeepSeek.POST w req) 500 UNKNOWN_ERROR).
Proof.
  intros Hp Hk.
  repeat split; intros;
    unfold Router.POST, OpenAI.POST, Gemini.POST, DeepSeek.POST;
    rewrite ?guard_passes by done;
    rewrite Hp, try_runtime_error;
    by apply runtime_error_unknown.
Qed.

(** X2. An entry of [messages] that is [null], or whose [content] is
    present but not a string, makes the cleaning step throw: the router,
    and every adapter whose key is configured, answers 500
    [UNKNOWN_ERROR] without any outbound call, whatever the rest of the
    payload. *)
Theorem uncleanable_entry_unknown_error (body : JsValue)
  (msgs : list JsValue) :
  get_prop body (lit "messages") = Some (JArr msgs) ->
  forallb cleanable msgs = false ->
  (forall server,
     fails_without_calls (Router.POST server (request_of body))
                         500 UNKNOWN_ERROR)
  /\ (forall w, env_missing (OPENAI_API_KEY w) = false ->
        fails_without_calls (OpenAI.POST w (request_of body))
                            500 UNKNOWN_ERROR)
  /\ (forall w, env_missing (GEMINI_API_KEY w) = false ->
        fails_without_calls (Gemini.POST w (request_of body))
                            500 UNKNOWN_ERROR)
  /\ (forall w, env_missing (DEEPSEEK_API_KEY w) = false ->
        fails_without_calls (DeepSeek.POST w (request_of body))
                            500 UNKNOWN_ERROR).
Proof.
  intros Hm Hall.
  destruct (mapM_clean_some msgs Hall) as (text & Ht & Hk).
  apply (handlers_unknown_error _ text); [|done].
  apply prologue_throws. by rewrite (cleanedMessages_array body msgs).
Qed.

(** A prologue that throws one of the handler's own errors ends in that
    error's response. *)
Lemma handlers_fail_with (req : NextRequest) (c : ChatError) :
  parse_request req = throw (ThrowChatError c) ->
  valid_response_status (statusCode c) = true ->
  (forall server, fails_with (Router.POST server req) c)
  /\ (forall w, env_missing (OPENAI_API_KEY w) = false ->
        fails_with (OpenAI.POST w req) c)
  /\ (forall w, env_missing (GEMINI_API_KEY w) = false ->
        fails_with (Gemini.POST w req) c)
  /\ (forall w, env_missing (DEEPSEEK_API_KEY w) = false ->
        fails_with (DeepSeek.POST w req) c).
Proof.
  intros Hp Hv.
  assert (forall k : JsValue * ChatRequest -> M HttpResponse,
            fails_with (try_catch (p <- parse_request req ;; k p)
                                  outer_catch) c) as Hrun.
  { intros k. rewrite Hp. unfold fails_with, throw, bind, try_catch.
    rewrite (outer_catch_eq _ c) by done. unfold error_response.
    by rewrite valid_status_json. }
  repeat split; intros;
    unfold Router.POST, OpenAI.POST, Gemini.POST, DeepSeek.POST;
    rewrite ?guard_passes by done; apply Hrun.
Qed.

(** X3. When the cleaning step gets through and the schema rejects the
    payload, for whatever field, the router and every adapter whose key is
    configured answer 400 [VALIDATION_ERROR] with the message "Invalid
    request format", the schema's issues as details, and no outbound
    call. *)
Theorem schema_rejection_validation_error (body : JsValue)
  (cleaned : list JsValue) (issues : list ZodIssue) :
  cleanedMessages body = ret cleaned ->
  validationResult body cleaned = Zod.Err issues ->
  let c := ChatErrorImpl (lit "Invalid request format") 400
             VALIDATION_ERROR (DZodError issues)
             (Some (lit "Please check your message format and try again."))
  in
  (forall server, fails_with (Router.POST server (request_of body)) c)
  /\ (forall w, env_missing (OPENAI_API_KEY w) = false ->
        fails_with (OpenAI.POST w (request_of body)) c)
  /\ (forall w, env_missing (GEMINI_API_KEY w) = false ->
        fails_with (Gemini.POST w (request_of body)) c)
  /\ (forall w, env_missing (DEEPSEEK_API_KEY w) = false ->
        fails_with (DeepSeek.POST w (request_of body)) c).
Proof.
  intros Hc Hv c. apply handlers_fail_with; [|done].
  unfold parse_request, request_of, req_json. simpl json. cbv iota.
  rewrite bind_ret_l, Hc, bind_ret_l. by rewrite Hv.
Qed.

(** X4. A body that is not JSON never reaches cleaning: the handler
    answers from its outer [catch], 503 [NETWORK_ERROR] when the parser's
    message happens to contain "network" or "connect", and 500
    [UNKNOWN_ERROR] otherwise; no outbound call is made. *)
Theorem malformed_body_response (text : jsstring)
  (server : jsstring -> JsValue -> M FetchResponse) :
  (connectivity_keyword text = false ->
   fails_without_calls (Router.POST server (malformed_request text))
                       500 UNKNOWN_ERROR)
  /\ (connectivity_keyword text = true ->
      fails_without_calls (Router.POST server (malformed_request text))
                          503 NETWORK_ERROR).
Proof.
  assert (parse_request (malformed_request text) = runtime_error text)
    as Hp by reflexivity.
  split; intros Hk.
  - by apply (handlers_unknown_error _ text).
  - unfold Router.POST. rewrite Hp, try_runtime_error.
    unfold outer_catch.
    rewrite createErrorResponse_network by done.
    eexists. split; [reflexivity|]. simpl. unfold failure_body. simpl.
    eauto 10.
Qed.

End Prologue.

Lemma uncleanable_entry_unknown_error_witness :
  let body := object [("model", JStr (lit "openai"));
                      ("messages",
                       JArr [user_message "Hi";
                             object [("role", JStr (lit "user"));
                                     ("content", JNum (num_of_Z 5))]])] in
  forallb cleanable [user_message "Hi";
                     object [("role", JStr (lit "user"));
                             ("content", JNum (num_of_Z 5))]] = false
  /\ fails_without_calls (Router.POST unreachable_server (request_of body))
                         500 UNKNOWN_ERROR.
Proof.
  intros body.
  split; [by vm_compute|].
  eapply (uncleanable_entry_unknown_error body); by vm_compute.
Defined.

Lemma schema_rejection_validation_error_witness :
  let body := object [("model", JStr (lit "openai"));
                      ("messages", JArr [user_message "Hi"]);
                      ("stream", JStr (lit "yes"))] in
  validationResult body [user_message "Hi"]
  = Zod.Err [[PKey (lit "stream")]]
  /\ fails_with (Router.POST unreachable_server (request_of body))
       (ChatErrorImpl (lit "Invalid request format") 400 VALIDATION_ERROR
          (DZodError [[PKey (lit "stream")]])
          (Some (lit "Please check your message format and try again."))).
Proof.
  intros body.
  assert (validationResult body [user_message "Hi"]
          = Zod.Err [[PKey (lit "stream")]]) as Hv by (by vm_compute).
  split; [exact Hv|].
  eapply (schema_rejection_validation_error body [user_message "Hi"]);
    [by vm_compute|exact Hv].
Defined.

Lemma malformed_body_response_witness :
  connectivity_keyword (lit "Unexpected token 'c', connect is not valid JSON")
  = true
  /\ fails_without_calls
       (Router.POST unreachable_server
          (malformed_request
             (lit "Unexpected token 'c', connect is not valid JSON")))
       503 NETWORK_ERROR.
Proof.
  split; [by vm_compute|].
  apply (malformed_body_response
           (lit "Unexpected token 'c', connect is not valid JSON")
           unreachable_server).
  by vm_compute.
Defined.

(* ===================================================================== *)
(** ** What a validated request holds *)
(* ===================================================================== *)

Section ValidatedRequest.

Lemma both_Ok {A B} (ra : Zod.Result A) (rb : Zod.Result B) (p : A * B) :
  Zod.both ra rb = Zod.Ok p -> ra = Zod.Ok (fst p) /\ rb = Zod.Ok (snd p).
Proof.
  destruct ra, rb; simpl; try discriminate. by intros [= <-].
Qed.

Lemma transform_Ok {A B} (f : A -> B) (r : Zod.Result A) (b : B) :
  Zod.transform f r = Zod.Ok b -> exists a, r = Zod.Ok a /\ b = f a.
Proof. destruct r; simpl; [|discriminate]. intros [= <-]. eauto. Qed.

Lemma role_schema_Ok (path : ZodIssue) (v : JsValue) (r : MessageRole) :
  role_schema path v = Zod.Ok r -> v = JStr (role_text r).
Proof.
  unfold role_schema, list_N_eqb. destruct v; try discriminate.
  repeat case_bool_decide; intros [= <-]; by subst.
Qed.

Lemma model_schema_Ok (path : ZodIssue) (v : JsValue) (m : AIModel) :
  model_schema path v = Zod.Ok m -> v = JStr (Router.model_text m).
Proof.
  unfold model_schema, list_N_eqb. destruct v; try discriminate.
  repeat case_bool_decide; intros [= <-]; by subst.
Qed.

Lemma cleaned_entry_schema (path : ZodIssue) (entry : JsValue)
  (m : Message) :
  message_schema path (cleaned_entry entry) = Zod.Ok m ->
  mirrors_entry entry m.
Proof.
  unfold cleaned_entry. rewrite message_schema_cleaned.
  intros (r & Hr & ->)%transform_Ok.
  apply role_schema_Ok in Hr. by repeat split.
Qed.

Lemma cleaned_entries_schema (path : ZodIssue) (i : nat)
  (entries : list JsValue) (l : list Message) :
  Zod.array_items message_schema path i (map cleaned_entry entries)
  = Zod.Ok l ->
  Forall2 mirrors_entry entries l.
Proof.
  revert i l. induction entries as [|e entries IH]; intros i l;
    cbn [map Zod.array_items].
  - intros [= <-]. constructor.
  - intros (p & Hp & ->)%transform_Ok.
    apply both_Ok in Hp as [He Hl]. constructor.
    + by eapply cleaned_entry_schema.
    + by eapply IH.
Qed.

Lemma optional_boolean_Ok (path : ZodIssue) (v : JsValue)
  (s : option bool) :
  Zod.optional Zod.boolean path v = Zod.Ok s -> s = stream_of v.
Proof. destruct v; simpl; try discriminate; by intros [= <-]. Qed.

Lemma optional_record_Ok (path : ZodIssue) (v : JsValue)
  (p : option (gmap (list N) JsValue)) :
  Zod.optional Zod.record_unknown path v = Zod.Ok p -> p = parameters_of v.
Proof. destruct v; simpl; try discriminate; by intros [= <-]. Qed.

Lemma validated_fields (body : JsValue) (cleaned : list JsValue)
  (data : ChatRequest) :
  validationResult body cleaned = Zod.Ok data ->
  model_field body = JStr (Router.model_text (model data))
  /\ Zod.array_items message_schema [PKey (lit "messages")] 0 cleaned
     = Zod.Ok (messages data)
  /\ stream data = stream_of (Zod.field (spread body) "stream")
  /\ parameters data = parameters_of (Zod.field (spread body) "parameters").
Proof.
  unfold validationResult, chatRequestSchema.
  intros (p & Hp & ->)%transform_Ok. simpl.
  apply both_Ok in Hp as [Hp Hparams].
  apply both_Ok in Hp as [Hp Hstream].
  apply both_Ok in Hp as [Hmodel Hmsgs].
  unfold Zod.field in *.
  rewrite lookup_insert_ne in Hmodel, Hstream, Hparams by done.
  rewrite lookup_insert_eq in Hmsgs. simpl in Hmsgs.
  repeat split.
  - by eapply model_schema_Ok.
  - exact Hmsgs.
  - by eapply optional_boolean_Ok.
  - by eapply optional_record_Ok.
Qed.

(** X5. What the prologue hands on when it accepts a payload: the body
    as it came (the router forwards it uncleaned), and validated data
    whose messages stand one for one, in order, for the entries of
    [messages], each with the entry's role, the trimmed content, and
    neither [name] nor [function_call] (the cleaning step has dropped
    them); [model], [stream] and [parameters] are the payload's. *)
Theorem validated_request_mirrors_payload (body body' : JsValue)
  (data : ChatRequest) :
  parse_request (request_of body) = ret (body', data) ->
  body' = body
  /\ (exists entries,
        get_prop body (lit "messages") = Some (JArr entries)
        /\ Forall2 mirrors_entry entries (messages data))
  /\ model_field body = JStr (Router.model_text (model data))
  /\ stream data = stream_of (Zod.field (spread body) "stream")
  /\ parameters data = parameters_of (Zod.field (spread body) "parameters").
Proof.
  unfold parse_request, request_of, req_json. simpl json. cbv iota.
  rewrite bind_ret_l. intros H.
  pose proof (cleanedMessages_no_calls body) as Hn.
  destruct (cleanedMessages body) as [[cleaned|e] calls] eqn:Hc;
    simpl in Hn; subst calls; [|discriminate].
  change (Returned cleaned, []) with (ret (A:=list JsValue) cleaned) in H.
  rewrite bind_ret_l in H.
  destruct (validationResult body cleaned) as [d|issues] eqn:Hv;
    [|discriminate].
  injection H as <- <-.
  destruct (cleanedMessages_returns body cleaned [] Hc)
    as (entries & Hm & _ & ->).
  destruct (validated_fields body _ d Hv) as (Hmodel & Hmsgs & Hs & Hp).
  split; [done|]. split; [|done].
  exists entries. split; [done|]. by eapply cleaned_entries_schema.
Qed.

End ValidatedRequest.

Lemma validated_request_mirrors_payload_witness :
  parse_request (request_of overriding_payload)
  = ret (overriding_payload, overriding_request)
  /\ parameters overriding_request
     = parameters_of (Zod.field (spread overriding_payload) "parameters").
Proof.
  assert (parse_request (request_of overriding_payload)
          = ret (overriding_payload, overriding_request)) as Hp.
  { by vm_compute. }
  split; [exact Hp|].
  by destruct (validated_request_mirrors_payload _ _ _ Hp)
    as (_ & _ & _ & _ & H).
Defined.

(* ===================================================================== *)
(** ** A provider that rejects *)
(* ===================================================================== *)

Section ProviderRejection.

Lemma adapter_POST_runs (m : AIModel) (w : World) (req : NextRequest)
  (body : JsValue) (data : ChatRequest) :
  env_missing (adapter_key m w) = false ->
  parse_request req = ret (body, data) ->
  adapter_POST m w req
  = try_catch
      (try_catch
         (match m with
          | openai => OpenAI.provider_part w data
          | gemini => Gemini.provider_part w data
          | deepseek => DeepSeek.provider_part w data
          end)
         (provider_catch (adapter_default_message m)))
      outer_catch.
Proof.
  intros Hk Hp. destruct m; simpl in *.
  - by eapply OpenAI_runs.
  - by eapply Gemini_runs.
  - by eapply DeepSeek_runs.
Qed.

Lemma provider_part_rejected (m : AIModel) (w : World) (data : ChatRequest)
  (e : Thrown) :
  provider_rejects m w data e ->
  match m with
  | openai => OpenAI.provider_part w data
  | gemini => Gemini.provider_part w data
  | deepseek => DeepSeek.provider_part w data
  end = (Threw e, [adapter_call m w data]).
Proof.
  destruct m; simpl.
  - unfold OpenAI.provider_part. cbv zeta. by intros ->.
  - unfold Gemini.provider_part. cbv zeta.
    destruct (default false (stream data)); by intros ->.
  - unfold DeepSeek.provider_part. cbv zeta. by intros ->.
Qed.

(** The adapter's answer to a rejected call is the normalised error,
    when the [Response] constructor accepts its status. *)
Lemma rejection_normalised (m : AIModel) (w : World) (req : NextRequest)
  (body : JsValue) (data : ChatRequest) (e : Thrown) (c : ChatError) :
  env_missing (adapter_key m w) = false ->
  parse_request req = ret (body, data) ->
  provider_rejects m w data e ->
  createErrorResponse e (lit (adapter_default_message m)) = Returned c ->
  valid_response_status (statusCode c) = true ->
  adapter_POST m w req = (Returned (error_answer c), [adapter_call m w data]).
Proof.
  intros Hk Hp He Hc Hv.
  rewrite (adapter_POST_runs m w req body data Hk Hp).
  rewrite (provider_part_rejected m w data e He).
  unfold try_catch at 2. rewrite (provider_catch_eq _ e c Hc).
  unfold error_response.
  rewrite valid_status_json by done. reflexivity.
Qed.

(** When the normaliser itself throws in the inner [catch], the outer
    [catch] normalises its [TypeError]. *)
Lemma rejection_unnormalised (m : AIModel) (w : World) (req : NextRequest)
  (body : JsValue) (data : ChatRequest) (e t : Thrown) :
  env_missing (adapter_key m w) = false ->
  parse_request req = ret (body, data) ->
  provider_rejects m w data e ->
  createErrorResponse e (lit (adapter_default_message m)) = Threw t ->
  adapter_POST m w req
  = (Returned (error_answer unconverted_error), [adapter_call m w data]).
Proof.
  intros Hk Hp He Hc.
  rewrite (adapter_POST_runs m w req body data Hk Hp).
  rewrite (provider_part_rejected m w data e He).
  unfold try_catch at 2. by rewrite (provider_catch_threw _ e t Hc).
Qed.

(** X6. When the DeepSeek endpoint rejects with the HTTP client's error
    for a response whose status the [Response] constructor accepts, the
    DeepSeek adapter answers with that very status as HTTP status and
    the upstream body as [details]: with the table's message, type and
    suggestion when the status has a row, and otherwise with
    "API Error (<status>): <text>" and type [API_ERROR], where the text
    is the upstream body's [error.message] or else the error's own
    message. When the status has no row and that text does not convert
    to a string, the normaliser throws and the answer is 500
    [UNKNOWN_ERROR] with the message "An unexpected error occurred". In
    each case the adapter has made its one provider call and no other. *)
Theorem upstream_status_relayed (w : World)
  (req : NextRequest) (body : JsValue) (validated : ChatRequest)
  (text : jsstring) (r : UpstreamResponse) :
  env_missing (DEEPSEEK_API_KEY w) = false ->
  parse_request req = ret (body, validated) ->
  provider_rejects deepseek w validated (http_error text r) ->
  valid_response_status (status r) = true ->
  (forall t,
     listed_status (status r) = true
     \/ upstream_message r (mkErrorObj text (Some r)) = Some t ->
     DeepSeek.POST w req
     = (Returned
          (error_answer (status_error r (status_table_spec (status r) t))),
        [adapter_call deepseek w validated]))
  /\ (listed_status (status r) = false ->
      upstream_message r (mkErrorObj text (Some r)) = None ->
      DeepSeek.POST w req
      = (Returned (error_answer unconverted_error),
         [adapter_call deepseek w validated])).
Proof.
  intros Hk Hp He Hv.
  assert (status r <> 0) as Hs.
  { intros H0. rewrite H0 in Hv. discriminate. }
  split.
  - intros t Ht.
    apply (rejection_normalised deepseek w req body validated _ _ Hk Hp He);
      [|exact Hv].
    unfold http_error.
    destruct (listed_status (status r)) eqn:Hl.
    + by apply status_branch_listed.
    + destruct Ht as [Ht|Ht]; [discriminate|].
      by rewrite status_branch_unlisted, Ht.
  - intros Hl Hu.
    apply (rejection_unnormalised deepseek w req body validated _
             conversion_error Hk Hp He).
    unfold http_error. by rewrite status_branch_unlisted, Hu.
Qed.

(** X7. When the provider call is rejected with an error that carries no
    status, every adapter answers 503 [NETWORK_ERROR] if the error's
    message contains "network" or "connect" (in lower case), and
    otherwise 500 [UNKNOWN_ERROR] with the adapter's own default message,
    "Failed to get response from <provider>"; the error itself is the
    [details]. *)
Theorem statusless_rejection (m : AIModel) (w : World)
  (req : NextRequest) (body : JsValue) (data : ChatRequest)
  (text : jsstring) :
  env_missing (adapter_key m w) = false ->
  parse_request req = ret (body, data) ->
  provider_rejects m w data (plain_error text) ->
  adapter_POST m w req
  = (Returned
       (error_answer
          (if connectivity_keyword text then
             ChatErrorImpl (lit "Unable to connect to the AI service.")
               503 NETWORK_ERROR (DError (mkErrorObj text None))
               (Some (lit "Please check your internet connection and try again."))
           else
             ChatErrorImpl (lit (adapter_default_message m)) 500
               UNKNOWN_ERROR (DError (mkErrorObj text None))
               (Some (lit "Please try again later or contact support if the issue persists.")))),
     [adapter_call m w data]).
Proof.
  intros Hk Hp He.
  eapply (rejection_normalised m w req body data _ _ Hk Hp He).
  - unfold plain_error.
    destruct (connectivity_keyword text) eqn:Hkw.
    + by apply createErrorResponse_network.
    + by apply createErrorResponse_unknown.
  - by destruct (connectivity_keyword text).
Qed.

End ProviderRejection.

Lemma upstream_status_relayed_witness :
  let r := mkUpstreamResponse 401 (object [("error", JStr (lit "bad key"))])
                              eq_refl in
  let e := http_error (lit "Request failed with status code 401") r in
  parse_request (request_of deepseek_payload)
  = ret (deepseek_payload, deepseek_request)
  /\ DeepSeek.POST (deepseek_rejecting_world e) (request_of deepseek_payload)
     = (Returned
          (mkHttpResponse 401
             (mkChatResponse []
                (Some (lit "API key is invalid or not configured."))
                (Some AUTHENTICATION_ERROR)
                (Some (lit "Please check your API key in the settings."))
                (DJson (data r)) None)),
        [adapter_call deepseek (deepseek_rejecting_world e) deepseek_request]).
Proof.
  intros r e.
  assert (parse_request (request_of deepseek_payload)
          = ret (deepseek_payload, deepseek_request)) as Hp.
  { by vm_compute. }
  split; [exact Hp|].
  destruct (upstream_status_relayed (deepseek_rejecting_world e)
              (request_of deepseek_payload) deepseek_payload deepseek_request
              (lit "Request failed with status code 401") r eq_refl Hp
              eq_refl eq_refl) as [Hrow _].
  exact (Hrow [] (or_introl eq_refl)).
Defined.

Lemma statusless_rejection_witness :
  let e := plain_error (lit "Network Error") in
  parse_request (request_of deepseek_payload)
  = ret (deepseek_payload, deepseek_request)
  /\ connectivity_keyword (lit "Network Error") = false
  /\ DeepSeek.POST (deepseek_rejecting_world e) (request_of deepseek_payload)
     = (Returned
          (error_answer
             (ChatErrorImpl (lit "Failed to get response from DeepSeek") 500
                UNKNOWN_ERROR (DError (mkErrorObj (lit "Network Error") None))
                (Some (lit "Please try again later or contact support if the issue persists.")))),
        [adapter_call deepseek (deepseek_rejecting_world e) deepseek_request]).
Proof.
  intros e.
  assert (parse_request (request_of deepseek_payload)
          = ret (deepseek_payload, deepseek_request)) as Hp.
  { by vm_compute. }
  split; [exact Hp|]. split; [by vm_compute|].
  apply (statusless_rejection deepseek (deepseek_rejecting_world e)
           (request_of deepseek_payload) deepseek_payload deepseek_request
           (lit "Network Error") eq_refl Hp eq_refl).
Defined.

(* ===================================================================== *)
(** ** A provider that answers *)
(* ===================================================================== *)

Section ProviderAnswer.

(** X8. A non-streaming OpenAI request that the provider answers with a
    completion gives status 200 with the content of the first choice as
    [reply] (the empty string when there is no choice or no content;
    later choices are ignored) and the provider's token counts as
    [usage], absent when the provider sent none. One call is made. *)
Theorem openai_completion_answer (w : World) (req : NextRequest)
  (body : JsValue) (data : ChatRequest) (c : ChatCompletion) :
  env_missing (OPENAI_API_KEY w) = false ->
  parse_request req = ret (body, data) ->
  default false (stream data) = false ->
  openai_create w (OpenAI.requestBody data) = Returned (Completion c) ->
  OpenAI.POST w req
  = (Returned (reply_response (OpenAI.extract_reply c)
                              (OpenAI.extract_usage c)),
     [CallOpenAICreate (OpenAI.requestBody data)])
  /\ (choices c = [] -> OpenAI.extract_reply c = [])
  /\ (forall t rest,
        choices c
        = mkCompletionChoice (Some (mkCompletionMessage (Some t))) :: rest ->
        OpenAI.extract_reply c = t)
  /\ (forall u, completion_usage c = Some u ->
        OpenAI.extract_usage c
        = Some (mkUsage (prompt_tokens u) (completion_tokens u)
                        (total_tokens u)))
  /\ (completion_usage c = None -> OpenAI.extract_usage c = None).
Proof.
  intros Hk Hp Hs Hc. split.
  - rewrite (OpenAI_runs w req body data Hk Hp).
    unfold OpenAI.provider_part. cbv zeta.
    rewrite Hc, bind_outbound. unfold OpenAI.read_completion.
    rewrite Hs. cbv iota. by rewrite bind_ret_l.
  - unfold OpenAI.extract_reply, OpenAI.extract_usage.
    repeat split.
    + by intros ->.
    + by intros t rest ->.
    + by intros u ->.
    + by intros ->.
Qed.

(** X9. The DeepSeek adapter makes one [axios.post] to the fixed
    endpoint and answers status 200 with the content of the first choice
    (the empty string without one). The request's [stream] flag plays no
    part: the body sent is the same whatever the flag, and it has no
    [stream] key unless [parameters] bring one. *)
Theorem deepseek_answer (w : World) (req : NextRequest)
  (body : JsValue) (data : ChatRequest) (d : DeepSeekData) :
  env_missing (DEEPSEEK_API_KEY w) = false ->
  parse_request req = ret (body, data) ->
  axios_post w DeepSeek.endpoint (DeepSeek.requestBody data)
             (DeepSeek.headers w) = Returned d ->
  DeepSeek.POST w req
  = (Returned (reply_response (DeepSeek.extract_reply d) None),
     [CallAxiosPost (lit "https://api.deepseek.com/chat/completions")
        (DeepSeek.requestBody data) (DeepSeek.headers w)])
  /\ (ds_choices d = None \/ ds_choices d = Some [] ->
      DeepSeek.extract_reply d = [])
  /\ (forall t rest,
        ds_choices d
        = Some (mkCompletionChoice (Some (mkCompletionMessage (Some t)))
                :: rest) ->
        DeepSeek.extract_reply d = t)
  /\ (forall s, DeepSeek.requestBody (with_stream data s)
                = DeepSeek.requestBody data)
  /\ DeepSeek.requestBody data !! lit "stream"
     = match parameters data with
       | Some params => params !! lit "stream"
       | None => None
       end.
Proof.
  intros Hk Hp Hd. split.
  - rewrite (DeepSeek_runs w req body data Hk Hp).
    unfold DeepSeek.provider_part. cbv zeta.
    by rewrite Hd, bind_outbound.
  - unfold DeepSeek.extract_reply. repeat split.
    + by intros [->| ->].
    + by intros t rest ->.
    + unfold DeepSeek.requestBody. rewrite with_parameters_lookup.
      unfold overridden, DeepSeek.defaults.
      destruct (parameters data) as [params|].
      * destruct (params !! lit "stream"); [done|]. by simplify_map_eq.
      * by simplify_map_eq.
Qed.

(** X10. A non-streaming Gemini request that the provider answers gives
    status 200 with the text of the first part of the first candidate as
    [reply]; further parts and candidates are not read. The call carries
    the fixed model and the converted messages only: the client's
    [parameters] never reach Gemini. *)
Theorem gemini_answer (w : World) (req : NextRequest)
  (body : JsValue) (data : ChatRequest) (resp : GenerateContentResponse) :
  env_missing (GEMINI_API_KEY w) = false ->
  parse_request req = ret (body, data) ->
  default false (stream data) = false ->
  gemini_generateContent w Gemini.config_model
    (Gemini.contents (messages data)) = Returned resp ->
  Gemini.POST w req
  = (Returned (reply_response (Gemini.extract_reply resp) None),
     [CallGeminiGenerateContent (lit "gemini-2.0-flash-001")
        (map Gemini.content_of (messages data))])
  /\ (forall t texts rest,
        candidates resp = Some (gemini_candidate (t :: texts) :: rest) ->
        Gemini.extract_reply resp = t)
  /\ (forall p, Gemini.provider_part w (with_params data p)
                = Gemini.provider_part w data).
Proof.
  intros Hk Hp Hs Hg. split; [|split].
  - rewrite (Gemini_runs w req body data Hk Hp).
    unfold Gemini.provider_part. cbv zeta. rewrite Hs.
    by rewrite Hg, bind_outbound.
  - unfold Gemini.extract_reply. by intros t texts rest ->.
  - reflexivity.
Qed.

End ProviderAnswer.

Lemma openai_completion_answer_witness :
  parse_request (request_of openai_payload) = ret (openai_payload, openai_request)
  /\ OpenAI.POST answering_world (request_of openai_payload)
     = (Returned (reply_response (lit "Hello!") (Some (mkUsage 3 4 7))),
        [CallOpenAICreate (OpenAI.requestBody openai_request)]).
Proof.
  assert (parse_request (request_of openai_payload)
          = ret (openai_payload, openai_request)) as Hp by (by vm_compute).
  split; [exact Hp|].
  by destruct (openai_completion_answer answering_world
                 (request_of openai_payload) openai_payload openai_request
                 (mkChatCompletion [text_choice "Hello!"; text_choice "Bye"]
                                   (Some (mkOpenAIUsage 3 4 7)))
                 eq_refl Hp eq_refl eq_refl) as [H _].
Defined.

Lemma deepseek_answer_witness :
  parse_request (request_of deepseek_payload)
  = ret (deepseek_payload, deepseek_request)
  /\ DeepSeek.POST answering_world (request_of deepseek_payload)
     = (Returned (reply_response (lit "Hello!") None),
        [CallAxiosPost (lit "https://api.deepseek.com/chat/completions")
           (DeepSeek.requestBody deepseek_request)
           (DeepSeek.headers answering_world)]).
Proof.
  assert (parse_request (request_of deepseek_payload)
          = ret (deepseek_payload, deepseek_request)) as Hp by (by vm_compute).
  split; [exact Hp|].
  by destruct (deepseek_answer answering_world
                 (request_of deepseek_payload) deepseek_payload
                 deepseek_request
                 (mkDeepSeekData
                    (Some [text_choice "Hello!"; text_choice "Bye"]))
                 eq_refl Hp eq_refl) as [H _].
Defined.

Lemma gemini_answer_witness :
  parse_request (request_of gemini_payload) = ret (gemini_payload, gemini_request)
  /\ Gemini.POST answering_world (request_of gemini_payload)
     = (Returned (reply_response (lit "Hello!") None),
        [CallGeminiGenerateContent (lit "gemini-2.0-flash-001")
           [mkGeminiContent (lit "model") [lit "prior"]]]).
Proof.
  assert (parse_request (request_of gemini_payload)
          = ret (gemini_payload, gemini_request)) as Hp by (by vm_compute).
  split; [exact Hp|].
  by destruct (gemini_answer answering_world
                 (request_of gemini_payload) gemini_payload gemini_request
                 (mkGenerateContentResponse
                    (Some [gemini_candidate [lit "Hello!"; lit "more"];
                           gemini_candidate [lit "Bye"]]))
                 eq_refl Hp eq_refl eq_refl) as [H _].
Defined.

(* ===================================================================== *)
(** ** The router in front of the adapters *)
(* ===================================================================== *)

Section Relay.

Lemma returns_only_try_catch {A} (P : A -> Prop) (m : M A)
  (handler : Thrown -> M A) :
  returns_only P m -> (forall e, returns_only P (handler e)) ->
  returns_only P (try_catch m handler).
Proof.
  unfold returns_only, try_catch. intros Hm Hh a.
  destruct m as [[b|e] calls]; simpl in *.
  - apply Hm.
  - specialize (Hh e a). by destruct (handler e).
Qed.

Lemma returns_only_json (body : ChatResponse) (s : Z) :
  returns_only (fun r => valid_response_status (http_status r) = true)
               (NextResponse_json body s).
Proof.
  unfold returns_only, NextResponse_json, valid_response_status.
  intros r.
  destruct ((200 <=? s) && (s <=? 599)) eqn:H1; simpl; [|discriminate].
  destruct ((s =? 204) || (s =? 205) || (s =? 304)) eqn:H2; simpl;
    [discriminate|].
  intros [= <-]. simpl. by rewrite H1, H2.
Qed.

(** Whatever an adapter returns carries a status the [Response]
    constructor accepted. *)
Lemma adapter_status_valid (m : AIModel) (w : World) (req : NextRequest) :
  returns_only (fun r => valid_response_status (http_status r) = true)
               (adapter_POST m w req).
Proof.
  assert (forall e, returns_only
            (fun r => valid_response_status (http_status r) = true)
            (outer_catch e)) as Houter.
  { intros e. unfold outer_catch.
    destruct (createErrorResponse e default_defaultMessage);
      [|by intros r].
    rewrite lift_returned. apply returns_only_json. }
  assert (forall d e, returns_only
            (fun r => valid_response_status (http_status r) = true)
            (provider_catch d e)) as Hinner.
  { intros d e. unfold provider_catch.
    destruct (createErrorResponse e (lit d)); [|by intros r].
    rewrite lift_returned. apply returns_only_json. }
  destruct m; simpl;
    unfold OpenAI.POST, Gemini.POST, DeepSeek.POST;
    (apply returns_only_try_catch; [|exact Houter]);
    apply returns_only_bind; intros _;
    apply returns_only_bind; intros p; cbv zeta;
    (apply returns_only_try_catch; [|apply Hinner]).
  - unfold OpenAI.provider_part. cbv zeta.
    apply returns_only_bind. intros c. apply returns_only_bind. intros r.
    apply returns_only_json.
  - unfold Gemini.provider_part. cbv zeta. case_match.
    + apply returns_only_bind. intros s. apply returns_only_bind.
      intros t. apply returns_only_json.
    + apply returns_only_bind. intros s. apply returns_only_json.
  - unfold DeepSeek.provider_part. cbv zeta.
    apply returns_only_bind. intros d. apply returns_only_json.
Qed.

Lemma adapter_POST_returns (m : AIModel) (w : World) (req : NextRequest) :
  exists r calls, adapter_POST m w req = (Returned r, calls)
                  /\ valid_response_status (http_status r) = true.
Proof.
  pose proof (adapter_status_valid m w req) as Hv.
  assert (exists r calls, adapter_POST m w req = (Returned r, calls))
    as (r & calls & Hr).
  { destruct m; simpl.
    - destruct (OpenAI_returns w req) as (r & c & H & _); eauto.
    - destruct (Gemini_returns w req) as (r & c & H & _); eauto.
    - destruct (DeepSeek_returns w req) as (r & c & H & _); eauto. }
  exists r, calls. split; [done|]. apply Hv. by rewrite Hr.
Qed.

Lemma local_server_adapter (m : AIModel) (w : World) (body : JsValue) :
  local_server w (adapter_path m) body
  = framework_answer (adapter_route m w (request_of body)).
Proof. by destruct m. Qed.

Lemma adapter_route_loaded (m : AIModel) (w : World) (req : NextRequest) :
  module_loads m w = true -> adapter_route m w req = adapter_POST m w req.
Proof.
  unfold module_loads. destruct m; simpl; try done.
  unfold OpenAI.route. by destruct (OpenAI.module_load w).
Qed.

Lemma module_loads_false (m : AIModel) (w : World) :
  module_loads m w = false <-> m = openai /\ OPENAI_API_KEY w = None.
Proof.
  unfold module_loads. destruct m; simpl; try (split; [done|by intros [? _]]).
  unfold OpenAI.module_load.
  destruct (OPENAI_API_KEY w); split; try done. by intros [_ ?].
Qed.

Lemma dispatch_adapter (m : AIModel)
  (server : jsstring -> JsValue -> M FetchResponse) (body : JsValue) :
  Router.dispatch server (Router.model_text m) body
  = Router.fetch_POST server (adapter_path m) body.
Proof. by destruct m. Qed.

(** X11. For a payload the router accepts, the gateway fetches the route
    of the payload's model with the same, uncleaned payload. When that
    route's module loads, the gateway's answer is the adapter's answer,
    status and body unchanged, and the calls made are the router's one
    [fetch] followed by the adapter's own. When it does not load, which
    happens only for the OpenAI route with [OPENAI_API_KEY] unset, the
    adapter answers nothing: the router cannot read the framework's 500
    as JSON and answers from its own [catch], with status 500,
    [UNKNOWN_ERROR] and "An unexpected error occurred", after its one
    [fetch]. *)
Theorem gateway_relays_adapter (w : World) (body : JsValue)
  (data : ChatRequest) :
  parse_request (request_of body) = ret (body, data) ->
  (module_loads (model data) w = true ->
   exists r calls,
     adapter_route (model data) w (request_of body) = (Returned r, calls)
     /\ adapter_POST (model data) w (request_of body) = (Returned r, calls)
     /\ gateway w (request_of body)
        = (Returned r, CallFetch (adapter_path (model data)) body :: calls))
  /\ (module_loads (model data) w = false ->
      model data = openai /\ OPENAI_API_KEY w = None
      /\ (exists e, adapter_route (model data) w (request_of body)
                    = (Threw e, []))
      /\ exists r,
           gateway w (request_of body)
           = (Returned r, [CallFetch (lit "/api/ai-chat/openai") body])
           /\ http_status r = 500
           /\ reply (http_body r) = []
           /\ error (http_body r)
              = Some (lit "An unexpected error occurred")
           /\ errorType (http_body r) = Some UNKNOWN_ERROR).
Proof.
  intros Hp.
  assert (gateway w (request_of body)
          = try_catch
              (response <- (outbound
                              (CallFetch (adapter_path (model data)) body)
                              (Returned tt) ;;;
                            framework_answer
                              (adapter_route (model data) w
                                             (request_of body))) ;;
               responseData <- lift (fetch_json response) ;;
               NextResponse_json responseData (fetch_status response))
              outer_catch) as Hg.
  { unfold gateway, Router.POST. rewrite Hp, bind_ret_l. cbv zeta.
    simpl fst. simpl snd.
    rewrite dispatch_adapter. unfold Router.fetch_POST.
    by rewrite local_server_adapter. }
  split; intros Hl.
  - destruct (adapter_POST_returns (model data) w (request_of body))
      as (r & calls & Hr & Hv).
    exists r, calls. rewrite (adapter_route_loaded _ _ _ Hl) in *.
    split; [exact Hr|]. split; [exact Hr|].
    rewrite Hg, Hr, framework_answer_returned.
    unfold bind, outbound, ret, lift, try_catch. simpl.
    rewrite valid_status_json by done. simpl.
    rewrite !app_nil_r. by destruct r.
  - apply module_loads_false in Hl as [Hm Hk].
    split; [done|]. split; [done|].
    rewrite Hg, Hm. simpl adapter_route. simpl adapter_path.
    rewrite (OpenAI_route_unloaded w _ Hk).
    split; [by eexists|].
    eexists. split; [by vm_compute|]. by vm_compute.
Qed.

End Relay.

Lemma gateway_relays_adapter_witness :
  parse_request (request_of deepseek_payload)
  = ret (deepseek_payload, deepseek_request)
  /\ gateway answering_world (request_of deepseek_payload)
     = (Returned (reply_response (lit "Hello!") None),
        [CallFetch (lit "/api/ai-chat/deepseek") deepseek_payload;
         CallAxiosPost (lit "https://api.deepseek.com/chat/completions")
           (DeepSeek.requestBody deepseek_request)
           (DeepSeek.headers answering_world)]).
Proof.
  assert (parse_request (request_of deepseek_payload)
          = ret (deepseek_payload, deepseek_request)) as Hp by (by vm_compute).
  split; [exact Hp|].
  destruct (gateway_relays_adapter answering_world deepseek_payload
              deepseek_request Hp) as [Hloaded _].
  destruct (Hloaded eq_refl) as (r & calls & _ & Hr & Hg).
  rewrite Hg.
  assert (adapter_POST deepseek answering_world (request_of deepseek_payload)
          = (Returned (reply_response (lit "Hello!") None),
             [CallAxiosPost (lit "https://api.deepseek.com/chat/completions")
                (DeepSeek.requestBody deepseek_request)
                (DeepSeek.headers answering_world)])) as Ha.
  { by vm_compute. }
  simpl model in Hr. rewrite Ha in Hr. by injection Hr as <- <-.
Defined.

(* ===================================================================== *)
(** ** The error taxonomy the normaliser can produce *)
(* ===================================================================== *)

Section NormaliserRange.

Lemma table_rows (k : jsstring) (info : ErrorInfo) :
  API_ERROR_MESSAGES !! k = Some info ->
  normaliser_type (info_type info) /\ info_suggestion info <> None.
Proof.
  unfold API_ERROR_MESSAGES, normaliser_type. intros H.
  repeat (apply lookup_insert_Some in H as [[_ <-]|[_ H]];
          [simpl; split; [auto 10|discriminate]|]).
  by rewrite lookup_empty in H.
Qed.

(** X12. For a value that is not already a [ChatErrorImpl], whenever the
    normaliser returns it gives one of the types [API_ERROR],
    [AUTHENTICATION_ERROR], [VALIDATION_ERROR], [NETWORK_ERROR] and
    [UNKNOWN_ERROR] (never [RATE_LIMIT_ERROR], [CONFIGURATION_ERROR] or
    [UNSUPPORTED_MODEL]), always with a suggestion, and its status code is
    the carried status when there is one and 503 or 500 otherwise. It
    does return when the value carries no status or a status of the
    table; when it throws, the value carries a status outside the table
    and what is thrown is the [TypeError] of the string conversion. *)
Theorem normaliser_range (error : Thrown) (defaultMessage : jsstring) :
  foreign_error error ->
  (forall c, createErrorResponse error defaultMessage = Returned c ->
     normaliser_type (type c)
     /\ suggestion c <> None
     /\ match carried_status error with
        | Some s => statusCode c = s
        | None => statusCode c = 503 \/ statusCode c = 500
        end)
  /\ (carried_status error = None
      \/ (exists s, carried_status error = Some s
                    /\ listed_status s = true) ->
      exists c, createErrorResponse error defaultMessage = Returned c)
  /\ (forall t, createErrorResponse error defaultMessage = Threw t ->
        t = conversion_error
        /\ exists s, carried_status error = Some s
                     /\ listed_status s = false).
Proof.
  intros Hf. split; [|split].
  - intros c. unfold normaliser_type.
    destruct error as [e|e|v]; simpl; [done| |intros [= <-]; simpl; auto 10].
    destruct (response_with_status e) as [r|]; simpl.
    + destruct (API_ERROR_MESSAGES !! status_toString r) as [info|] eqn:Hl.
      * intros [= <-]. simpl.
        destruct (table_rows _ _ Hl) as [Ht Hs]. by repeat split.
      * destruct (upstream_message r e); [|discriminate].
        intros [= <-]. simpl. auto 10.
    + destruct (_ || _); intros [= <-]; simpl; auto 10.
  - destruct (createErrorResponse error defaultMessage) as [c|t] eqn:Hc;
      [by exists c|].
    destruct (createErrorResponse_throws_only _ _ _ Hc)
      as (_ & e & r & -> & Hr & Hl & _).
    simpl. rewrite Hr. intros [H|(s & [= <-] & Hs)]; [discriminate|].
    by rewrite Hs in Hl.
  - intros t Hc.
    destruct (createErrorResponse_throws_only _ _ _ Hc)
      as (-> & e & r & -> & Hr & Hl & _).
    split; [done|]. exists (status r). simpl. by rewrite Hr.
Qed.

End NormaliserRange.

Lemma normaliser_range_witness :
  let error := http_error (lit "Too Many Requests")
                          (mkUpstreamResponse 429 JNull eq_refl) in
  foreign_error error
  /\ exists c, createErrorResponse error default_defaultMessage = Returned c
               /\ type c <> RATE_LIMIT_ERROR.
Proof.
  intros error. split; [exact I|].
  destruct (normaliser_range error default_defaultMessage I)
    as (Hrange & Hreturns & _).
  destruct (Hreturns (or_intror (ex_intro _ 429 (conj eq_refl eq_refl))))
    as [c Hc].
  exists c. split; [exact Hc|].
  destruct (Hrange c Hc) as [Ht _].
  intros Heq. rewrite Heq in Ht.
  destruct Ht as [H|[H|[H|[H|H]]]]; discriminate.
Defined.

(* ===================================================================== *)
(** ** The request schema *)
(* ===================================================================== *)

Section Schema.

Local Ltac lit_ne :=
  let H := fresh in intros H; vm_compute in H; discriminate.

Lemma role_schema_text (path : ZodIssue) (r : MessageRole) :
  role_schema path (JStr (role_text r)) = Zod.Ok r.
Proof. by destruct r. Qed.

(** X13. What the OpenAI adapter sends for a message reads back, through
    the element schema of [messages], as that same message: role,
    content, name and function call all survive. What the DeepSeek adapter
    sends reads back as the message without its name and function
    call. *)
Theorem message_encoding_round_trip (path : ZodIssue) (msg : Message) :
  message_schema path (OpenAI.message_json msg) = Zod.Ok msg
  /\ message_schema path (DeepSeek.message_json msg)
     = Zod.Ok (mkMessage (role msg) (content msg) None None).
Proof.
  destruct msg as [r c n fc]. split.
  - unfold OpenAI.message_json, message_schema, Zod.field.
    cbn [role content name function_call].
    rewrite lookup_insert_eq.
    rewrite (lookup_insert_ne _ (lit "role") (lit "content")) by lit_ne.
    rewrite lookup_insert_eq.
    rewrite !(lookup_insert_ne _ _ (lit "name")) by lit_ne.
    rewrite lookup_insert_eq.
    rewrite !(lookup_insert_ne _ _ (lit "function_call")) by lit_ne.
    rewrite lookup_insert_eq.
    cbn [default from_option id]. rewrite role_schema_text.
    destruct n as [n|], fc as [[fn fa]|]; reflexivity.
  - unfold DeepSeek.message_json, message_schema, Zod.field.
    cbn [role content].
    rewrite lookup_insert_eq.
    rewrite (lookup_insert_ne _ (lit "role") (lit "content")) by lit_ne.
    rewrite lookup_insert_eq.
    rewrite !(lookup_insert_ne _ _ (lit "name")) by lit_ne.
    rewrite !(lookup_insert_ne _ _ (lit "function_call")) by lit_ne.
    rewrite lookup_empty.
    cbn [default from_option id]. by rewrite role_schema_text.
Qed.

(** X14. The request schema is not strict: a top-level key other than
    [model], [messages], [stream] and [parameters] changes nothing in what
    validation returns. *)
Theorem schema_ignores_unknown_keys (props : gmap (list N) JsValue)
  (k : jsstring) (v : JsValue) :
  ~ schema_key k ->
  chatRequestSchema (JObj (<[ k := v ]> props))
  = chatRequestSchema (JObj props).
Proof.
  unfold schema_key. intros Hk.
  unfold chatRequestSchema, Zod.field.
  rewrite !lookup_insert_ne; [done|..]; intros H; apply Hk; auto 10.
Qed.

End Schema.

Lemma schema_ignores_unknown_keys_witness :
  ~ schema_key (lit "user_id")
  /\ chatRequestSchema
       (JObj (<[ lit "user_id" := JStr (lit "42") ]> (spread openai_payload)))
     = chatRequestSchema openai_payload.
Proof.
  assert (~ schema_key (lit "user_id")) as H.
  { intros [H|[H|[H|H]]]; vm_compute in H; discriminate. }
  split; [exact H|].
  apply (schema_ignores_unknown_keys (spread openai_payload)
           (lit "user_id") (JStr (lit "42")) H).
Defined.

(* ===================================================================== *)
(** ** The chat page *)
(* ===================================================================== *)

Section ChatPage.

Local Ltac lit_ne :=
  let H := fresh in intros H; vm_compute in H; discriminate.

Lemma trim_empty_whitespace (s : jsstring) :
  trim s = [] -> whitespace_only s.
Proof.
  unfold trim. intros H.
  assert (trimStart s = []) as Hs.
  { pose proof (trimStart_head s) as Hh.
    destruct (trimStart s) as [|c u]; [done|]. simpl in Hh.
    rewrite trimEnd_cons in H by done. discriminate. }
  clear H. unfold whitespace_only.
  induction s as [|c s IH]; [constructor|]. simpl in Hs.
  destruct (is_whitespace c) eqn:Hc; [|discriminate].
  constructor; auto.
Qed.

Lemma blank_input (s : jsstring) :
  JsString.truthy (trim s) = false <-> whitespace_only s.
Proof.
  split.
  - intros H. apply trim_empty_whitespace. by destruct (trim s).
  - intros H. by rewrite trim_whitespace.
Qed.

Lemma model_schema_known (path : ZodIssue) (v : JsValue) :
  known_model v -> exists m, model_schema path v = Zod.Ok m.
Proof. intros [->|[->| ->]]; eexists; reflexivity. Qed.

Lemma page_message_cleanable (m : Page.ChatMessage) :
  Page.text_content m -> cleanable (Page.message_json m) = true.
Proof.
  intros [s Hs]. unfold cleanable, Page.message_json, get_prop.
  rewrite (lookup_insert_ne _ (lit "role") (lit "content")) by lit_ne.
  rewrite lookup_insert_eq, Hs. reflexivity.
Qed.

Lemma page_message_accepted (path : ZodIssue) (m : Page.ChatMessage) :
  Page.page_role m -> Page.text_content m ->
  exists msg,
    message_schema path (cleaned_entry (Page.message_json m)) = Zod.Ok msg
    /\ JStr (content msg) = JStr (cleaned_content (Page.message_json m)).
Proof.
  intros Hr [s Hs]. unfold cleaned_entry.
  rewrite message_schema_cleaned.
  assert (get_prop_opt (Page.message_json m) (lit "role")
          = JStr (Page.msg_role m)) as ->.
  { unfold get_prop_opt, get_prop, Page.message_json.
    by rewrite lookup_insert_eq. }
  destruct Hr as [-> | ->]; eexists; (split; [reflexivity|done]).
Qed.

Lemma page_messages_accepted (path : ZodIssue) (i : nat)
  (msgs : list Page.ChatMessage) :
  Forall (fun m => Page.page_role m /\ Page.text_content m) msgs ->
  forallb cleanable (map Page.message_json msgs) = true
  /\ exists l,
       Zod.array_items message_schema path i
         (map cleaned_entry (map Page.message_json msgs)) = Zod.Ok l
       /\ length l = length msgs.
Proof.
  intros H. revert i. induction H as [|m msgs [Hr Ht] _ IH]; intros i.
  - split; [done|]. by exists [].
  - destruct (IH (S i)) as [Hc (l & Hl & Hlen)].
    split.
    + cbn [map forallb]. by rewrite page_message_cleanable, Hc.
    + destruct (page_message_accepted (path ++ [PIdx i]) m Hr Ht)
        as (msg & Hm & _).
      exists (msg :: l). cbn [map Zod.array_items].
      rewrite Hm, Hl. split; [reflexivity|]. simpl. by rewrite Hlen.
Qed.

Lemma payload_messages (st : Page.State) :
  get_prop (Page.payload st) (lit "messages")
  = Some (JArr (map Page.message_json
                  (Page.st_messages st
                   ++ [Page.mkChatMessage (lit "user")
                         (JStr (Page.st_input st))]))).
Proof.
  unfold Page.payload, get_prop.
  rewrite (lookup_insert_ne _ (lit "model") (lit "messages")) by lit_ne.
  by rewrite lookup_insert_eq.
Qed.

(** X15. Every request the chat page sends from a well-formed state
    (the model one of the select's options, the conversation made of user
    and assistant turns with text) gets through the gateway's cleaning
    and validation: the prologue accepts it, with one validated message
    per turn of the conversation plus the new one. Empty assistant turns,
    which the page stores after a failure, do not stand in the way. *)
Theorem page_requests_are_valid (st : Page.State) :
  Page.well_formed st ->
  exists data,
    parse_request (request_of (Page.payload st))
    = ret (Page.payload st, data)
    /\ Router.model_text (model data) = Page.st_model st
    /\ length (messages data) = S (length (Page.st_messages st))
    /\ stream data = None
    /\ parameters data = None.
Proof.
  intros [Hmodel Hmsgs].
  assert (Forall (fun m => Page.page_role m /\ Page.text_content m)
            (Page.st_messages st
             ++ [Page.mkChatMessage (lit "user")
                   (JStr (Page.st_input st))])) as Hall.
  { apply Forall_app. split; [done|]. constructor; [|constructor].
    split; [by left|by eexists]. }
  destruct (page_messages_accepted [PKey (lit "messages")] 0 _ Hall)
    as [Hclean (l & Hl & Hlen)].
  destruct (model_schema_known [PKey (lit "model")] _ Hmodel) as [m Hm].
  exists (mkChatRequest m l None None).
  unfold parse_request, request_of, req_json. simpl json. cbv iota.
  rewrite bind_ret_l.
  rewrite (cleanedMessages_array _ _ (payload_messages st)).
  rewrite mapM_clean_all by done. rewrite bind_ret_l.
  unfold validationResult, chatRequestSchema, Zod.field.
  rewrite lookup_insert_eq.
  rewrite !(lookup_insert_ne _ (lit "messages")) by lit_ne.
  unfold spread, Page.payload.
  rewrite lookup_insert_eq.
  rewrite !(lookup_insert_ne _ (lit "model")) by lit_ne.
  rewrite !(lookup_insert_ne _ (lit "messages")) by lit_ne.
  rewrite lookup_empty. cbn [default from_option id Zod.array].
  rewrite Hm, Hl. cbn.
  split; [reflexivity|]. split.
  - pose proof (model_schema_Ok _ _ _ Hm) as Heq. by injection Heq as ->.
  - split; [|done]. rewrite Hlen, length_app. simpl. lia.
Qed.

(** X16. [sendMessage] does nothing when the input is blank: no
    request, the state untouched. Otherwise it sends one request and
    leaves the conversation longer by exactly two turns, the user's input
    as typed and then the assistant's, which is [data.reply] or, when the
    request threw, the fixed text "Error: Failed to get response."; the
    earlier turns are kept in order, the input is cleared and [loading] is
    off. A well-formed state stays well formed when the endpoint replies
    with text. *)
Theorem sendMessage_conversation (fetch : JsValue -> Page.FetchOutcome)
  (st : Page.State) :
  (whitespace_only (Page.st_input st) ->
   Page.sendMessage fetch st = (st, None))
  /\ (~ whitespace_only (Page.st_input st) ->
      exists answer,
        Page.sendMessage fetch st
        = (Page.mkState (Page.st_model st) []
             (Page.st_messages st
              ++ [Page.mkChatMessage (lit "user") (JStr (Page.st_input st));
                  Page.mkChatMessage (lit "assistant") answer])
             false,
           Some (Page.payload st))
        /\ match fetch (Page.payload st) with
           | Page.Replied reply => answer = reply
           | Page.Rejected =>
               answer = JStr (lit "Error: Failed to get response.")
           end)
  /\ (Page.well_formed st -> Page.replies_text fetch ->
      Page.well_formed (fst (Page.sendMessage fetch st))).
Proof.
  unfold Page.sendMessage. split; [|split].
  - intros H. apply blank_input in H. by rewrite H.
  - intros H.
    destruct (JsString.truthy (trim (Page.st_input st))) eqn:Ht.
    + simpl. destruct (fetch (Page.payload st)); eexists; by split.
    + by apply blank_input in Ht.
  - intros [Hm Hmsgs] Hfetch.
    destruct (JsString.truthy (trim (Page.st_input st))); simpl;
      [|by split].
    split; [done|]. simpl. apply Forall_app. split; [done|].
    constructor; [split; [by left|by eexists]|].
    constructor; [|constructor].
    destruct (fetch (Page.payload st)) as [reply|] eqn:Hf; simpl.
    + destruct (Hfetch _ _ Hf) as [s ->]. split; [by right|by eexists].
    + split; [by right|by eexists].
Qed.

Lemma gateway_fetch_replies_text (w : World) :
  Page.replies_text (Page.gateway_fetch w).
Proof.
  intros body reply. unfold Page.gateway_fetch.
  destruct (fst (gateway w (request_of body))); [|discriminate].
  intros [= <-]. by eexists.
Qed.

(** X17. With the gateway as its endpoint, the page never falls back to
    its own error text: the assistant turn it appends is the [reply] of
    the gateway's answer, whatever the status. When that answer is a
    failure the turn is therefore the empty string: the page does not
    show [error] or [suggestion]. *)
Theorem page_shows_gateway_reply (w : World) (st : Page.State) :
  ~ whitespace_only (Page.st_input st) ->
  exists r calls,
    gateway w (request_of (Page.payload st)) = (Returned r, calls)
    /\ Page.st_messages (fst (Page.sendMessage (Page.gateway_fetch w) st))
       = Page.st_messages st
         ++ [Page.mkChatMessage (lit "user") (JStr (Page.st_input st));
             Page.mkChatMessage (lit "assistant")
               (JStr (reply (http_body r)))]
    /\ (error (http_body r) <> None -> reply (http_body r) = []).
Proof.
  intros Hin.
  destruct (gateway_returns w (request_of (Page.payload st)))
    as (r & calls & Hg & Hshape).
  exists r, calls. split; [exact Hg|]. split.
  - unfold Page.sendMessage.
    destruct (JsString.truthy (trim (Page.st_input st))) eqn:Ht;
      [|by apply blank_input in Ht].
    simpl. unfold Page.gateway_fetch. by rewrite Hg.
  - intros He. destruct Hshape as [[_ [Hnone _]]|[Hr _]]; [done|exact Hr].
Qed.

End ChatPage.

Lemma page_requests_are_valid_witness :
  let st := Page.mkState (lit "gemini") (lit "and then?")
              [Page.mkChatMessage (lit "user") (JStr (lit "Hi"));
               Page.mkChatMessage (lit "assistant") (JStr [])] false in
  Page.well_formed st
  /\ exists data,
       parse_request (request_of (Page.payload st))
       = ret (Page.payload st, data)
       /\ length (messages data) = 3%nat.
Proof.
  intros st.
  assert (Page.well_formed st) as Hwf.
  { split; [right; by left|].
    repeat constructor; try (by eexists); by right. }
  split; [exact Hwf|].
  destruct (page_requests_are_valid st Hwf) as (data & Hp & _ & Hlen & _).
  exists data. by split.
Defined.

Lemma sendMessage_conversation_witness :
  let st := Page.mkState (lit "openai") (lit "  ") [] false in
  whitespace_only (Page.st_input st)
  /\ Page.sendMessage (fun _ => Page.Rejected) st = (st, None).
Proof.
  intros st.
  assert (whitespace_only (Page.st_input st)) as H.
  { unfold whitespace_only. repeat constructor. }
  split; [exact H|].
  by destruct (sendMessage_conversation (fun _ => Page.Rejected) st)
    as [Hblank _]; apply Hblank.
Defined.

Lemma page_shows_gateway_reply_witness :
  let st := Page.mkState (lit "deepseek") (lit "Hi") [] false in
  ~ whitespace_only (Page.st_input st)
  /\ Page.st_messages
       (fst (Page.sendMessage (Page.gateway_fetch no_keys_world) st))
     = [Page.mkChatMessage (lit "user") (JStr (lit "Hi"));
        Page.mkChatMessage (lit "assistant") (JStr [])].
Proof.
  intros st.
  assert (~ whitespace_only (Page.st_input st)) as H.
  { intros Hw. apply blank_input in Hw. vm_compute in Hw. discriminate. }
  split; [exact H|].
  destruct (page_shows_gateway_reply no_keys_world st H)
    as (r & calls & Hg & Hm & _).
  rewrite Hm. simpl.
  assert (fst (gateway no_keys_world (request_of (Page.payload st)))
          = Returned
              (error_answer
                 (ChatErrorImpl (lit "DeepSeek API key is not configured")
                    500 CONFIGURATION_ERROR undefined_details
                    (Some (lit "Please configure your DeepSeek API key in the environment variables.")))))
    as Hc by (by vm_compute).
  rewrite Hg in Hc. simpl in Hc. injection Hc as ->. reflexivity.
Defined.

(* ===================================================================== *)
(** ** Further edge cases of the handlers *)
(* ===================================================================== *)

Section HandlerEdges.

(** X18. A key set to the empty string stops every adapter at the first
    statement of its [POST], and so does an unset key for the Gemini and
    DeepSeek adapters, whatever the request (malformed bodies included):
    the route answers 500 [CONFIGURATION_ERROR] with the message
    "<Provider> API key is not configured", the suggestion to configure
    it, no details, and no outbound call. With [OPENAI_API_KEY] unset
    the OpenAI route never gets to that statement: its module throws
    while it loads and the route gives no response of its own. *)
Theorem key_guard_answer (m : AIModel) (w : World) (req : NextRequest) :
  env_missing (adapter_key m w) = true ->
  (module_loads m w = true ->
   fails_with (adapter_route m w req) (key_not_configured (adapter_name m)))
  /\ (m <> openai \/ adapter_key m w = Some [] -> module_loads m w = true)
  /\ (module_loads m w = false ->
      m = openai /\ OPENAI_API_KEY w = None
      /\ exists e, adapter_route m w req = (Threw e, [])).
Proof.
  intros Hk. split; [|split].
  - intros Hl. rewrite (adapter_route_loaded m w req Hl).
    unfold fails_with.
    destruct m; simpl in *;
      unfold OpenAI.POST, Gemini.POST, DeepSeek.POST, require_key;
      rewrite Hk; reflexivity.
  - unfold module_loads.
    destruct m; simpl; try done.
    unfold OpenAI.module_load. intros [H|H]; [done|].
    simpl in H. by rewrite H.
  - intros Hl. apply module_loads_false in Hl as [-> Hn].
    split; [done|]. split; [done|]. simpl.
    rewrite (OpenAI_route_unloaded w req Hn). by eexists.
Qed.

(** X19. The OpenAI handler reads the SDK's answer by the request's own
    [stream] field. When the answer is of the other kind (a stream
    although [stream] was not set, as happens when only [parameters]
    carry [stream: true], or a completion although it was), the reading
    throws and the handler answers 500 [UNKNOWN_ERROR] with "Failed to get
    response from OpenAI"; the provider call has been made. *)
Theorem openai_answer_of_other_kind (w : World) (req : NextRequest)
  (body : JsValue) (data : ChatRequest) (result : OpenAIResult) :
  env_missing (OPENAI_API_KEY w) = false ->
  parse_request req = ret (body, data) ->
  openai_create w (OpenAI.requestBody data) = Returned result ->
  read_as_sent (stream data) result = false ->
  exists text,
    OpenAI.POST w req
    = (Returned
         (error_answer
            (ChatErrorImpl (lit "Failed to get response from OpenAI") 500
               UNKNOWN_ERROR (DError (mkErrorObj text None))
               (Some (lit "Please try again later or contact support if the issue persists.")))),
       [CallOpenAICreate (OpenAI.requestBody data)]).
Proof.
  intros Hk Hp Hc Hkind.
  rewrite (OpenAI_runs w req body data Hk Hp).
  unfold OpenAI.provider_part. cbv zeta.
  rewrite Hc, bind_outbound. unfold OpenAI.read_completion.
  unfold read_as_sent in Hkind.
  destruct result as [c|s]; destruct (default false (stream data));
    try discriminate; eexists; by vm_compute.
Qed.

(** X20. When the router's [fetch] of the adapter rejects, the router
    answers from its own [catch]: 503 [NETWORK_ERROR] if the message
    contains "network" or "connect", else 500 [UNKNOWN_ERROR] with "An
    unexpected error occurred". The one [fetch], to the path of the
    payload's model and with the uncleaned payload, is the only call. *)
Theorem router_fetch_rejected (body : JsValue) (data : ChatRequest)
  (text : jsstring) :
  parse_request (request_of body) = ret (body, data) ->
  Router.POST (failing_server text) (request_of body)
  = (Returned
       (error_answer
          (if connectivity_keyword text then
             ChatErrorImpl (lit "Unable to connect to the AI service.")
               503 NETWORK_ERROR (DError (mkErrorObj text None))
               (Some (lit "Please check your internet connection and try again."))
           else
             ChatErrorImpl (lit "An unexpected error occurred") 500
               UNKNOWN_ERROR (DError (mkErrorObj text None))
               (Some (lit "Please try again later or contact support if the issue persists.")))),
     [CallFetch (adapter_path (model data)) body]).
Proof.
  intros Hp. unfold Router.POST. rewrite Hp, bind_ret_l. cbv zeta.
  simpl fst. simpl snd. rewrite dispatch_adapter.
  unfold Router.fetch_POST, failing_server.
  rewrite bind_outbound. simpl fst. simpl snd.
  unfold runtime_error, throw, bind, try_catch, outer_catch.
  destruct (connectivity_keyword text) eqn:Hkw.
  - by rewrite createErrorResponse_network.
  - by rewrite createErrorResponse_unknown.
Qed.

End HandlerEdges.

Lemma key_guard_answer_witness :
  env_missing (adapter_key openai empty_keys_world) = true
  /\ fails_with
       (OpenAI.route empty_keys_world
                     (malformed_request (lit "Unexpected end")))
       (key_not_configured "OpenAI").
Proof.
  split; [reflexivity|].
  destruct (key_guard_answer openai empty_keys_world
              (malformed_request (lit "Unexpected end")) eq_refl)
    as [Hloaded _].
  exact (Hloaded eq_refl).
Defined.

Lemma openai_answer_of_other_kind_witness :
  let w := openai_world
             (ChunkStream
                (mkStream [openai_chunk "Hel"; openai_chunk "lo"] None)) in
  exists data,
    parse_request (request_of stream_by_parameter_payload)
    = ret (stream_by_parameter_payload, data)
    /\ OpenAI.requestBody data !! lit "stream" = Some (JBool true)
    /\ stream data = None
    /\ exists text,
         OpenAI.POST w (request_of stream_by_parameter_payload)
         = (Returned
              (error_answer
                 (ChatErrorImpl (lit "Failed to get response from OpenAI") 500
                    UNKNOWN_ERROR (DError (mkErrorObj text None))
                    (Some (lit "Please try again later or contact support if the issue persists.")))),
            [CallOpenAICreate (OpenAI.requestBody data)]).
Proof.
  intros w.
  exists (mkChatRequest openai [mkMessage user (lit "Hi") None None] None
            (Some (<[ lit "stream" := JBool true ]> ∅))).
  assert (parse_request (request_of stream_by_parameter_payload)
          = ret (stream_by_parameter_payload,
                 mkChatRequest openai [mkMessage user (lit "Hi") None None]
                   None (Some (<[ lit "stream" := JBool true ]> ∅)))) as Hp.
  { by vm_compute. }
  split; [exact Hp|]. split; [by vm_compute|]. split; [reflexivity|].
  apply (openai_answer_of_other_kind w
           (request_of stream_by_parameter_payload)
           stream_by_parameter_payload _
           (ChunkStream
              (mkStream [openai_chunk "Hel"; openai_chunk "lo"] None))
           eq_refl Hp eq_refl eq_refl).
Defined.

Lemma router_fetch_rejected_witness :
  parse_request (request_of deepseek_payload)
  = ret (deepseek_payload, deepseek_request)
  /\ fst (Router.POST (failing_server (lit "fetch failed"))
                      (request_of deepseek_payload))
     = Returned
         (error_answer
            (ChatErrorImpl (lit "An unexpected error occurred") 500
               UNKNOWN_ERROR (DError (mkErrorObj (lit "fetch failed") None))
               (Some (lit "Please try again later or contact support if the issue persists.")))).
Proof.
  assert (parse_request (request_of deepseek_payload)
          = ret (deepseek_payload, deepseek_request)) as Hp by (by vm_compute).
  split; [exact Hp|].
  by rewrite (router_fetch_rejected deepseek_payload deepseek_request
                (lit "fetch failed") Hp).
Defined.
